(** * hyperglass ALS features: cache, telemetry sampler, iperf3 sessions,
      configuration validation and speed-test files

    A shallow embedding of

    - [hyperglass/api/routes.py]            ([query]),
    - [hyperglass/api/bandwidth.py]         ([BandwidthMonitor]),
    - [hyperglass/api/network_tools.py]     ([IPerf3Server], ping, traceroute),
    - [hyperglass/api/speedtest.py]         (the download and file endpoints),
    - [hyperglass/api/als_startup.py]       (start-up and shutdown),
    - [hyperglass/models/config/als_features.py] and
      [hyperglass/util/als_config_validator.py],

    followed by the properties stated about them.

    Conventions.  Python [int] is [Z]; Python [float] is the kernel's
    binary64 [float] (same format, same rounding); Python [str] is [string],
    read as a sequence of code points below 256; a [dict] used as a map is a
    [gmap]; an [async def] is run to completion, its awaits being the points
    where the outside world (store, operating system, clock) is consulted.
    A Python exception is the [Raise] outcome of a computation in the
    state-and-exception monad [M]. *)

From Stdlib Require Import ZArith String Ascii List Lia Floats DecimalString.
From stdpp Require Import base option list gmap strings.
From Equations Require Import Equations.

Open Scope Z_scope.

(* ===================================================================== *)
(** * Python base layer *)
(* ===================================================================== *)

Module Py.

(** Exceptions that occur in the modelled code.  [OSError] stands for the
    whole family ([FileNotFoundError], [PermissionError], ...);
    [HTTPException] is litestar's, with its status code and detail. *)
Inductive exn : Type :=
| ValueError (msg : string)
| RuntimeError (msg : string)
| TypeError (msg : string)
| OSError (msg : string)
| OverflowError (msg : string)
| ConnectionError (msg : string)
| ValidationError (msg : string)
| HyperglassError (msg : string)
| HTTPException (status_code : Z) (detail : string).

(** [str(e)] as used by the f-strings of the source. *)
Definition exn_str (e : exn) : string :=
  match e with
  | ValueError m | RuntimeError m | TypeError m | OSError m | OverflowError m
  | ConnectionError m | ValidationError m | HyperglassError m => m
  | HTTPException c d => d
  end.

(** Outcome of a call: a value or a raised exception. *)
Inductive Res (A : Type) : Type :=
| Ok (a : A)
| Raise (e : exn).
Arguments Ok {A} a.
Arguments Raise {A} e.

(** State-and-exception monad: the state survives a raise, as the heap of
    a Python process does. *)
Definition M (St A : Type) : Type := St -> Res A * St.

Definition ret {St A} (a : A) : M St A := fun s => (Ok a, s).

Definition bind {St A B} (c : M St A) (k : A -> M St B) : M St B :=
  fun s => match c s with
           | (Ok a, s') => k a s'
           | (Raise e, s') => (Raise e, s')
           end.

Definition raise {St A} (e : exn) : M St A := fun s => (Raise e, s).

(** [try: c except Exception as e: h e] *)
Definition try_except {St A} (c : M St A) (h : exn -> M St A) : M St A :=
  fun s => match c s with
           | (Ok a, s') => (Ok a, s')
           | (Raise e, s') => h e s'
           end.

(** [try: c except ValueError: h]: any other exception passes through. *)
Definition try_except_ValueError {St A} (c : M St A) (h : M St A) : M St A :=
  fun s => match c s with
           | (Ok a, s') => (Ok a, s')
           | (Raise (ValueError _), s') => h s'
           | (Raise e, s') => (Raise e, s')
           end.

(** A call that does not touch the state. *)
Definition lift {St A} (r : Res A) : M St A := fun s => (r, s).

Definition get {St} : M St St := fun s => (Ok s, s).
Definition put {St} (s : St) : M St unit := fun _ => (Ok tt, s).
Definition modify {St} (f : St -> St) : M St unit := fun s => (Ok tt, f s).

(** ** [str] operations *)

Definition chars (s : string) : list ascii := list_ascii_of_string s.
Definition of_chars (l : list ascii) : string := string_of_list_ascii l.

(** [s.endswith(suffix)] *)
Definition endswith (s suffix : string) : bool :=
  bool_decide (chars suffix `suffix_of` chars s).

(** [s.startswith(prefix)] *)
Definition startswith (s prefix : string) : bool :=
  bool_decide (chars prefix `prefix_of` chars s).

(** [s[:-n]] for a positive literal [n]: everything but the last [n]
    characters (the empty string when [s] is shorter). *)
Definition drop_last (n : nat) (s : string) : string :=
  of_chars (take (length (chars s) - n)%nat (chars s)).

(** [l[-n:]] for a positive literal [n]: the last [n] items (the whole
    list when it is shorter). *)
Definition lastn {A} (n : nat) (l : list A) : list A :=
  drop (length l - n)%nat l.

(** [str(z)] for an [int]. *)
Definition str_int (z : Z) : string := NilZero.string_of_int (Z.to_int z).

(** ** [int(s)] for a [str]

    CPython's [PyLong_FromUnicodeObject] in base 10: optional white space,
    an optional sign, decimal digits in which single underscores may stand
    between two digits, optional white space.  Within code points below 256
    the white space is TAB, LF, VT, FF, CR, SPACE, and (once the string is
    not pure ASCII) NEL and NBSP; the only decimal digits are [0]..[9].
    Anything else, and a numeral of more than [int_max_str_digits] digits,
    raises [ValueError]. *)

Definition int_max_str_digits : nat := 4300.

Definition is_ascii_space (c : ascii) : bool :=
  let n := N_of_ascii c in
  ((9 <=? n) && (n <=? 13) || (n =? 32))%N.

Definition is_int_space (c : ascii) : bool :=
  let n := N_of_ascii c in
  (is_ascii_space c || (n =? 133) || (n =? 160))%N.

Definition digit_value (c : ascii) : option Z :=
  let n := N_of_ascii c in
  if ((48 <=? n) && (n <=? 57))%N then Some (Z.of_N n - 48) else None.

Fixpoint skip_spaces (l : list ascii) : list ascii :=
  match l with
  | c :: l' => if is_int_space c then skip_spaces l' else l
  | [] => []
  end.

(** The digit scan: [acc] is the value so far, [n] the number of digits
    seen, [prev_us] whether the previous character was an underscore.
    Returns the value, the digit count and the unread rest, or [None] on a
    doubled or trailing underscore. *)
Fixpoint scan_digits (l : list ascii) (acc : Z) (n : nat) (prev_us : bool)
  : option (Z * nat * list ascii) :=
  match l with
  | c :: l' =>
      match digit_value c with
      | Some d => scan_digits l' (10 * acc + d) (S n) false
      | None =>
          if Ascii.eqb c "_"%char then
            if prev_us then None else scan_digits l' acc n true
          else if prev_us then None else Some (acc, n, l)
      end
  | [] => if prev_us then None else Some (acc, n, [])
  end.

Definition invalid_literal (s : string) : exn :=
  ValueError ("invalid literal for int() with base 10: '" +:+ s +:+ "'").

Definition int_of_str (s : string) : Res Z :=
  let l := skip_spaces (chars s) in
  let '(neg, l) :=
    match l with
    | c :: l' =>
        if Ascii.eqb c "+"%char then (false, l')
        else if Ascii.eqb c "-"%char then (true, l')
        else (false, l)
    | [] => (false, l)
    end in
  match l with
  | c :: _ =>
      if Ascii.eqb c "_"%char then Raise (invalid_literal s)
      else
        match scan_digits l 0 0 false with
        | Some (v, n, rest) =>
            if (n =? 0)%nat then Raise (invalid_literal s)
            else if (int_max_str_digits <? n)%nat then
              Raise (ValueError "Exceeds the limit (4300 digits) for integer string conversion")
            else
              match skip_spaces rest with
              | [] => Ok (if neg then - v else v)
              | _ :: _ => Raise (invalid_literal s)
              end
        | None => Raise (invalid_literal s)
        end
  | [] => Raise (invalid_literal s)
  end.

(** ** [float] and numbers *)

(** [float(z)]: nearest binary64, ties to even.  (CPython raises
    [OverflowError] from 2^1024 on; the integers converted below are
    differences of 64-bit counters.) *)
Definition float_of_int (z : Z) : float :=
  SF2Prim (binary_normalize prec emax z 0 false).

(** A Python number as it sits in a [dict]: the literal [0] is an [int],
    the result of a true division by a [float] is a [float]. *)
Inductive number : Type :=
| Int (z : Z)
| Float (f : float).

End Py.

Import Py.

Declare Scope py_scope.
Delimit Scope py_scope with py.
Notation "'let*' x := c1 'in' c2" := (bind c1 (fun x => c2))
  (at level 10, x name, c1 at level 100, c2 at level 200,
   format "'[v' 'let*'  x  :=  c1  'in' '/' c2 ']'") : py_scope.
Open Scope py_scope.

(* ===================================================================== *)
(** * Telemetry sampler: [hyperglass/api/bandwidth.py] *)
(* ===================================================================== *)

Module Bandwidth.

(** One entry of [psutil.net_io_counters(pernic=True)]: the counters the
    sampler reads. *)
Record snetio : Type := mk_snetio {
  bytes_sent : Z;
  bytes_recv : Z;
  packets_sent : Z;
  packets_recv : Z
}.

(** The dict [current_stats]; every branch of the source fills the four
    rate keys, so a sample always has all nine. *)
Record Sample : Type := mk_sample {
  timestamp : float;
  s_bytes_sent : Z;
  s_bytes_recv : Z;
  s_packets_sent : Z;
  s_packets_recv : Z;
  send_rate : number;
  recv_rate : number;
  send_packets_rate : number;
  recv_packets_rate : number
}.

(** [collections.deque(maxlen=...)]: [None] is the unbounded deque. *)
Record deque (A : Type) : Type := mk_deque {
  maxlen : option nat;
  items : list A
}.
Arguments mk_deque {A} maxlen items.
Arguments maxlen {A} d.
Arguments items {A} d.

Definition deque_new {A} (maxlen : option nat) : deque A :=
  mk_deque maxlen [].

(** [d.append(x)]: the new item goes to the right end; a full bounded deque
    discards one item from the left end. *)
Definition deque_append {A} (d : deque A) (x : A) : deque A :=
  let l := items d ++ [x] in
  match maxlen d with
  | Some n => mk_deque (maxlen d) (if (n <? length l)%nat then drop 1 l else l)
  | None => mk_deque (maxlen d) l
  end.

(** [defaultdict(lambda: deque(maxlen=...))]: the factory is kept with the
    map, as in Python. *)
Record defaultdict : Type := mk_defaultdict {
  factory_maxlen : option nat;
  entries : gmap string (deque Sample)
}.

(** [dd[key]] read-only view: the deque stored, or what the factory would
    make. *)
Definition dd_get (dd : defaultdict) (key : string) : deque Sample :=
  default (deque_new (factory_maxlen dd)) (entries dd !! key).

(** [dd[key].append(x)]: creates the entry when it is missing. *)
Definition dd_append (dd : defaultdict) (key : string) (x : Sample) : defaultdict :=
  mk_defaultdict (factory_maxlen dd)
                 (<[key := deque_append (dd_get dd key) x]> (entries dd)).

(** The instance attributes of [BandwidthMonitor]. *)
Record BandwidthMonitor : Type := mk_monitor {
  interface_stats : defaultdict;
  last_stats : gmap string Sample;
  monitoring : bool;
  monitor_task : option nat
}.

(** The part of the event loop and of the logger the sampler touches: how
    many tasks were created, which were cancelled, what was logged. *)
Record Loop : Type := mk_loop {
  created : nat;
  cancelled : list nat;
  log : list string
}.

Definition create_task (lp : Loop) : nat * Loop :=
  (created lp, mk_loop (S (created lp)) (cancelled lp) (log lp)).

Definition cancel_task (t : nat) (lp : Loop) : Loop :=
  mk_loop (created lp) (cancelled lp ++ [t]) (log lp).

Definition log_line (msg : string) (lp : Loop) : Loop :=
  mk_loop (created lp) (cancelled lp) (log lp ++ [msg]).

(** [__init__], with the history capacity as a parameter; the source
    passes 60. *)
Definition new_monitor (capacity : option nat) : BandwidthMonitor :=
  mk_monitor (mk_defaultdict capacity ∅) ∅ false None.

Definition __init__ : BandwidthMonitor := new_monitor (Some 60%nat).

Definition start_monitoring (self : BandwidthMonitor) (lp : Loop)
  : BandwidthMonitor * Loop :=
  if monitoring self then (self, lp)
  else
    let '(task, lp) := create_task lp in
    (mk_monitor (interface_stats self) (last_stats self) true (Some task),
     log_line "Started bandwidth monitoring" lp).

Definition stop_monitoring (self : BandwidthMonitor) (lp : Loop)
  : BandwidthMonitor * Loop :=
  if negb (monitoring self) then (self, lp)
  else
    let self' := mk_monitor (interface_stats self) (last_stats self) false
                            (monitor_task self) in
    let lp := match monitor_task self with
              | Some t => cancel_task t lp
              | None => lp
              end in
    (self', log_line "Stopped bandwidth monitoring" lp).

(** [interface.startswith(('lo', 'docker', 'br-', 'veth'))] *)
Definition excluded (interface : string) : bool :=
  existsb (startswith interface) ["lo"; "docker"; "br-"; "veth"]%string.

Definition zero_rates (now : float) (stats : snetio) : Sample :=
  mk_sample now (bytes_sent stats) (bytes_recv stats)
            (packets_sent stats) (packets_recv stats)
            (Int 0) (Int 0) (Int 0) (Int 0).

(** The body of the [for] loop up to the two stores: [current_stats] for
    one interface, given what [self.last_stats] holds for it. *)
Definition current_stats (last : option Sample) (now : float) (stats : snetio)
  : Sample :=
  match last with
  | Some last =>
      let time_diff := (now - timestamp last)%float in
      if (0 <? time_diff)%float then
        mk_sample now (bytes_sent stats) (bytes_recv stats)
          (packets_sent stats) (packets_recv stats)
          (Float (float_of_int (bytes_sent stats - s_bytes_sent last) / time_diff))
          (Float (float_of_int (bytes_recv stats - s_bytes_recv last) / time_diff))
          (Float (float_of_int (packets_sent stats - s_packets_sent last) / time_diff))
          (Float (float_of_int (packets_recv stats - s_packets_recv last) / time_diff))
      else zero_rates now stats
  | None => zero_rates now stats
  end.

(** One iteration of [for interface, stats in net_io.items()]. *)
Definition collect_one (now : float) (self : BandwidthMonitor)
    (item : string * snetio) : BandwidthMonitor :=
  let '(interface, stats) := item in
  if excluded interface then self
  else
    let cur := current_stats (last_stats self !! interface) now stats in
    mk_monitor (dd_append (interface_stats self) interface cur)
               (<[interface := cur]> (last_stats self))
               (monitoring self) (monitor_task self).

(** What one tick reads from outside: [time.time()] and
    [psutil.net_io_counters(pernic=True)], which may raise. *)
Record Tick : Type := mk_tick {
  now : float;
  net_io : Res (gmap string snetio)
}.

Definition _collect_stats (self : BandwidthMonitor) (tick : Tick) (lp : Loop)
  : BandwidthMonitor * Loop :=
  match net_io tick with
  | Ok counters =>
      (foldl (collect_one (now tick)) self (map_to_list counters), lp)
  | Raise e =>
      (self, log_line ("Error collecting network stats: " +:+ exn_str e) lp)
  end.

(** [_monitor_loop] over the ticks that happen before it is cancelled:
    each iteration checks [self.monitoring], collects, and sleeps. *)
Fixpoint _monitor_loop (ticks : list Tick) (self : BandwidthMonitor) (lp : Loop)
  : BandwidthMonitor * Loop :=
  match ticks with
  | tick :: ticks' =>
      if monitoring self then
        let '(self, lp) := _collect_stats self tick lp in
        _monitor_loop ticks' self lp
      else (self, lp)
  | [] => (self, lp)
  end.

(** The history kept for an interface ([list(self.interface_stats[i])]
    without creating the entry). *)
Definition history (self : BandwidthMonitor) (interface : string) : list Sample :=
  items (dd_get (interface_stats self) interface).

(** The dict under ['current'] and the entry of one interface in the
    result of [get_current_stats]; a sample has all its keys, so the
    defaults of [latest.get] are never used. *)
Record Current : Type := mk_current {
  c_send_rate : number;
  c_recv_rate : number;
  c_send_packets_rate : number;
  c_recv_packets_rate : number;
  total_sent : Z;
  total_recv : Z;
  c_timestamp : float
}.

Record InterfaceStats : Type := mk_interface_stats {
  current : Current;
  recent : list Sample
}.

(** [get_current_stats]: per interface with a non-empty history, the
    rates and totals of the latest sample, and under ['history'] the last
    30 samples. *)
Definition get_current_stats (self : BandwidthMonitor)
  : gmap string InterfaceStats :=
  omap (fun stats_deque : deque Sample =>
          match last (items stats_deque) with
          | Some latest =>
              Some (mk_interface_stats
                      (mk_current (send_rate latest) (recv_rate latest)
                         (send_packets_rate latest) (recv_packets_rate latest)
                         (s_bytes_sent latest) (s_bytes_recv latest)
                         (timestamp latest))
                      (lastn 30 (items stats_deque)))
          | None => None
          end)
       (entries (interface_stats self)).

(** ** Vocabulary for the properties below *)


(** [b] keeps, of every history of its unbounded twin [u], the last [cap]
    samples, and agrees with it on everything else the sampler reads. *)
Definition keeps_last (cap : nat) (b u : BandwidthMonitor) : Prop :=
  last_stats b = last_stats u /\
  monitoring b = monitoring u /\
  forall i,
    maxlen (dd_get (interface_stats b) i) = Some cap /\
    maxlen (dd_get (interface_stats u) i) = None /\
    items (dd_get (interface_stats b) i) =
      lastn cap (items (dd_get (interface_stats u) i)).

(** The tick's counters were read and have an entry for [i]. *)
Definition reports (i : string) (tick : Tick) : bool :=
  match net_io tick with
  | Ok counters => bool_decide (is_Some (counters !! i))
  | Raise _ => false
  end.

End Bandwidth.

(* ===================================================================== *)
(** * iperf3 session manager: [hyperglass/api/network_tools.py] *)
(* ===================================================================== *)

Module NetworkTools.

(** The handle [asyncio.create_subprocess_exec] returns. *)
Record Process : Type := mk_process {
  pid : nat;
  argv : list string
}.

(** What the manager asks of the outside, in the order it asks. *)
Inductive Event : Type :=
| Bind (port : Z) (ok : bool)
| Spawn (cmd : list string) (child : nat)
| Terminate (child : nat)
| Wait (child : nat) (timeout_ms waited_ms : N) (exited : bool)
| Kill (child : nat)
| LogInfo (msg : string)
| LogError (msg : string).

(** The operating system as the manager meets it (random numbers, the
    socket probe, the process supervisor, the clock), after the interfaces
    of the specification: [try_bind(port) -> ok | in_use],
    [spawn(argv) -> handle] which may fail, [signal(handle, graceful)],
    [wait(handle, timeout) -> exited | timeout], [kill(handle)].
    - [randint n range] is the [n]-th result of [random.randint] over [range];
    - [can_bind n port] tells whether the [n]-th probe binds [port];
    - [exec cmd] is [None] when the program starts, the exception
      otherwise;
    - [exit_delay child] is the time a child takes to exit once sent
      SIGTERM ([None]: it never exits by itself);
    - [has_exited child] tells whether the child has exited by itself
      (iperf3 is started with [-1] and exits after one client) and the
      event loop has seen it, by the time the manager signals it. *)
Record OS : Type := mk_os {
  randint : nat -> Z * Z -> Z;
  can_bind : nat -> Z -> bool;
  exec : list string -> option exn;
  exit_delay : nat -> option N;
  has_exited : nat -> bool;
  draws : nat;
  next_pid : nat;
  clock : N;
  trace : list Event
}.

Definition os_draw (os : OS) : OS :=
  mk_os (randint os) (can_bind os) (exec os) (exit_delay os) (has_exited os)
        (S (draws os)) (next_pid os) (clock os) (trace os).

Definition os_emit (ev : Event) (os : OS) : OS :=
  mk_os (randint os) (can_bind os) (exec os) (exit_delay os) (has_exited os)
        (draws os) (next_pid os) (clock os) (trace os ++ [ev]).

Definition os_fork (os : OS) : OS :=
  mk_os (randint os) (can_bind os) (exec os) (exit_delay os) (has_exited os)
        (draws os) (S (next_pid os)) (clock os) (trace os).

Definition os_sleep (ms : N) (os : OS) : OS :=
  mk_os (randint os) (can_bind os) (exec os) (exit_delay os) (has_exited os)
        (draws os) (next_pid os) (clock os + ms)%N (trace os).

(** The instance attributes of [IPerf3Server]. *)
Record IPerf3Server : Type := mk_server {
  processes : gmap Z Process;
  port_range : Z * Z
}.

Definition __init__ : IPerf3Server := mk_server ∅ (30000, 31000).

Definition St : Type := IPerf3Server * OS.

Definition on_os (f : OS -> OS) : M St unit :=
  fun s => (Ok tt, (s.1, f s.2)).

(** The [for _ in range(attempts)] loop of [get_available_port]: draw a
    port, try to bind a throw-away socket on it, return the port on
    success, go on after [OSError]; [RuntimeError] when the loop ends. *)
Fixpoint probe_ports (attempts : nat) (range : Z * Z) (os : OS) : Res Z * OS :=
  match attempts with
  | O => (Raise (RuntimeError "No available ports in range"), os)
  | S attempts' =>
      let port := randint os (draws os) range in
      let ok := can_bind os (draws os) port in
      let os' := os_emit (Bind port ok) (os_draw os) in
      if ok then (Ok port, os') else probe_ports attempts' range os'
  end.

Definition get_available_port : M St Z :=
  fun s => let '(r, os') := probe_ports 100 (port_range s.1) s.2 in (r, (s.1, os')).

(** [await asyncio.create_subprocess_exec] on the words of [cmd] *)
Definition create_subprocess_exec (cmd : list string) : M St Process :=
  fun s =>
    match exec s.2 cmd with
    | Some e => (Raise e, s)
    | None =>
        let child := next_pid s.2 in
        (Ok (mk_process child cmd), (s.1, os_emit (Spawn cmd child) (os_fork s.2)))
    end.

(** The dict [start_server] returns. *)
Record Started : Type := mk_started {
  port : Z;
  status : string;
  duration : Z;
  command_ipv4 : string;
  command_ipv6 : string
}.

Definition start_server (duration : Z) : M St Started :=
  try_except
    (let* port := get_available_port in
     let cmd := ["iperf3"; "-s"; "-p"; str_int port; "-1"; "--json"]%string in
     let* process := create_subprocess_exec cmd in
     let* _ := modify (fun s : St =>
                 (mk_server (<[port := process]> (processes s.1)) (port_range s.1), s.2)) in
     let* _ := on_os (os_emit (LogInfo ("Started iperf3 server on port " +:+ str_int port))) in
     ret (mk_started port "started" duration
            ("iperf3 -c <server_ip> -p " +:+ str_int port)
            ("iperf3 -c <server_ipv6> -p " +:+ str_int port)))
    (fun e =>
       let* _ := on_os (os_emit (LogError ("Failed to start iperf3 server: " +:+ exn_str e))) in
       raise (HTTPException 500 ("Failed to start iperf3 server: " +:+ exn_str e))).

(** The graceful-exit window of [stop_server], [timeout=5.0] seconds, in
    milliseconds. *)
Definition graceful_timeout_ms : N := 5000.

(** [try: await asyncio.wait_for(process.wait(), timeout=5.0)
     except asyncio.TimeoutError: process.kill()] *)
Definition wait_or_kill (child : nat) (os : OS) : OS :=
  match exit_delay os child with
  | Some d =>
      if (d <? graceful_timeout_ms)%N then
        os_emit (Wait child graceful_timeout_ms d true) (os_sleep d os)
      else
        os_emit (Kill child)
          (os_emit (Wait child graceful_timeout_ms graceful_timeout_ms false)
             (os_sleep graceful_timeout_ms os))
  | None =>
      os_emit (Kill child)
        (os_emit (Wait child graceful_timeout_ms graceful_timeout_ms false)
           (os_sleep graceful_timeout_ms os))
  end.

(** [ProcessLookupError()], of the [OSError] family and without a message:
    what [process.terminate()] raises for a child that has exited and
    whose exit the event loop has seen. *)
Definition ProcessLookupError : exn := OSError "".

(** [stop_server].  [process.terminate()] stands outside the [try]: when
    it raises, the exception leaves [stop_server] before the [del], so the
    record stays and nothing is returned. *)
Definition stop_server (port : Z) : M St bool :=
  fun s =>
    match processes s.1 !! port with
    | Some process =>
        if has_exited s.2 (pid process) then (Raise ProcessLookupError, s)
        else
          let os := os_emit (Terminate (pid process)) s.2 in
          let os := wait_or_kill (pid process) os in
          let self := mk_server (delete port (processes s.1)) (port_range s.1) in
          let os := os_emit (LogInfo ("Stopped iperf3 server on port " +:+ str_int port)) os in
          (Ok true, (self, os))
    | None => (Ok false, s)
    end.

(** The content of the responses of [handle_iperf3_server]. *)
Inductive Content : Type :=
| ContentStarted (result : Started)
| ContentStopped (status : string) (port : Z).

(** [handle_iperf3_server]: [params] is [request.query_params].  The
    [except ValueError] of the stop branch meets the [ValueError] of
    [int(port)] only: [stop_server] raises none, and what it does raise
    leaves the handler. *)
Definition handle_iperf3_server (params : gmap string string) : M St Content :=
  let action := default "start"%string (params !! "action"%string) in
  if String.eqb action "start" then
    match int_of_str (default "300"%string (params !! "duration"%string)) with
    | Ok duration =>
        let* result := start_server duration in
        ret (ContentStarted result)
    | Raise e => raise e
    end
  else if String.eqb action "stop" then
    match params !! "port"%string with
    | Some port =>
        if String.eqb port "" then
          raise (HTTPException 400 "Port parameter required for stop action")
        else
          match int_of_str port with
          | Ok port_int =>
              let* success := stop_server port_int in
              ret (ContentStopped (if success then "stopped" else "not_found") port_int)
          | Raise (ValueError _) => raise (HTTPException 400 "Invalid port number")
          | Raise e => raise e
          end
    | None => raise (HTTPException 400 "Port parameter required for stop action")
    end
  else raise (HTTPException 400 "Invalid action. Use 'start' or 'stop'").

(** ** Vocabulary for the properties below *)

(** The Python class of an exception and, for an [HTTPException], the
    status the caller sees. *)
Definition exn_class (e : exn) : string :=
  match e with
  | ValueError _ => "ValueError"
  | RuntimeError _ => "RuntimeError"
  | TypeError _ => "TypeError"
  | OSError _ => "OSError"
  | OverflowError _ => "OverflowError"
  | ConnectionError _ => "ConnectionError"
  | ValidationError _ => "ValidationError"
  | HyperglassError _ => "HyperglassError"
  | HTTPException _ _ => "HTTPException"
  end.

Definition http_status (e : exn) : option Z :=
  match e with
  | HTTPException c _ => Some c
  | _ => None
  end.

(** A machine on which every port of the range is taken. *)
Definition os_exhausted : OS :=
  mk_os (fun n range => range.1 + Z.of_nat n mod (range.2 - range.1 + 1))
        (fun _ _ => false) (fun _ => None) (fun _ => Some 0%N) (fun _ => false)
        0 100 0 [].

(** A machine with free ports and no [iperf3] executable. *)
Definition os_no_iperf3 : OS :=
  mk_os (fun n range => range.1 + Z.of_nat n mod (range.2 - range.1 + 1))
        (fun _ _ => true)
        (fun _ => Some (OSError "[Errno 2] No such file or directory: 'iperf3'"))
        (fun _ => Some 0%N) (fun _ => false) 0 100 0 [].

(** A machine with free ports whose children ignore SIGTERM. *)
Definition os_stubborn : OS :=
  mk_os (fun n range => range.1 + Z.of_nat n mod (range.2 - range.1 + 1))
        (fun _ _ => true) (fun _ => None) (fun _ => None) (fun _ => false)
        0 100 0 [].

(** A machine with free ports on which every child has served its one
    client and exited by the time it is signalled. *)
Definition os_finished : OS :=
  mk_os (fun n range => range.1 + Z.of_nat n mod (range.2 - range.1 + 1))
        (fun _ _ => true) (fun _ => None) (fun _ => Some 0%N) (fun _ => true)
        0 100 0 [].

End NetworkTools.

(* ===================================================================== *)
(** * Result cache: [query] of [hyperglass/api/routes.py] *)
(* ===================================================================== *)

Module Cache.

(** Python values that travel through the cache: what [json.loads] can
    return, strings, and [datetime] objects (as an instant). *)
Inductive Value : Type :=
| VNone
| VBool (b : bool)
| VInt (z : Z)
| VFloat (f : float)
| VStr (s : string)
| VList (l : list Value)
| VDict (kv : list (string * Value))
| VDatetime (instant : Z).

(** Truth value of an object, as [if cache_response:] tests it. *)
Definition truthy (v : Value) : bool :=
  match v with
  | VNone => false
  | VBool b => b
  | VInt z => negb (z =? 0)
  | VFloat f => negb (f =? 0)%float
  | VStr s => negb (String.eqb s "")
  | VList l => match l with [] => false | _ => true end
  | VDict kv => match kv with [] => false | _ => true end
  | VDatetime _ => true
  end.

(** [is_type(v, t.Dict)] *)
Definition is_dict (v : Value) : bool :=
  match v with
  | VDict _ => true
  | _ => false
  end.

(** The three methods of [_state.redis] that [query] calls, over a store
    state [S].  The store is outside the repository's sources; [query] is
    embedded over any implementation of this interface.  [get_map] returns
    [VNone] for an absent field. *)
Record RedisManager (S : Type) : Type := mk_redis {
  get_map : string -> string -> M S Value;
  set_map_item : string -> string -> Value -> M S unit;
  expire : string -> Z -> M S unit
}.
Arguments get_map {S} _ _ _.
Arguments set_map_item {S} _ _ _ _.
Arguments expire {S} _ _ _.

(** What [query] reads of its [data: Query] argument: the results of
    [data.digest()] and [data.random()], and [data.timestamp]. *)
Record Query : Type := mk_query {
  digest : string;
  q_timestamp : Value;
  random : string
}.

(** What [execute] or [fake_output] returns when it is not [None]: an
    [OutputDataModel], given by the object that
    [json.loads(output.export_json())] yields, or anything else, given by
    its [str(output)]. *)
Inductive Output : Type :=
| Structured (fields : list (string * Value))
| Text (s : string).

(** What one request reads from outside the store: the parameters
    [_state.params.fake_output], [.cache.timeout] and [.messages.general],
    the outcome of the awaited [fake_output(...)] and [execute(data)], and
    [runtime], the value [int(round(elapsedtime, 0))] obtained from the
    two readings of [time.time()] around the execution. *)
Record Env : Type := mk_env {
  fake_output : bool;
  cache_timeout : Z;
  messages_general : string;
  fake_result : Res (option Output);
  execute_result : Res (option Output);
  runtime : Z
}.

(** The dict handed to [Response]. *)
Record Response : Type := mk_response {
  r_output : Value;
  r_id : string;
  r_cached : bool;
  r_runtime : Z;
  r_timestamp : Value;
  r_format : string;
  r_random : string;
  r_level : string;
  r_keywords : list string
}.

Section Query.
Context {S : Type} (cache : RedisManager S).

(** The state a request runs in: the store and the log. *)
Definition World : Type := S * list string.

Definition on_store {A} (c : M S A) : M World A :=
  fun w => let '(r, s') := c w.1 in (r, (s', w.2)).

Definition log_msg (msg : string) : M World unit :=
  fun w => (Ok tt, (w.1, w.2 ++ [msg])).

Definition awaited {A} (r : Res A) : M World A :=
  fun w => (r, w).

(** [raw_output]: the structured output as the dict read back from its
    JSON export, any other output as its [str]. *)
Definition raw_output (output : Output) : Value :=
  match output with
  | Structured fields => VDict fields
  | Text s => VStr s
  end.

(** The [if cache_response: ... elif not cache_response: ...] statement;
    it yields [cached], [runtime] and [timestamp]. *)
Definition hit_or_miss (env : Env) (data : Query) (cache_key : string)
    (cache_response : Value) : M World (bool * Z * Value) :=
  if truthy cache_response then
    let* _ := log_msg "Cache hit" in
    let* _ := on_store (expire cache cache_key (cache_timeout env)) in
    let* timestamp := on_store (get_map cache cache_key "timestamp") in
    ret (true, 0, timestamp)
  else
    let* _ := log_msg "Cache miss" in
    let timestamp := q_timestamp data in
    let* output := awaited (if fake_output env then fake_result env
                             else execute_result env) in
    let* _ := log_msg "Runtime: {!s} seconds" in
    match output with
    | None => raise (HyperglassError (messages_general env))
    | Some output =>
        let raw := raw_output output in
        let* _ := on_store (set_map_item cache cache_key "output" raw) in
        let* _ := on_store (set_map_item cache cache_key "timestamp" timestamp) in
        let* _ := on_store (expire cache cache_key (cache_timeout env)) in
        let* _ := log_msg "Response cached" in
        ret (false, runtime env, timestamp)
    end.

Definition query (env : Env) (data : Query) : M World Response :=
  let cache_key := "hyperglass.query." +:+ digest data in
  let* _ := log_msg "Starting query execution" in
  let* cache_response := on_store (get_map cache cache_key "output") in
  let* r := hit_or_miss env data cache_key cache_response in
  let '(cached, runtime, timestamp) := r in
  let* cache_response := on_store (get_map cache cache_key "output") in
  let json_output := is_dict cache_response in
  let response_format :=
    if json_output then "application/json"%string else "text/plain"%string in
  let* _ := log_msg "Execution completed" in
  ret (mk_response cache_response cache_key cached runtime timestamp
         response_format (random data) "success" []).

End Query.

(** ** The key-value store *)

(** Modelled from the spec: the KeyValueStore behind [_state.redis], which
    is not among the sources.  The specification gives it per-key field
    maps with field get and set ([get_field(key, field) -> Value | absent],
    [set_field(key, field, value)], a per-field upsert), and
    [expire(key, ttl)]: the entry is purged once [ttl] has elapsed without
    a further [expire], each [expire] resetting the remaining time to
    [ttl].  An unreachable store fails the call (the transient
    CacheUnavailable condition).

    [maps] holds the field maps, [deadline] the instant at which a key
    expires, [clock] the store's time, and [outage_in] the number of calls
    the store will still answer ([None]: it stays reachable). *)
Record MemStore : Type := mk_store {
  maps : gmap string (gmap string Value);
  deadline : gmap string Z;
  clock : Z;
  outage_in : option nat
}.

(** Modelled from the spec: a key is live until its deadline, if it has
    one. *)
Definition live (s : MemStore) (key : string) : bool :=
  match deadline s !! key with
  | Some d => clock s <? d
  | None => true
  end.

(** Modelled from the spec: the fields of a key, the empty map when the
    key is absent or expired. *)
Definition fields_of (s : MemStore) (key : string) : gmap string Value :=
  if live s key then default ∅ (maps s !! key) else ∅.

(** Modelled from the spec: one call reaches the store, or fails when the
    store is unreachable. *)
Definition round_trip : M MemStore unit :=
  fun s =>
    match outage_in s with
    | None => (Ok tt, s)
    | Some (S n) => (Ok tt, mk_store (maps s) (deadline s) (clock s) (Some n))
    | Some O => (Raise (ConnectionError "CacheUnavailable"), s)
    end.

(** Modelled from the spec: [get_field], [VNone] standing for absent. *)
Definition mem_get_map (key field : string) : M MemStore Value :=
  let* _ := round_trip in
  let* s := get in
  ret (default VNone (fields_of s key !! field)).

(** Modelled from the spec: [set_field], a per-field upsert; writing to
    an expired key starts a fresh entry without a deadline. *)
Definition mem_set_map_item (key field : string) (v : Value) : M MemStore unit :=
  let* _ := round_trip in
  modify (fun s =>
    mk_store (<[key := <[field := v]> (fields_of s key)]> (maps s))
             (if live s key then deadline s else delete key (deadline s))
             (clock s) (outage_in s)).

(** Modelled from the spec: [expire] sets the deadline of a live key to
    [ttl] from now, and purges a key whose deadline has passed. *)
Definition mem_expire (key : string) (ttl : Z) : M MemStore unit :=
  let* _ := round_trip in
  modify (fun s =>
    if live s key then
      match maps s !! key with
      | Some _ => mk_store (maps s) (<[key := clock s + ttl]> (deadline s))
                           (clock s) (outage_in s)
      | None => s
      end
    else mk_store (delete key (maps s)) (delete key (deadline s))
                  (clock s) (outage_in s)).

(** Modelled from the spec: the store as the collaborator of [query]. *)
Definition mem_cache : RedisManager MemStore :=
  mk_redis MemStore mem_get_map mem_set_map_item mem_expire.

(** Modelled from the spec: time passing at the store. *)
Definition elapse (dt : Z) (s : MemStore) : MemStore :=
  mk_store (maps s) (deadline s) (clock s + dt) (outage_in s).

(** ** Examples used below *)

(** A store that holds a cached text output for the digest ["d1"], with 60
    time units left, and that becomes unreachable after answering one more
    call. *)
Definition store_failing_after_lookup : MemStore :=
  mk_store {[ "hyperglass.query.d1"%string :=
                {[ "output"%string := VStr "BGP table";
                   "timestamp"%string := VDatetime 1000 ]} ]}
           {[ "hyperglass.query.d1"%string := 1060 ]}
           1000 (Some 1%nat).

(** The same store, reachable for good. *)
Definition store_with_entry : MemStore :=
  mk_store (maps store_failing_after_lookup) (deadline store_failing_after_lookup)
           1000 None.

(** An empty, reachable store. *)
Definition store_empty : MemStore := mk_store ∅ ∅ 1000 None.

Definition env_live : Env :=
  mk_env false 120 "Something went wrong." (Ok None)
         (Ok (Some (Structured [("prefix"%string, VStr "192.0.2.0/24")]))) 2.

Definition a_query : Query := mk_query "d1" (VDatetime 2000) "r1".



End Cache.

(* ===================================================================== *)
(** * Speed-test endpoints: [hyperglass/api/speedtest.py] and the
      [file_sizes] validator of [hyperglass/models/config/als_features.py] *)
(* ===================================================================== *)

Module SpeedTest.

(** Python [bytes]. *)
Definition bytes : Type := list Byte.byte.

(** [b'\x00' * n]: empty for [n <= 0]. *)
Definition zeros (n : Z) : bytes := repeat Byte.x00 (Z.to_nat n).

(** [len(chunk)] *)
Definition len (chunk : bytes) : Z := Z.of_nat (length chunk).

(** The litestar [Response] of the streaming endpoints.  [content] is the
    sequence of chunks that the generator passed as [content=] yields when
    it is run to exhaustion; [headers] keeps the order of the dict
    literal. *)
Record Response : Type := mk_response {
  content : list bytes;
  media_type : string;
  headers : list (string * string)
}.

(** [headers[name]] *)
Fixpoint header (name : string) (hs : list (string * string)) : option string :=
  match hs with
  | (k, v) :: hs' => if String.eqb k name then Some v else header name hs'
  | [] => None
  end.

(** The endpoints run with the log as their only state. *)
Definition Log : Type := list string.

Definition log_info (msg : string) : M Log unit :=
  fun lg => (Ok tt, lg ++ [msg]).

(** ** [handle_speedtest_file] *)

(** [chunk_size = 64 * 1024] *)
Definition chunk_size : Z := 64 * 1024.

(** The generator [generate_file_data], closed over [total_bytes] and
    started with [bytes_sent = 0]: one chunk per turn of the [while] loop.
    (The [asyncio.sleep] after each chunk only spends time.)  Each turn
    sends at least one byte, which is what ends the loop. *)
Equations generate_file_data (total_bytes bytes_sent : Z) : list bytes
  by wf (Z.to_nat (total_bytes - bytes_sent)) lt :=
generate_file_data total_bytes bytes_sent with Z_lt_dec bytes_sent total_bytes := {
  | left _ =>
      let remaining := Z.min chunk_size (total_bytes - bytes_sent) in
      let chunk := zeros remaining in
      chunk :: generate_file_data total_bytes (bytes_sent + len chunk)
  | right _ => []
  }.
Next Obligation.
  unfold len, zeros. rewrite repeat_length. unfold chunk_size. lia.
Qed.

(** The [try] block: the size in megabytes named by [filename]. *)
Definition size_of_filename (filename : string) : Res Z :=
  if endswith filename ".bin" then
    let size_str := drop_last 4 filename in
    let parsed :=
      if endswith size_str "MB" then
        int_of_str (drop_last 2 size_str)
      else if endswith size_str "GB" then
        match int_of_str (drop_last 2 size_str) with
        | Ok n => Ok (n * 1024)
        | Raise e => Raise e
        end
      else Raise (ValueError "Invalid file format") in
    match parsed with
    | Ok size_mb =>
        if (size_mb <=? 0) || (size_mb >? 10240)
        then Raise (ValueError "File size too large")
        else Ok size_mb
    | Raise e => Raise e
    end
  else Raise (ValueError "Invalid filename format").

Definition file_headers (filename : string) (total_bytes : Z)
  : list (string * string) :=
  [("Content-Length", str_int total_bytes);
   ("Content-Disposition", "attachment; filename=" +:+ filename);
   ("Cache-Control", "no-cache, no-store, must-revalidate");
   ("Pragma", "no-cache");
   ("Expires", "0")]%string.

Definition handle_speedtest_file (filename : string) : M Log Response :=
  let* size_mb :=
    try_except_ValueError (lift (size_of_filename filename))
      (raise (HTTPException 404 "File not found")) in
  let total_bytes := size_mb * 1024 * 1024 in
  let* _ := log_info ("Starting file download: " +:+ filename +:+ " ("
                      +:+ str_int size_mb +:+ "MB)") in
  ret (mk_response (generate_file_data total_bytes 0)
         "application/octet-stream" (file_headers filename total_bytes)).

(** ** [SpeedTestConfig.validate_file_sizes] *)

Definition valid_units : list string := ["KB"; "MB"; "GB"]%string.

(** [any(size.endswith(unit) for unit in valid_units)] *)
Definition has_valid_unit (size : string) : bool :=
  existsb (fun unit => endswith size unit) valid_units.

(** The body of the [for] loop: the first offending size raises. *)
Fixpoint check_file_sizes (v : list string) : Res unit :=
  match v with
  | size :: v' =>
      if negb (has_valid_unit size) then
        Raise (ValueError ("Invalid file size format: " +:+ size))
      else
        match int_of_str (drop_last 2 size) with
        | Ok _ => check_file_sizes v'
        | Raise (ValueError _) =>
            Raise (ValueError ("Invalid file size number: " +:+ size))
        | Raise e => Raise e
        end
  | [] => Ok tt
  end.

Definition validate_file_sizes (v : list string) : Res (list string) :=
  match check_file_sizes v with
  | Ok _ => Ok v
  | Raise e => Raise e
  end.

(** ** The file names the endpoint is said to serve *)

(** [named_size filename size_mb]: [filename] is [<n>MB.bin] or [<n>GB.bin],
    [<n>] being a numeral that [int] reads as [n], and the size it names in
    megabytes, [n] or [n * 1024], is positive and at most 10240. *)
Definition named_size (filename : string) (size_mb : Z) : Prop :=
  exists (s : string) (n : Z),
    int_of_str s = Ok n /\
    ((filename = s +:+ "MB.bin" /\ size_mb = n) \/
     (filename = s +:+ "GB.bin" /\ size_mb = n * 1024)) /\
    0 < size_mb <= 10240.

End SpeedTest.

(* ===================================================================== *)
(** * Speed-test download: [handle_speedtest_download] of
      [hyperglass/api/speedtest.py] *)
(* ===================================================================== *)

Module Download.

Import SpeedTest.

(** The random source behind [secrets.token_bytes]: the bytes it will
    give, and how many were taken. *)
Record Rng : Type := mk_rng {
  byte_at : nat -> Byte.byte;
  position : nat
}.

(** The bounds of a C [ssize_t], the type to which [os.urandom] converts
    its argument: [- 2 ^ 63] and [2 ^ 63 - 1]. *)
Definition ssize_t_min : Z := -9223372036854775808.
Definition ssize_t_max : Z := 9223372036854775807.

(** [secrets.token_bytes(nbytes)], which is [os.urandom(nbytes)]: an
    argument outside the range of [ssize_t] raises [OverflowError], a
    negative one within it raises [ValueError], and any other gives
    [nbytes] fresh bytes.  (The generator below never asks for more than
    [total_bytes], at most 1000 MiB; the allocation of such a chunk is
    taken to succeed.) *)
Definition token_bytes (nbytes : Z) (rng : Rng) : Res bytes * Rng :=
  if (nbytes <? ssize_t_min) || (nbytes >? ssize_t_max) then
    (Raise (OverflowError "Python int too large to convert to C ssize_t"), rng)
  else if nbytes <? 0 then
    (Raise (ValueError "negative argument not allowed"), rng)
  else (Ok (map (byte_at rng) (seq (position rng) (Z.to_nat nbytes))),
        mk_rng (byte_at rng) (position rng + Z.to_nat nbytes)).

(** How far a consumer got with a generator: it saw the end, it stopped
    asking while the generator was still willing, or the generator
    raised. *)
Inductive Ending : Type :=
| Exhausted
| Suspended
| Broken (e : exn).

(** The generator [generate_data], closed over [total_bytes] and
    [chunk_bytes], asked [turns] times for its next chunk: one turn of the
    [while] loop per chunk.  (The [asyncio.sleep] after each chunk only
    spends time.)  Nothing in the loop forces progress, so the number of
    turns is given. *)
Fixpoint generate_data (turns : nat) (total_bytes chunk_bytes bytes_sent : Z)
    (rng : Rng) : list bytes * Ending * Rng :=
  match turns with
  | O => ([], Suspended, rng)
  | S turns' =>
      if bytes_sent <? total_bytes then
        let remaining := Z.min chunk_bytes (total_bytes - bytes_sent) in
        match token_bytes remaining rng with
        | (Ok chunk, rng') =>
            let '(chunks, ending, rng'') :=
              generate_data turns' total_bytes chunk_bytes (bytes_sent + len chunk) rng' in
            (chunk :: chunks, ending, rng'')
        | (Raise e, rng') => ([], Broken e, rng')
        end
      else ([], Exhausted, rng)
  end.

(** The streaming [Response]: [body turns rng] is what a consumer that
    asks [turns] times gets from the generator passed as [content=]. *)
Record Streaming : Type := mk_streaming {
  body : nat -> Rng -> list bytes * Ending * Rng;
  s_media_type : string;
  s_headers : list (string * string)
}.

(** The [try] block around the size. *)
Definition checked_size (size : string) : Res Z :=
  match int_of_str size with
  | Ok size_mb =>
      if (size_mb <=? 0) || (size_mb >? 1000)
      then Raise (ValueError "Invalid size")
      else Ok size_mb
  | Raise e => Raise e
  end.

Definition handle_speedtest_download (params : gmap string string)
  : M Log Streaming :=
  let size := default "10"%string (params !! "size"%string) in
  let* chunk_size := lift (int_of_str (default "4"%string (params !! "ckSize"%string))) in
  let* size_mb :=
    try_except_ValueError (lift (checked_size size))
      (raise (HTTPException 400 "Invalid size parameter")) in
  let total_bytes := size_mb * 1024 * 1024 in
  let chunk_bytes := chunk_size * 1024 in
  let* _ := log_info ("Starting speed test download: " +:+ str_int size_mb +:+ "MB") in
  ret (mk_streaming
         (fun turns => generate_data turns total_bytes chunk_bytes 0)
         "application/octet-stream"
         [("Content-Length", str_int total_bytes);
          ("Cache-Control", "no-cache, no-store, must-revalidate");
          ("Pragma", "no-cache");
          ("Expires", "0")]%string).

(** A random source that gives the bytes 0, 1, 2, ... in turn. *)
Definition rng_counting : Rng :=
  mk_rng (fun n => default Byte.x00 (Byte.of_N (N.of_nat n mod 256))) 0.

End Download.

(* ===================================================================== *)
(** * ALS configuration: [hyperglass/models/config/als_features.py] and
      [hyperglass/util/als_config_validator.py] *)
(* ===================================================================== *)

Module AlsConfig.

Import Cache.

(** ** The models, as typed records

    The fields of a constructed model hold values of their declared types.
    Four classes have a field [enabled]; the records prefix it. *)

Record SpeedTestConfig : Type := mk_speedtest {
  st_enabled : bool;
  file_sizes : list string;
  max_file_size : string;
  chunk_size : Z;
  upload_enabled : bool;
  download_enabled : bool
}.

Record NetworkToolsConfig : Type := mk_network_tools {
  nt_enabled : bool;
  ping_enabled : bool;
  traceroute_enabled : bool;
  iperf3_enabled : bool;
  iperf3_port_range : Z * Z;
  max_ping_count : Z;
  max_traceroute_hops : Z;
  ping_timeout : Z;
  traceroute_timeout : Z
}.

Record BandwidthConfig : Type := mk_bandwidth {
  bw_enabled : bool;
  update_interval : Z;
  history_length : Z;
  excluded_interfaces : list string;
  auto_start : bool
}.

Record ALSFeatures : Type := mk_als {
  speedtest : SpeedTestConfig;
  network_tools : NetworkToolsConfig;
  bandwidth : BandwidthConfig;
  enabled : bool
}.

(** The [default=] values of the fields. *)
Definition SpeedTestConfig_default : SpeedTestConfig :=
  mk_speedtest true ["1MB"; "10MB"; "100MB"; "1GB"]%string "1GB" 4 true true.

Definition NetworkToolsConfig_default : NetworkToolsConfig :=
  mk_network_tools true true true true (30000, 31000) 20 64 30 60.

Definition BandwidthConfig_default : BandwidthConfig :=
  mk_bandwidth true 1 60 ["lo"; "docker"; "br-"; "veth"]%string true.

Definition ALSFeatures_default : ALSFeatures :=
  mk_als SpeedTestConfig_default NetworkToolsConfig_default
         BandwidthConfig_default true.

(** [Field(ge=lo, le=hi)] on an [int] field. *)
Definition within (lo hi v : Z) : bool := (lo <=? v) && (v <=? hi).

(** The constraints that the class bodies put on the fields of a model:
    the [ge]/[le] bounds and the two validators. *)
Definition validate_port_range (v : Z * Z) : Res (Z * Z) :=
  let '(start, end_) := v in
  if start >=? end_ then
    Raise (ValueError "Start port must be less than end port")
  else if (start <? 1024) || (end_ >? 65535) then
    Raise (ValueError "Ports must be between 1024 and 65535")
  else Ok v.

Definition SpeedTestConfig_fields_ok (c : SpeedTestConfig) : bool :=
  within 1 1024 (chunk_size c) &&
  match SpeedTest.validate_file_sizes (file_sizes c) with
  | Ok _ => true
  | Raise _ => false
  end.

Definition NetworkToolsConfig_fields_ok (c : NetworkToolsConfig) : bool :=
  within 1 100 (max_ping_count c) &&
  within 1 255 (max_traceroute_hops c) &&
  within 5 120 (ping_timeout c) &&
  within 10 300 (traceroute_timeout c) &&
  match validate_port_range (iperf3_port_range c) with
  | Ok _ => true
  | Raise _ => false
  end.

Definition BandwidthConfig_fields_ok (c : BandwidthConfig) : bool :=
  within 1 60 (update_interval c) && within 10 3600 (history_length c).

(** ** The validator *)

Definition Log : Type := list string.

Definition log_info (msg : string) : M Log unit :=
  fun lg => (Ok tt, lg ++ [msg]).

Definition log_warning (msg : string) : M Log unit :=
  fun lg => (Ok tt, lg ++ [msg]).

(** The [for size in config.file_sizes] loop of
    [_validate_speedtest_config], [errors] being the list so far. *)
Fixpoint file_size_errors (sizes : list string) (errors : list string)
  : Res (list string) :=
  match sizes with
  | size :: sizes' =>
      if negb (SpeedTest.has_valid_unit size) then
        file_size_errors sizes' (errors ++ ["Invalid file size format: " +:+ size])
      else
        match int_of_str (drop_last 2 size) with
        | Ok size_num =>
            file_size_errors sizes'
              (if size_num <=? 0
               then errors ++ ["File size must be positive: " +:+ size]
               else errors)
        | Raise (ValueError _) =>
            file_size_errors sizes' (errors ++ ["Invalid file size number: " +:+ size])
        | Raise e => Raise e
        end
  | [] => Ok errors
  end.

Definition _validate_speedtest_config (config : SpeedTestConfig)
  : M Log (list string) :=
  let errors := [] in
  if negb (st_enabled config) then ret errors
  else
    let* errors := lift (file_size_errors (file_sizes config) errors) in
    let* _ :=
      if negb (bool_decide (max_file_size config ∈ file_sizes config)) then
        log_warning ("Max file size " +:+ max_file_size config
                     +:+ " not in available sizes")
      else ret tt in
    let errors :=
      if (chunk_size config <? 1) || (chunk_size config >? 1024)
      then errors ++ ["Chunk size must be between 1 and 1024 KB"]%string
      else errors in
    ret errors.

(** [if cond: errors.append(msg)] *)
Definition append_if (cond : bool) (msg : string) (errors : list string)
  : list string :=
  if cond then errors ++ [msg] else errors.

Definition _validate_network_tools_config (config : NetworkToolsConfig)
  : list string :=
  let errors := [] in
  if negb (nt_enabled config) then errors
  else
    let '(start_port, end_port) := iperf3_port_range config in
    let errors := append_if (start_port >=? end_port)
      "iPerf3 start port must be less than end port" errors in
    let errors := append_if ((start_port <? 1024) || (end_port >? 65535))
      "iPerf3 ports must be between 1024 and 65535" errors in
    let errors := append_if ((max_ping_count config <? 1) || (max_ping_count config >? 100))
      "Max ping count must be between 1 and 100" errors in
    let errors := append_if ((max_traceroute_hops config <? 1)
                             || (max_traceroute_hops config >? 255))
      "Max traceroute hops must be between 1 and 255" errors in
    let errors := append_if ((ping_timeout config <? 5) || (ping_timeout config >? 120))
      "Ping timeout must be between 5 and 120 seconds" errors in
    let errors := append_if ((traceroute_timeout config <? 10)
                             || (traceroute_timeout config >? 300))
      "Traceroute timeout must be between 10 and 300 seconds" errors in
    errors.

(** [excluded_interfaces] is a list in the record, so the [isinstance]
    test of the source holds and its branch adds nothing. *)
Definition _validate_bandwidth_config (config : BandwidthConfig)
  : list string :=
  let errors := [] in
  if negb (bw_enabled config) then errors
  else
    let errors := append_if ((update_interval config <? 1)
                             || (update_interval config >? 60))
      "Update interval must be between 1 and 60 seconds" errors in
    let errors := append_if ((history_length config <? 10)
                             || (history_length config >? 3600))
      "History length must be between 10 and 3600 seconds" errors in
    let is_list := true in
    let errors := append_if (negb is_list)
      "Excluded interfaces must be a list" errors in
    errors.

Section Validate.

(** The call [ALSFeatures( **als_config )]: pydantic's construction of the
    model from the raw section, which returns the model or raises (a
    [ValidationError], or a [TypeError] when the section is no mapping).
    The validator is embedded over any such constructor. *)
Context (ALSFeatures_call : Value -> Res ALSFeatures).

(** The state of one call: the log and the local list [errors]. *)
Definition W : Type := Log * list string.

Definition on_log {A} (c : M Log A) : M W A :=
  fun w => let '(r, lg) := c w.1 in (r, (lg, w.2)).

(** [errors.extend(more)] *)
Definition extend (more : list string) : M W unit :=
  fun w => (Ok tt, (w.1, w.2 ++ more)).

Definition errors_now : M W (list string) := fun w => (Ok w.2, w).

(** The body of the [try]. *)
Definition validate_body (config_data : gmap string Value)
  : M W (bool * list string) :=
  let als_config := default (VDict []) (config_data !! "als_features"%string) in
  if negb (truthy als_config) then
    let* _ := on_log (log_info "No ALS features configuration found, using defaults") in
    ret (true, [])
  else
    let* als_features := lift (ALSFeatures_call als_config) in
    let* e1 := on_log (_validate_speedtest_config (speedtest als_features)) in
    let* _ := extend e1 in
    let* _ := extend (_validate_network_tools_config (network_tools als_features)) in
    let* _ := extend (_validate_bandwidth_config (bandwidth als_features)) in
    let* errors := errors_now in
    match errors with
    | _ :: _ => ret (false, errors)
    | [] =>
        let* _ := on_log (log_info "ALS features configuration is valid") in
        ret (true, [])
    end.

Definition validate_als_config (config_data : gmap string Value)
  : M Log (bool * list string) :=
  fun lg =>
    let '(r, w) :=
      try_except (validate_body config_data)
        (fun e =>
           let* _ := extend ["ALS configuration validation error: " +:+ exn_str e] in
           let* errors := errors_now in
           ret (false, errors))
        (lg, []) in
    (r, w.1).

End Validate.

(** ** [check_system_requirements] *)

Definition required_tools : list (string * string) :=
  [("ping", "ping command for network connectivity tests");
   ("ping6", "ping6 command for IPv6 connectivity tests");
   ("traceroute", "traceroute command for network path analysis");
   ("traceroute6", "traceroute6 command for IPv6 path analysis");
   ("iperf3", "iperf3 command for bandwidth testing")]%string.

(** [t.split(':')[0]] *)
Fixpoint before_colon (l : list ascii) : list ascii :=
  match l with
  | c :: l' => if Ascii.eqb c ":"%char then [] else c :: before_colon l'
  | [] => []
  end.

(** [', '.join(parts)] *)
Fixpoint join (sep : string) (parts : list string) : string :=
  match parts with
  | [] => ""
  | [p] => p
  | p :: parts' => p +:+ sep +:+ join sep parts'
  end.

(** [which tool] tells whether [shutil.which(tool)] finds the tool. *)
Definition check_system_requirements (which : string -> bool)
  : M Log (bool * list string) :=
  let missing_tools :=
    flat_map (fun '(tool, description) =>
                if negb (which tool) then [tool +:+ ": " +:+ description] else [])
             required_tools in
  match missing_tools with
  | _ :: _ =>
      let* _ := log_warning ("Missing system tools: " +:+
                  join ", " (map (fun t => of_chars (before_colon (chars t)))
                                 missing_tools)) in
      ret (false, missing_tools)
  | [] =>
      let* _ := log_info "All required system tools are available" in
      ret (true, [])
  end.

(** ** Examples used below *)

(** A constructor that refuses every section. *)
Definition call_refusing : Value -> Res ALSFeatures :=
  fun _ => Raise (ValidationError "1 validation error for ALSFeatures").

(** A constructor that yields the defaults, with the file sizes
    [["0MB"]]: the model's validator accepts that list. *)
Definition call_zero_size : Value -> Res ALSFeatures :=
  fun _ => Ok (mk_als (mk_speedtest true ["0MB"%string] "0MB" 4 true true)
                      NetworkToolsConfig_default BandwidthConfig_default true).

End AlsConfig.

(* ===================================================================== *)
(** * Ping and traceroute endpoints: [hyperglass/api/network_tools.py] *)
(* ===================================================================== *)

Module Tools.

(** ** [str] methods used on the target

    As everywhere, a string is a sequence of code points below 256. *)

(** The characters [c] with [c.isalnum()]: the ASCII letters and digits,
    and among the Latin-1 characters the letters, the superscript digits
    and the fractions. *)
Definition is_alnum_char (c : ascii) : bool :=
  let n := N_of_ascii c in
  ((48 <=? n) && (n <=? 57) || (65 <=? n) && (n <=? 90) || (97 <=? n) && (n <=? 122)
   || (n =? 170) || (n =? 178) || (n =? 179) || (n =? 181) || (n =? 185) || (n =? 186)
   || (188 <=? n) && (n <=? 190) || (192 <=? n) && (n <=? 214)
   || (216 <=? n) && (n <=? 246) || (248 <=? n) && (n <=? 255))%N.

(** [s.isalnum()]: every character is alphanumeric and there is at least
    one. *)
Definition isalnum (s : string) : bool :=
  match chars s with
  | [] => false
  | l => forallb is_alnum_char l
  end.

(** [s.replace(c, "")] for a one-character [c]. *)
Definition remove_char (c : ascii) (s : string) : string :=
  of_chars (List.filter (fun x => negb (Ascii.eqb x c)) (chars s)).

(** [s.lower()] *)
Definition lower_char (c : ascii) : ascii :=
  let n := N_of_ascii c in
  if ((65 <=? n) && (n <=? 90)
      || (192 <=? n) && (n <=? 222) && negb (n =? 215))%N
  then ascii_of_N (n + 32) else c.

Definition lower (s : string) : string := of_chars (map lower_char (chars s)).

(** [target.replace(".", "").replace(":", "").replace("-", "").isalnum()] *)
Definition target_check (target : string) : bool :=
  isalnum (remove_char "-" (remove_char ":" (remove_char "." target))).

(** ** Running a command *)

(** How the [try] block ends once the command line is built: the process
    ran to its end within the time allowed and its output was decoded
    ([stderr] is the empty string when nothing was written to it), or one
    of the three [except] clauses is taken. *)
Inductive Outcome : Type :=
| Finished (stdout stderr : string) (returncode : Z)
| TimeoutError
| FileNotFoundError
| Failed (e : exn).

(** The machine as the two endpoints meet it: what running a command line
    gives, the clock in milliseconds, and a journal of the command lines
    run and of the log. *)
Record Host : Type := mk_host {
  run : list string -> Outcome;
  time_ms : Z;
  commands : list (list string);
  log : list string
}.

Definition log_line (msg : string) : M Host unit :=
  fun h => (Ok tt, mk_host (run h) (time_ms h) (commands h) (log h ++ [msg])).

(** [create_subprocess_exec] followed by [communicate] under [wait_for]. *)
Definition execute (cmd : list string) : M Host Outcome :=
  fun h => (Ok (run h cmd),
            mk_host (run h) (time_ms h) (commands h ++ [cmd]) (log h)).

(** [int(time.time() * 1000)] *)
Definition timestamp_ms : M Host Z := fun h => (Ok (time_ms h), h).

(** The dict of a result; [count] is [max_hops] for traceroute. *)
Record Result : Type := mk_result {
  target : string;
  count : Z;
  ipv6 : bool;
  output : string;
  error : option string;
  return_code : Z;
  timestamp : Z
}.

Definition handle_network_ping (params : gmap string string) : M Host Result :=
  let target := params !! "target"%string in
  let* count := lift (int_of_str (default "4"%string (params !! "count"%string))) in
  let ipv6 := String.eqb (lower (default "false"%string (params !! "ipv6"%string)))
                         "true" in
  match target with
  | None => raise (HTTPException 400 "Target parameter required")
  | Some target =>
      if String.eqb target "" then
        raise (HTTPException 400 "Target parameter required")
      else if (count <? 1) || (count >? 20) then
        raise (HTTPException 400 "Count must be between 1 and 20")
      else if negb (target_check target) then
        raise (HTTPException 400 "Invalid target format")
      else
        let ping_cmd := if ipv6 then "ping6"%string else "ping"%string in
        let cmd := [ping_cmd; "-c"%string; str_int count; target] in
        let* _ := log_line ("Running ping: " +:+ AlsConfig.join " " cmd) in
        let* outcome := execute cmd in
        match outcome with
        | Finished stdout stderr returncode =>
            let* now := timestamp_ms in
            ret (mk_result target count ipv6 stdout
                   (if String.eqb stderr "" then None else Some stderr)
                   returncode now)
        | TimeoutError => raise (HTTPException 408 "Ping command timed out")
        | FileNotFoundError => raise (HTTPException 500 "Ping command not found")
        | Failed e =>
            let* _ := log_line ("Ping command failed: " +:+ exn_str e) in
            raise (HTTPException 500 ("Ping command failed: " +:+ exn_str e))
        end
  end.

Definition handle_traceroute (params : gmap string string) : M Host Result :=
  let target := params !! "target"%string in
  let* max_hops := lift (int_of_str (default "30"%string (params !! "max_hops"%string))) in
  let ipv6 := String.eqb (lower (default "false"%string (params !! "ipv6"%string)))
                         "true" in
  match target with
  | None => raise (HTTPException 400 "Target parameter required")
  | Some target =>
      if String.eqb target "" then
        raise (HTTPException 400 "Target parameter required")
      else if (max_hops <? 1) || (max_hops >? 64) then
        raise (HTTPException 400 "Max hops must be between 1 and 64")
      else if negb (target_check target) then
        raise (HTTPException 400 "Invalid target format")
      else
        let trace_cmd := if ipv6 then "traceroute6"%string else "traceroute"%string in
        let cmd := [trace_cmd; "-m"%string; str_int max_hops; target] in
        let* _ := log_line ("Running traceroute: " +:+ AlsConfig.join " " cmd) in
        let* outcome := execute cmd in
        match outcome with
        | Finished stdout stderr returncode =>
            let* now := timestamp_ms in
            ret (mk_result target max_hops ipv6 stdout
                   (if String.eqb stderr "" then None else Some stderr)
                   returncode now)
        | TimeoutError => raise (HTTPException 408 "Traceroute command timed out")
        | FileNotFoundError => raise (HTTPException 500 "Traceroute command not found")
        | Failed e =>
            let* _ := log_line ("Traceroute command failed: " +:+ exn_str e) in
            raise (HTTPException 500 ("Traceroute command failed: " +:+ exn_str e))
        end
  end.

(** ** Vocabulary for the properties below *)

(** The targets that pass [target_check]: letters, digits, [.], [:] and
    [-] only, with at least one letter or digit. *)
Definition plain_target (target : string) : Prop :=
  Forall (fun c => is_alnum_char c = true \/ c = "."%char \/ c = ":"%char \/ c = "-"%char)
         (chars target) /\
  Exists (fun c => is_alnum_char c = true) (chars target).

(** A machine on which every command prints one line and succeeds. *)
Definition host_ok : Host :=
  mk_host (fun _ => Finished "ok" "" 0) 1700000000000 [] [].

End Tools.

(* ===================================================================== *)
(** * Start-up and shutdown: [hyperglass/api/als_startup.py] *)
(* ===================================================================== *)

Module Startup.

Import Cache AlsConfig.

(** What the functions read of [use_state().params]: the attribute
    [als_features] ([None] when it is missing) and what the call
    [model_dump()] gives. *)
Record Params : Type := mk_params {
  als_features : option ALSFeatures;
  model_dump : Res (gmap string Value)
}.

(** The process-wide objects the functions act on: the bandwidth monitor
    with its event loop and log, and the iperf3 manager with the operating
    system it talks to.  The lines these functions log themselves go to
    the log of the loop. *)
Record App : Type := mk_app {
  monitor : Bandwidth.BandwidthMonitor;
  loop : Bandwidth.Loop;
  iperf3 : NetworkTools.St
}.

Definition log_line (msg : string) : M App unit :=
  fun a => (Ok tt, mk_app (monitor a) (Bandwidth.log_line msg (loop a)) (iperf3 a)).

(** A call that only logs, run on the log of the application. *)
Definition with_log {A} (c : M Log A) : M App A :=
  fun a =>
    let '(r, lg) := c (Bandwidth.log (loop a)) in
    (r, mk_app (monitor a)
               (Bandwidth.mk_loop (Bandwidth.created (loop a))
                                  (Bandwidth.cancelled (loop a)) lg)
               (iperf3 a)).

(** [for item in items: log(f"  - {item}")] *)
Fixpoint log_each (items : list string) : M App unit :=
  match items with
  | item :: items' =>
      let* _ := log_line ("  - " +:+ item) in
      log_each items'
  | [] => ret tt
  end.

(** [await bandwidth_monitor.start_monitoring()] *)
Definition monitor_start : M App unit :=
  fun a =>
    let '(m, lp) := Bandwidth.start_monitoring (monitor a) (loop a) in
    (Ok tt, mk_app m lp (iperf3 a)).

(** [await bandwidth_monitor.stop_monitoring()] *)
Definition monitor_stop : M App unit :=
  fun a =>
    let '(m, lp) := Bandwidth.stop_monitoring (monitor a) (loop a) in
    (Ok tt, mk_app m lp (iperf3 a)).

(** [await iperf3_manager.stop_server(port)] *)
Definition iperf3_stop (port : Z) : M App bool :=
  fun a =>
    let '(r, s) := NetworkTools.stop_server port (iperf3 a) in
    (r, mk_app (monitor a) (loop a) s).

Definition start_bandwidth_monitoring : M App bool :=
  try_except
    (let* _ := monitor_start in
     let* _ := log_line "Bandwidth monitoring started automatically" in
     ret true)
    (fun e =>
       let* _ := log_line ("Failed to start bandwidth monitoring: " +:+ exn_str e) in
       ret false).

Section Initialize.

(** The constructor of the model used by [validate_als_config], and
    [shutil.which]. *)
Context (ALSFeatures_call : Value -> Res ALSFeatures) (which : string -> bool).

(** [initialize_als_features]; [use_state] is what the call [use_state()]
    gives.  A model object counts as true. *)
Definition initialize_als_features (use_state : Res Params) : M App bool :=
  try_except
    (let* state := lift use_state in
     match als_features state with
     | None =>
         let* _ := log_line "ALS features are disabled" in
         ret true
     | Some als_config =>
         if negb (enabled als_config) then
           let* _ := log_line "ALS features are disabled" in
           ret true
         else
           let* _ := log_line "Initializing ALS features..." in
           let* config_dict := lift (model_dump state) in
           let* checked := with_log (validate_als_config ALSFeatures_call config_dict) in
           let '(is_valid, errors) := checked in
           if negb is_valid then
             let* _ := log_line "ALS configuration validation failed:" in
             let* _ := log_each errors in
             ret false
           else
             let* required := with_log (check_system_requirements which) in
             let '(requirements_met, missing_tools) := required in
             let* _ :=
               if negb requirements_met then
                 let* _ := log_line "Some ALS features may not work due to missing system tools:" in
                 log_each missing_tools
               else ret tt in
             let* _ :=
               if bw_enabled (bandwidth als_config) && auto_start (bandwidth als_config)
               then let* _ := start_bandwidth_monitoring in ret tt
               else ret tt in
             let enabled_features :=
               (if st_enabled (speedtest als_config) then ["Speed Test"%string] else [])
               ++ (if nt_enabled (network_tools als_config) then ["Network Tools"%string] else [])
               ++ (if bw_enabled (bandwidth als_config) then ["Bandwidth Monitor"%string] else []) in
             let* _ := log_line ("ALS features initialized successfully. Enabled: "
                                 +:+ join ", " enabled_features) in
             ret true
     end)
    (fun e =>
       let* _ := log_line ("Failed to initialize ALS features: " +:+ exn_str e) in
       ret false).

End Initialize.

(** [for port in list(iperf3_manager.processes.keys()):
       await iperf3_manager.stop_server(port)]
    An exception of [stop_server] ends the loop: the ports that follow are
    not visited. *)
Fixpoint stop_servers (ports : list Z) : M App unit :=
  match ports with
  | port :: ports' =>
      let* _ := iperf3_stop port in
      stop_servers ports'
  | [] => ret tt
  end.

Section Shutdown.

(** [list(d.keys())]: a [dict] lists its keys in the order of their
    insertion, which the map does not record; the order is given from
    outside. *)
Context (keys : gmap Z NetworkTools.Process -> list Z).

Definition session_ports (a : App) : list Z :=
  keys (NetworkTools.processes (iperf3 a).1).

Definition shutdown_als_features (use_state : Res Params) : M App unit :=
  try_except
    (let* state := lift use_state in
     match als_features state with
     | None => ret tt
     | Some als_config =>
         if negb (enabled als_config) then ret tt
         else
           let* _ := log_line "Shutting down ALS features..." in
           let* _ :=
             if bw_enabled (bandwidth als_config) then
               try_except
                 (let* _ := monitor_stop in
                  log_line "Bandwidth monitoring stopped")
                 (fun e => log_line ("Error stopping bandwidth monitoring: " +:+ exn_str e))
             else ret tt in
           let* _ :=
             if nt_enabled (network_tools als_config)
                && iperf3_enabled (network_tools als_config) then
               try_except
                 (let* ports := (fun a => (Ok (session_ports a), a)) in
                  let* _ := stop_servers ports in
                  log_line "All iperf3 servers stopped")
                 (fun e => log_line ("Error stopping iperf3 servers: " +:+ exn_str e))
             else ret tt in
           log_line "ALS features shutdown complete"
     end)
    (fun e => log_line ("Error during ALS features shutdown: " +:+ exn_str e)).

End Shutdown.

(** ** Vocabulary for the properties below *)

(** The configuration asks for the monitor to be started at start-up. *)
Definition wants_monitoring (use_state : Res Params) : bool :=
  match use_state with
  | Ok state =>
      match als_features state with
      | Some als_config =>
          enabled als_config && bw_enabled (bandwidth als_config)
          && auto_start (bandwidth als_config)
      | None => false
      end
  | Raise _ => false
  end.

(** [a'] differs from [a] in the log only. *)
Definition same_but_log (a a' : App) : Prop :=
  monitor a' = monitor a /\ iperf3 a' = iperf3 a /\
  Bandwidth.created (loop a') = Bandwidth.created (loop a) /\
  Bandwidth.cancelled (loop a') = Bandwidth.cancelled (loop a).

(** The keys of a session map in the order the map lists them; one of the
    orders a [dict] can have. *)
Definition keys_of_map (m : gmap Z NetworkTools.Process) : list Z :=
  (map_to_list m).*1.

(** An application at rest: no history, no task, no session. *)
Definition app_idle : App :=
  mk_app Bandwidth.__init__ (Bandwidth.mk_loop 0 [] [])
         (NetworkTools.__init__, NetworkTools.os_stubborn).

End Startup.
(* ===================================================================== *)
(** * Properties of the base layer *)
(* ===================================================================== *)

Section PyFacts.

Lemma chars_app (a b : string) : chars (a +:+ b) = chars a ++ chars b.
Proof.
  unfold chars. induction a as [| c a IH]; [reflexivity |].
  change (String c a +:+ b) with (String c (a +:+ b)).
  cbn [list_ascii_of_string app]. by rewrite IH.
Qed.

Lemma of_chars_chars (s : string) : of_chars (chars s) = s.
Proof. apply string_of_list_ascii_of_string. Qed.

Lemma chars_of_chars (l : list ascii) : chars (of_chars l) = l.
Proof. apply list_ascii_of_string_of_list_ascii. Qed.

Lemma chars_inj (a b : string) : chars a = chars b -> a = b.
Proof.
  intros H. rewrite <- (of_chars_chars a), <- (of_chars_chars b). by rewrite H.
Qed.

Lemma of_chars_app (l k : list ascii) : of_chars (l ++ k) = of_chars l +:+ of_chars k.
Proof. apply chars_inj. by rewrite chars_app, !chars_of_chars. Qed.

Lemma endswith_app (s suffix : string) : endswith (s +:+ suffix) suffix = true.
Proof.
  unfold endswith. apply bool_decide_eq_true. rewrite chars_app.
  by apply suffix_app_r.
Qed.

Lemma drop_last_app (s suffix : string) :
  drop_last (length (chars suffix)) (s +:+ suffix) = s.
Proof.
  unfold drop_last. rewrite chars_app, length_app.
  replace (length (chars s) + length (chars suffix) - length (chars suffix))%nat
    with (length (chars s)) by lia.
  rewrite take_app_length. apply of_chars_chars.
Qed.

(** A string that ends with [suffix] is what [s[:-n]] keeps, followed by
    [suffix]. *)
Lemma endswith_split (s suffix : string) :
  endswith s suffix = true ->
  s = drop_last (length (chars suffix)) s +:+ suffix.
Proof.
  unfold endswith. intros H. apply bool_decide_eq_true in H.
  destruct H as [k Hk]. apply chars_inj. rewrite chars_app.
  unfold drop_last. rewrite chars_of_chars, Hk, length_app.
  replace (length k + length (chars suffix) - length (chars suffix))%nat
    with (length k) by lia.
  by rewrite take_app_length.
Qed.

(** Two suffixes of the same length that differ are not both suffixes. *)
Lemma endswith_other (s a b : string) :
  length (chars a) = length (chars b) -> a <> b ->
  endswith (s +:+ a) b = false.
Proof.
  intros Hlen Hne. unfold endswith. apply bool_decide_eq_false.
  rewrite chars_app. intros [k Hk].
  apply app_inj_2 in Hk; [| exact Hlen].
  destruct Hk as [_ Hk]. by apply Hne, chars_inj.
Qed.

(** [int] of a [str] raises nothing but [ValueError]. *)
Lemma int_of_str_raises (s : string) (e : exn) :
  int_of_str s = Raise e -> exists msg, e = ValueError msg.
Proof.
  unfold int_of_str, invalid_literal.
  repeat (match goal with
          | |- context [match ?x with _ => _ end] => destruct x
          | |- context [if ?b then _ else _] => destruct b
          end);
    intros H; inversion H; by eexists.
Qed.

End PyFacts.

(* ===================================================================== *)
(** * Properties of the telemetry sampler *)
(* ===================================================================== *)

Section BandwidthFacts.
Import Bandwidth.

(** ** The bounded deque *)

Lemma lastn_length {A} (n : nat) (l : list A) :
  length (lastn n l) = Nat.min n (length l).
Proof. unfold lastn. rewrite length_drop. lia. Qed.

Lemma lastn_snoc {A} (n : nat) (l : list A) (x : A) :
  lastn n (l ++ [x]) =
  if (n <? length (lastn n l ++ [x]))%nat
  then drop 1 (lastn n l ++ [x]) else lastn n l ++ [x].
Proof.
  rewrite length_app, lastn_length. simpl. unfold lastn.
  rewrite length_app. simpl.
  destruct (Nat.ltb_spec n (Nat.min n (length l) + 1)) as [Hge | Hlt].
  - assert (Hle : (length l - n <= length l)%nat) by lia.
    rewrite <- (drop_app_le l [x] _ Hle), drop_drop.
    f_equal. lia.
  - replace (length l + 1 - n)%nat with 0%nat by lia.
    replace (length l - n)%nat with 0%nat by lia. reflexivity.
Qed.


Lemma deque_append_items {A} (d : deque A) (x : A) (n : nat) :
  maxlen d = Some n ->
  items (deque_append d x) =
  if (n <? length (items d ++ [x]))%nat
  then drop 1 (items d ++ [x]) else items d ++ [x].
Proof. intros H. unfold deque_append. rewrite H. reflexivity. Qed.

Lemma deque_append_maxlen {A} (d : deque A) (x : A) :
  maxlen (deque_append d x) = maxlen d.
Proof. unfold deque_append. destruct (maxlen d); reflexivity. Qed.

Lemma deque_append_unbounded {A} (d : deque A) (x : A) :
  maxlen d = None -> items (deque_append d x) = items d ++ [x].
Proof. intros H. unfold deque_append. rewrite H. reflexivity. Qed.


(** ** One pass of [_collect_stats] *)

Lemma collect_one_frame (now : float) (self : BandwidthMonitor)
    (item : string * snetio) :
  monitoring (collect_one now self item) = monitoring self /\
  monitor_task (collect_one now self item) = monitor_task self /\
  factory_maxlen (interface_stats (collect_one now self item)) =
    factory_maxlen (interface_stats self).
Proof.
  destruct item as [j st]. unfold collect_one.
  destruct (excluded j); simpl; auto.
Qed.

Lemma collect_one_other (now : float) (self : BandwidthMonitor)
    (item : string * snetio) (i : string) :
  item.1 <> i ->
  last_stats (collect_one now self item) !! i = last_stats self !! i /\
  dd_get (interface_stats (collect_one now self item)) i =
    dd_get (interface_stats self) i.
Proof.
  destruct item as [j st]; simpl; intros Hne. unfold collect_one.
  destruct (excluded j); [done |]. simpl. unfold dd_get. simpl.
  by rewrite !lookup_insert_ne.
Qed.

Lemma collect_one_hit (now : float) (self : BandwidthMonitor)
    (i : string) (stats : snetio) :
  excluded i = false ->
  let cur := current_stats (last_stats self !! i) now stats in
  last_stats (collect_one now self (i, stats)) !! i = Some cur /\
  dd_get (interface_stats (collect_one now self (i, stats))) i =
    deque_append (dd_get (interface_stats self) i) cur.
Proof.
  intros Hex. unfold collect_one. rewrite Hex. simpl. unfold dd_get at 1.
  simpl. by rewrite !lookup_insert_eq.
Qed.

Lemma foldl_collect_frame (now : float) (l : list (string * snetio))
    (self : BandwidthMonitor) :
  monitoring (foldl (collect_one now) self l) = monitoring self /\
  monitor_task (foldl (collect_one now) self l) = monitor_task self /\
  factory_maxlen (interface_stats (foldl (collect_one now) self l)) =
    factory_maxlen (interface_stats self).
Proof.
  revert self. induction l as [| item l IH]; intros self; simpl; [auto |].
  destruct (IH (collect_one now self item)) as (-> & -> & ->).
  apply collect_one_frame.
Qed.

Lemma foldl_collect_other (now : float) (l : list (string * snetio))
    (self : BandwidthMonitor) (i : string) :
  i ∉ l.*1 ->
  last_stats (foldl (collect_one now) self l) !! i = last_stats self !! i /\
  dd_get (interface_stats (foldl (collect_one now) self l)) i =
    dd_get (interface_stats self) i.
Proof.
  revert self. induction l as [| item l IH]; intros self Hnin; simpl; [auto |].
  rewrite fmap_cons, not_elem_of_cons in Hnin. destruct Hnin as [Hne Hnin].
  destruct (IH (collect_one now self item) Hnin) as [-> ->].
  apply collect_one_other. congruence.
Qed.

Lemma foldl_collect_hit (now : float) (l : list (string * snetio))
    (self : BandwidthMonitor) (i : string) (stats : snetio) :
  NoDup l.*1 -> (i, stats) ∈ l -> excluded i = false ->
  let cur := current_stats (last_stats self !! i) now stats in
  last_stats (foldl (collect_one now) self l) !! i = Some cur /\
  dd_get (interface_stats (foldl (collect_one now) self l)) i =
    deque_append (dd_get (interface_stats self) i) cur.
Proof.
  revert self. induction l as [| item l IH]; intros self Hnd Hin Hex.
  - by apply elem_of_nil in Hin.
  - rewrite fmap_cons, NoDup_cons in Hnd. destruct Hnd as [Hnin Hnd].
    apply elem_of_cons in Hin. destruct Hin as [<- | Hin]; cbn [foldl].
    + destruct (foldl_collect_other now l (collect_one now self (i, stats)) i Hnin)
        as [-> ->].
      by apply collect_one_hit.
    + assert (Hne : item.1 <> i).
      { intros Heq. apply Hnin. rewrite Heq.
        apply (list_elem_of_fmap_2 fst) in Hin. exact Hin. }
      destruct (collect_one_other now self item i Hne) as [Hl Hd].
      specialize (IH (collect_one now self item) Hnd Hin Hex).
      cbn zeta in IH. rewrite Hl, Hd in IH. exact IH.
Qed.

Lemma collect_stats_singleton (self : BandwidthMonitor) (t : float) (i : string)
    (st : snetio) (lp : Loop) :
  _collect_stats self (mk_tick t (Ok {[ i := st ]})) lp = (collect_one t self (i, st), lp).
Proof. unfold _collect_stats. cbn [net_io now]. by rewrite map_to_list_singleton. Qed.

(** ** The bound is an invariant *)





(** ** The bounded monitor against its unbounded twin *)

Lemma collect_one_keeps_last (cap : nat) (now : float) (b u : BandwidthMonitor)
    (item : string * snetio) :
  keeps_last cap b u ->
  keeps_last cap (collect_one now b item) (collect_one now u item).
Proof.
  intros (Hl & Hmon & Hh). destruct item as [j st].
  destruct (excluded j) eqn:Hex.
  { unfold collect_one. rewrite Hex. done. }
  destruct (collect_one_hit now b j st Hex) as [Hlb Hdb].
  destruct (collect_one_hit now u j st Hex) as [Hlu Hdu].
  rewrite <- Hl in Hlu, Hdu.
  set (cur := current_stats (last_stats b !! j) now st) in *.
  split; [| split].
  - unfold collect_one. rewrite Hex. simpl. by rewrite Hl.
  - destruct (collect_one_frame now b (j, st)) as [-> _].
    destruct (collect_one_frame now u (j, st)) as [-> _]. done.
  - intros i. destruct (decide (j = i)) as [<- | Hne].
    + destruct (Hh j) as (Hmb & Hmu & Hit). rewrite Hdb, Hdu.
      rewrite !deque_append_maxlen. split; [done |]. split; [done |].
      rewrite (deque_append_items _ cur cap Hmb).
      rewrite (deque_append_unbounded _ cur Hmu), Hit.
      symmetry. apply lastn_snoc.
    + destruct (collect_one_other now b (j, st) i Hne) as [_ ->].
      destruct (collect_one_other now u (j, st) i Hne) as [_ ->].
      apply Hh.
Qed.

Lemma collect_stats_keeps_last (cap : nat) (b u : BandwidthMonitor) (tick : Tick)
    (lpb lpu : Loop) :
  keeps_last cap b u ->
  keeps_last cap (_collect_stats b tick lpb).1 (_collect_stats u tick lpu).1.
Proof.
  intros Hk. unfold _collect_stats. destruct (net_io tick) as [counters | e]; [| done].
  simpl. generalize (map_to_list counters). intros l. revert b u Hk.
  induction l as [| item l IH]; intros b u Hk; simpl; [done |].
  apply IH. by apply collect_one_keeps_last.
Qed.

Lemma monitor_loop_keeps_last (cap : nat) (ticks : list Tick) (b u : BandwidthMonitor)
    (lpb lpu : Loop) :
  keeps_last cap b u ->
  keeps_last cap (_monitor_loop ticks b lpb).1 (_monitor_loop ticks u lpu).1.
Proof.
  revert b u lpb lpu. induction ticks as [| tick ticks IH]; intros b u lpb lpu Hk.
  - done.
  - cbn [_monitor_loop]. pose proof Hk as (_ & Hmon & _). rewrite <- Hmon.
    destruct (monitoring b) eqn:Hb; [| exact Hk].
    pose proof (collect_stats_keeps_last cap b u tick lpb lpu Hk) as Hk'.
    destruct (_collect_stats b tick lpb) as [b' lpb'].
    destruct (_collect_stats u tick lpu) as [u' lpu']. by apply IH.
Qed.

Lemma start_keeps_last (lp : Loop) :
  keeps_last 60 (start_monitoring __init__ lp).1
                (start_monitoring (new_monitor None) lp).1.
Proof. repeat split. Qed.

(** ** The stated properties of the sampler *)

(** C5.  In one pass of [_collect_stats] over a successful counter read,
    every interface that is not excluded gets a new sample [cur], stored as
    its last sample and appended to its history, whose four rate fields are
    the float quotient (current counter - previous counter) / elapsed when a
    previous sample exists and the elapsed time is strictly positive, and
    the integer 0 otherwise (no previous sample, or elapsed time not
    positive).  In particular two ticks for [eth0] with counters
    sent 1000, recv 2000 and then sent 1500, recv 2600, one second apart,
    give a second sample with send rate 500.0 and receive rate 600.0. *)
Theorem sampler_rates :
  (forall (self : BandwidthMonitor) (tick : Tick) (lp : Loop)
          (counters : gmap string snetio) (i : string) (stats : snetio),
      net_io tick = Ok counters ->
      counters !! i = Some stats ->
      excluded i = false ->
      exists cur : Sample,
        last_stats (_collect_stats self tick lp).1 !! i = Some cur /\
        dd_get (interface_stats (_collect_stats self tick lp).1) i =
          deque_append (dd_get (interface_stats self) i) cur /\
        cur = current_stats (last_stats self !! i) (now tick) stats /\
        (forall last : Sample,
            last_stats self !! i = Some last ->
            (0 <? now tick - timestamp last)%float = true ->
            let elapsed := (now tick - timestamp last)%float in
            send_rate cur =
              Float (float_of_int (bytes_sent stats - s_bytes_sent last) / elapsed) /\
            recv_rate cur =
              Float (float_of_int (bytes_recv stats - s_bytes_recv last) / elapsed) /\
            send_packets_rate cur =
              Float (float_of_int (packets_sent stats - s_packets_sent last) / elapsed) /\
            recv_packets_rate cur =
              Float (float_of_int (packets_recv stats - s_packets_recv last) / elapsed)) /\
        (forall last : Sample,
            last_stats self !! i = Some last ->
            (0 <? now tick - timestamp last)%float = false ->
            send_rate cur = Int 0 /\ recv_rate cur = Int 0 /\
            send_packets_rate cur = Int 0 /\ recv_packets_rate cur = Int 0) /\
        (last_stats self !! i = None ->
            send_rate cur = Int 0 /\ recv_rate cur = Int 0 /\
            send_packets_rate cur = Int 0 /\ recv_packets_rate cur = Int 0)) /\
  (forall (t1 t2 : float) (ps1 pr1 ps2 pr2 : Z) (lp0 lp1 : Loop),
      (t2 - t1)%float = 1%float ->
      let ticks :=
        [mk_tick t1 (Ok {[ "eth0"%string := mk_snetio 1000 2000 ps1 pr1 ]});
         mk_tick t2 (Ok {[ "eth0"%string := mk_snetio 1500 2600 ps2 pr2 ]})] in
      let started := (start_monitoring __init__ lp0).1 in
      exists s1 s2 : Sample,
        history (_monitor_loop ticks started lp1).1 "eth0" = [s1; s2] /\
        send_rate s1 = Int 0 /\ recv_rate s1 = Int 0 /\
        send_rate s2 = Float 500 /\ recv_rate s2 = Float 600).
Proof.
  split.
  - intros self tick lp counters i stats Hio Hi Hex.
    assert (Hrun : (_collect_stats self tick lp).1 =
                   foldl (collect_one (now tick)) self (map_to_list counters)).
    { unfold _collect_stats. by rewrite Hio. }
    rewrite Hrun.
    destruct (foldl_collect_hit (now tick) (map_to_list counters) self i stats)
      as [Hl Hd].
    { apply NoDup_fst_map_to_list. }
    { by apply elem_of_map_to_list. }
    { exact Hex. }
    exists (current_stats (last_stats self !! i) (now tick) stats).
    split; [exact Hl |]. split; [exact Hd |]. split; [reflexivity |].
    split; [| split].
    + intros last -> Hpos. cbn [current_stats]. rewrite Hpos. cbn. auto.
    + intros last -> Hnpos. cbn [current_stats]. rewrite Hnpos. cbn. auto.
    + intros ->. cbn. auto.
  - intros t1 t2 ps1 pr1 ps2 pr2 lp0 lp1 Hgap ticks started.
    assert (Hex : excluded "eth0" = false) by reflexivity.
    set (st1 := mk_snetio 1000 2000 ps1 pr1) in *.
    set (st2 := mk_snetio 1500 2600 ps2 pr2) in *.
    set (m1 := collect_one t1 started ("eth0"%string, st1)).
    set (m2 := collect_one t2 m1 ("eth0"%string, st2)).
    assert (Hrun : (_monitor_loop ticks started lp1).1 = m2).
    { subst ticks. cbn [_monitor_loop].
      replace (monitoring started) with true by reflexivity.
      rewrite collect_stats_singleton. fold m1.
      replace (monitoring m1) with true.
      2:{ symmetry. apply (collect_one_frame t1 started). }
      rewrite collect_stats_singleton. reflexivity. }
    destruct (collect_one_hit t1 started "eth0" st1 Hex) as [Hl1 Hd1].
    destruct (collect_one_hit t2 m1 "eth0" st2 Hex) as [Hl2 Hd2].
    fold m1 in Hl1, Hd1, Hl2, Hd2. fold m2 in Hl2, Hd2.
    rewrite Hl1 in Hl2, Hd2. rewrite Hd1 in Hd2.
    replace (last_stats started !! "eth0"%string) with (@None Sample) in *
      by reflexivity.
    exists (current_stats None t1 st1),
           (current_stats (Some (current_stats None t1 st1)) t2 st2).
    rewrite Hrun. unfold history. rewrite Hd2.
    replace (dd_get (interface_stats started) "eth0")
      with (deque_new (A:=Sample) (Some 60%nat)) by reflexivity.
    split; [reflexivity |].
    cbn [current_stats zero_rates timestamp send_rate recv_rate]. rewrite Hgap.
    repeat split; reflexivity.
Qed.

(** A tick of the C5 kind on a concrete machine: [eth0] was last seen two
    seconds ago with 1000 bytes sent and now reports 1500. *)
Lemma sampler_rates_witness :
  exists cur : Sample,
    last_stats
      (_collect_stats
         (mk_monitor (mk_defaultdict (Some 60%nat) ∅)
                     {[ "eth0"%string := mk_sample 10 1000 2000 7 9 (Int 0) (Int 0) (Int 0) (Int 0) ]}
                     true (Some 0%nat))
         (mk_tick 12 (Ok {[ "eth0"%string := mk_snetio 1500 2600 8 11 ]}))
         (mk_loop 1 [] [])).1 !! "eth0"%string = Some cur /\
    send_rate cur = Float 250 /\ recv_rate cur = Float 300.
Proof.
  destruct (proj1 sampler_rates
              (mk_monitor (mk_defaultdict (Some 60%nat) ∅)
                 {[ "eth0"%string := mk_sample 10 1000 2000 7 9 (Int 0) (Int 0) (Int 0) (Int 0) ]}
                 true (Some 0%nat))
              (mk_tick 12 (Ok {[ "eth0"%string := mk_snetio 1500 2600 8 11 ]}))
              (mk_loop 1 [] [])
              {[ "eth0"%string := mk_snetio 1500 2600 8 11 ]}
              "eth0"%string (mk_snetio 1500 2600 8 11))
    as (cur & Hl & _ & _ & Hrate & _ & _).
  - reflexivity.
  - vm_compute. reflexivity.
  - vm_compute. reflexivity.
  - exists cur. split; [exact Hl |].
    destruct (Hrate (mk_sample 10 1000 2000 7 9 (Int 0) (Int 0) (Int 0) (Int 0)))
      as (Hs & Hr & _).
    + vm_compute. reflexivity.
    + vm_compute. reflexivity.
    + split; [exact Hs | exact Hr].
Defined.



(** C8.  [start_monitoring] is idempotent: on a monitor that is already
    monitoring it changes neither the monitor (flag, task handle,
    histories, last samples) nor the event loop (no task is created,
    nothing is logged); hence a second call right after a first one is a
    no-op. *)
Theorem start_monitoring_idempotent :
  (forall (self : BandwidthMonitor) (lp : Loop),
      monitoring self = true ->
      start_monitoring self lp = (self, lp)) /\
  (forall (self : BandwidthMonitor) (lp : Loop),
      let once := start_monitoring self lp in
      monitoring once.1 = true /\
      start_monitoring once.1 once.2 = once /\
      created (start_monitoring once.1 once.2).2 = created once.2).
Proof.
  split.
  - intros self lp Hm. unfold start_monitoring. by rewrite Hm.
  - intros self lp once.
    assert (Hm : monitoring once.1 = true).
    { subst once. unfold start_monitoring.
      destruct (monitoring self) eqn:Hm; [exact Hm | reflexivity]. }
    assert (Hsame : start_monitoring once.1 once.2 = once).
    { unfold start_monitoring at 1. rewrite Hm. by destruct once. }
    split; [exact Hm |]. split; [exact Hsame |]. by rewrite Hsame.
Qed.

(** A running monitor with one history, started again. *)
Lemma start_monitoring_idempotent_witness :
  let self :=
    mk_monitor
      (mk_defaultdict (Some 60%nat)
         {[ "eth0"%string :=
              mk_deque (Some 60%nat)
                [mk_sample 10 1000 2000 7 9 (Int 0) (Int 0) (Int 0) (Int 0)] ]})
      {[ "eth0"%string := mk_sample 10 1000 2000 7 9 (Int 0) (Int 0) (Int 0) (Int 0) ]}
      true (Some 0%nat) in
  start_monitoring self (mk_loop 1 [] ["Started bandwidth monitoring"%string]) =
  (self, mk_loop 1 [] ["Started bandwidth monitoring"%string]).
Proof.
  intros self.
  exact (proj1 start_monitoring_idempotent self
           (mk_loop 1 [] ["Started bandwidth monitoring"%string]) eq_refl).
Defined.

End BandwidthFacts.

(* ===================================================================== *)
(** * Properties of the iperf3 session manager *)
(* ===================================================================== *)

Section NetworkToolsFacts.
Import NetworkTools.

(** The probes of a failed allocation, as they appear in the trace. *)
Lemma probe_ports_all_fail (n : nat) (range : Z * Z) (os : OS) :
  (forall k, (k < n)%nat ->
             can_bind os (draws os + k) (randint os (draws os + k)%nat range) = false) ->
  exists os',
    probe_ports n range os = (Raise (RuntimeError "No available ports in range"), os') /\
    randint os' = randint os /\ can_bind os' = can_bind os /\
    exec os' = exec os /\ exit_delay os' = exit_delay os /\
    draws os' = (draws os + n)%nat /\ next_pid os' = next_pid os /\
    clock os' = clock os /\
    trace os' =
      trace os ++
      map (fun k => Bind (randint os (draws os + k)%nat range) false) (seq 0 n).
Proof.
  revert os. induction n as [| n IH]; intros os Hfail.
  - exists os. simpl. rewrite app_nil_r, Nat.add_0_r. repeat split.
  - cbn [probe_ports].
    pose proof (Hfail 0%nat ltac:(lia)) as H0. rewrite Nat.add_0_r in H0.
    rewrite H0.
    set (os1 := os_emit (Bind (randint os (draws os) range) false) (os_draw os)).
    destruct (IH os1) as (os' & Hp & Hr & Hc & He & Hx & Hd & Hn & Hk & Ht).
    { intros k Hk. subst os1. cbn.
      replace (S (draws os + k))%nat with (draws os + S k)%nat by lia.
      apply Hfail. lia. }
    exists os'. rewrite Hp, Hr, Hc, He, Hx, Hd, Hn, Hk, Ht. subst os1. cbn.
    repeat split; try lia.
    rewrite <- app_assoc. f_equal. cbn. rewrite Nat.add_0_r. f_equal.
    rewrite <- seq_shift, map_map. apply map_ext. intros k.
    by replace (S (draws os + k))%nat with (draws os + S k)%nat by lia.
Qed.

(** The first probe that binds ends the allocation. *)
Lemma probe_ports_first_success (n j : nat) (range : Z * Z) (os : OS) :
  (j < n)%nat ->
  (forall k, (k < j)%nat ->
             can_bind os (draws os + k) (randint os (draws os + k)%nat range) = false) ->
  can_bind os (draws os + j) (randint os (draws os + j)%nat range) = true ->
  exists os',
    probe_ports n range os = (Ok (randint os (draws os + j)%nat range), os') /\
    draws os' = (draws os + S j)%nat /\ next_pid os' = next_pid os.
Proof.
  revert j os. induction n as [| n IH]; intros j os Hj Hfail Hok; [lia |].
  cbn [probe_ports]. destruct j as [| j].
  - rewrite Nat.add_0_r in *. rewrite Hok. eexists. split; [reflexivity |].
    cbn. split; lia.
  - pose proof (Hfail 0%nat ltac:(lia)) as H0. rewrite Nat.add_0_r in H0.
    rewrite H0.
    set (os1 := os_emit (Bind (randint os (draws os) range) false) (os_draw os)).
    destruct (IH j os1) as (os' & Hp & Hd & Hn).
    + lia.
    + intros k Hk. subst os1. cbn.
      replace (S (draws os + k))%nat with (draws os + S k)%nat by lia.
      apply Hfail. lia.
    + subst os1. cbn.
      replace (S (draws os + j))%nat with (draws os + S j)%nat by lia. exact Hok.
    + exists os'. subst os1. cbn in Hp, Hd, Hn.
      replace (S (draws os + j))%nat with (draws os + S j)%nat in Hp by lia.
      rewrite Hp. split; [done |]. split; lia.
Qed.

(** The three branches of [stop_server]. *)
Lemma stop_server_registered (self : IPerf3Server) (os : OS) (port : Z)
    (process : Process) :
  processes self !! port = Some process ->
  has_exited os (pid process) = false ->
  stop_server port (self, os) =
    (Ok true,
     (mk_server (delete port (processes self)) (port_range self),
      os_emit (LogInfo ("Stopped iperf3 server on port " +:+ str_int port))
        (wait_or_kill (pid process) (os_emit (Terminate (pid process)) os)))).
Proof. intros Hp Hlive. unfold stop_server. cbn [fst snd]. by rewrite Hp, Hlive. Qed.

Lemma stop_server_exited (self : IPerf3Server) (os : OS) (port : Z)
    (process : Process) :
  processes self !! port = Some process ->
  has_exited os (pid process) = true ->
  stop_server port (self, os) = (Raise ProcessLookupError, (self, os)).
Proof. intros Hp Hgone. unfold stop_server. cbn [fst snd]. by rewrite Hp, Hgone. Qed.

Lemma stop_server_unregistered (self : IPerf3Server) (os : OS) (port : Z) :
  processes self !! port = None ->
  stop_server port (self, os) = (Ok false, (self, os)).
Proof. intros Hp. unfold stop_server. cbn [fst snd]. by rewrite Hp. Qed.

(** A successful [start_server] registers, under the port it returns, the
    child it spawned; the probes and the spawn do not change what the
    machine says of its children. *)
Lemma start_server_child (duration : Z) (s0 s1 : St) (info : Started) :
  start_server duration s0 = (Ok info, s1) ->
  (exists cmd, processes s1.1 !! port info = Some (mk_process (next_pid s0.2) cmd)) /\
  has_exited s1.2 = has_exited s0.2.
Proof.
  unfold start_server, try_except, bind at 1, get_available_port.
  destruct s0 as [self os]. cbn [fst snd].
  assert (Hprobe : forall n o r o', probe_ports n (port_range self) o = (r, o') ->
                     next_pid o' = next_pid o /\ has_exited o' = has_exited o).
  { induction n as [| n IH]; intros o r o'; cbn [probe_ports].
    - intros [= _ <-]. done.
    - destruct (can_bind o _ _).
      + intros [= _ <-]. done.
      + intros H. apply IH in H. cbn in H. exact H. }
  destruct (probe_ports 100 (port_range self) os) as [[p | e] os1] eqn:Hp;
    [| discriminate].
  apply Hprobe in Hp as [Hn Hx].
  unfold bind at 1, create_subprocess_exec. cbn [fst snd].
  destruct (exec os1 _); [discriminate |].
  unfold bind, modify, on_os, ret. cbn [fst snd]. intros H.
  inversion H as [[Hinfo Hs1]]. cbn [port fst snd processes has_exited os_emit os_fork].
  split; [| exact Hx]. rewrite lookup_insert_eq, Hn. by eexists.
Qed.

(** ** The stated properties of the session manager *)

(** C2, as the code has it.  [get_available_port] probes at most 100
    candidate ports and stops at the first one that binds.  When all 100
    probes fail, [start_server] fails: no process is spawned, the session
    map and the manager are unchanged, the failure is logged, and the
    caller receives [HTTPException] with status 500 and the detail
    "Failed to start iperf3 server: No available ports in range".  A spawn
    failure is surfaced through the same handler as the same
    [HTTPException] with status 500, its own message following the same
    prefix; again no session is registered. *)
Theorem start_server_no_available_port :
  (forall (duration : Z) (self : IPerf3Server) (os : OS),
      (forall k, (k < 100)%nat ->
         can_bind os (draws os + k)
                  (randint os (draws os + k)%nat (port_range self)) = false) ->
      exists os',
        start_server duration (self, os) =
          (Raise (HTTPException 500
                    "Failed to start iperf3 server: No available ports in range"),
           (self, os')) /\
        draws os' = (draws os + 100)%nat /\
        next_pid os' = next_pid os /\
        trace os' =
          trace os ++
          map (fun k => Bind (randint os (draws os + k)%nat (port_range self)) false)
              (seq 0 100) ++
          [LogError "Failed to start iperf3 server: No available ports in range"]) /\
  (forall (self : IPerf3Server) (os : OS) (j : nat),
      (j < 100)%nat ->
      (forall k, (k < j)%nat ->
         can_bind os (draws os + k)
                  (randint os (draws os + k)%nat (port_range self)) = false) ->
      can_bind os (draws os + j)
               (randint os (draws os + j)%nat (port_range self)) = true ->
      exists os',
        get_available_port (self, os) =
          (Ok (randint os (draws os + j)%nat (port_range self)), (self, os')) /\
        draws os' = (draws os + S j)%nat) /\
  (forall (duration : Z) (self : IPerf3Server) (os os1 : OS) (port : Z) (e : exn),
      probe_ports 100 (port_range self) os = (Ok port, os1) ->
      exec os1 ["iperf3"; "-s"; "-p"; str_int port; "-1"; "--json"]%string = Some e ->
      start_server duration (self, os) =
        (Raise (HTTPException 500 ("Failed to start iperf3 server: " +:+ exn_str e)),
         (self, os_emit (LogError ("Failed to start iperf3 server: " +:+ exn_str e)) os1))).
Proof.
  split; [| split].
  - intros duration self os Hfail.
    destruct (probe_ports_all_fail 100 (port_range self) os Hfail)
      as (os' & Hp & _ & _ & _ & _ & Hd & Hn & _ & Ht).
    exists (os_emit (LogError "Failed to start iperf3 server: No available ports in range") os').
    split.
    + unfold start_server, try_except, bind at 1, get_available_port.
      cbn [fst snd]. rewrite Hp. reflexivity.
    + cbn. rewrite Hd, Hn, Ht. split; [done |]. split; [done |].
      by rewrite <- app_assoc.
  - intros self os j Hj Hfail Hok.
    destruct (probe_ports_first_success 100 j (port_range self) os Hj Hfail Hok)
      as (os' & Hp & Hd & _).
    exists os'. unfold get_available_port. cbn [fst snd]. by rewrite Hp.
  - intros duration self os os1 port e Hp He.
    unfold start_server, try_except, bind at 1, get_available_port.
    cbn [fst snd]. rewrite Hp.
    unfold bind at 1, create_subprocess_exec. cbn [fst snd]. rewrite He.
    reflexivity.
Qed.

(** On a machine whose ports are all taken the allocation fails after 100
    probes. *)
Lemma start_server_no_available_port_witness :
  exists os',
    start_server 300 (__init__, os_exhausted) =
      (Raise (HTTPException 500
                "Failed to start iperf3 server: No available ports in range"),
       (__init__, os')) /\
    draws os' = 100%nat /\ next_pid os' = next_pid os_exhausted.
Proof.
  destruct (proj1 start_server_no_available_port 300 __init__ os_exhausted)
    as (os' & Hs & Hd & Hn & _).
  - intros k Hk. reflexivity.
  - exists os'. split; [exact Hs |]. split; [exact Hd | exact Hn].
Defined.

(** C2 as stated fails: the failure surfaced for port exhaustion is not of
    a kind distinct from the one surfaced for a spawn failure.  On a machine
    with no free port and on a machine with no [iperf3] executable the
    caller gets an exception of the same class with the same status, 500
    (a server error, not a retry signal). *)
Lemma no_available_port_same_kind_as_spawn_failure :
  exists (e1 e2 : exn) (s1 s2 : St),
    start_server 300 (__init__, os_exhausted) = (Raise e1, s1) /\
    start_server 300 (__init__, os_no_iperf3) = (Raise e2, s2) /\
    exn_class e1 = exn_class e2 /\
    http_status e1 = Some 500 /\ http_status e2 = Some 500 /\
    processes s1.1 = ∅ /\ processes s2.1 = ∅.
Proof.
  do 4 eexists. split; [vm_compute; reflexivity |].
  split; [vm_compute; reflexivity |]. repeat split.
Qed.







End NetworkToolsFacts.

(* ===================================================================== *)
(** * Properties of the result cache *)
(* ===================================================================== *)

Section CacheFacts.
Import Cache.

(** ** The store while it is reachable *)






(** ** The two paths of [query], over any store *)

Lemma query_hit_gen (S : Type) (cache : RedisManager S) (env : Env) (data : Query)
    (s s1 : S) (lg : list string) (v : Value) :
    let key := "hyperglass.query." +:+ digest data in
    get_map cache key "output" s = (Ok v, s1) ->
    truthy v = true ->
    (forall (e : exn) (s2 : S),
        expire cache key (cache_timeout env) s1 = (Raise e, s2) ->
        query cache env data (s, lg) =
          (Raise e, (s2, lg ++ ["Starting query execution"; "Cache hit"]%string))) /\
    (forall (s2 s3 s4 : S) (ts v' : Value),
        expire cache key (cache_timeout env) s1 = (Ok tt, s2) ->
        get_map cache key "timestamp" s2 = (Ok ts, s3) ->
        get_map cache key "output" s3 = (Ok v', s4) ->
        query cache env data (s, lg) =
          (Ok (mk_response v' key true 0 ts
                 (if is_dict v' then "application/json" else "text/plain")%string
                 (random data) "success" []),
           (s4, lg ++ ["Starting query execution"; "Cache hit";
                       "Execution completed"]%string))).
Proof.
  intros key Hget Hv. split.
  - intros e s2 Hexp. unfold query. fold key.
    unfold bind at 1. unfold log_msg at 1. cbn [fst snd].
    unfold bind at 1. unfold on_store at 1. cbn [fst snd]. rewrite Hget.
    unfold bind at 1. unfold hit_or_miss. rewrite Hv.
    unfold bind at 1. unfold log_msg at 1. cbn [fst snd].
    unfold bind at 1. unfold on_store at 1. cbn [fst snd]. rewrite Hexp.
    by rewrite <- app_assoc.
  - intros s2 s3 s4 ts v' Hexp Hts Hout. unfold query. fold key.
    unfold bind at 1. unfold log_msg at 1. cbn [fst snd].
    unfold bind at 1. unfold on_store at 1. cbn [fst snd]. rewrite Hget.
    unfold bind at 1. unfold hit_or_miss. rewrite Hv.
    unfold bind at 1. unfold log_msg at 1. cbn [fst snd].
    unfold bind at 1. unfold on_store at 1. cbn [fst snd]. rewrite Hexp.
    unfold bind at 1. unfold on_store at 1. cbn [fst snd]. rewrite Hts.
    unfold ret at 1.
    unfold bind at 1. unfold on_store at 1. cbn [fst snd]. rewrite Hout.
    unfold bind at 1. unfold log_msg at 1. cbn [fst snd]. unfold ret.
    by rewrite <- !app_assoc.
Qed.

(** ** Cache hit and TTL refresh *)

(** C1, as the code has it.  On a cache hit (the lookup of the output
    returns a true value) [query] logs the hit and calls the store's
    [expire] without guarding it.  If that refresh raises, the same
    exception leaves [query]: the request fails, the cached entry is not
    served, and nothing is logged after "Cache hit".  If the refresh and the
    two reads after it succeed, the entry read from the store is served with
    [cached = True], [runtime = 0] and the stored timestamp. *)
Theorem query_hit_refresh :
  forall (S : Type) (cache : RedisManager S) (env : Env) (data : Query)
         (s s1 : S) (lg : list string) (v : Value),
    let key := "hyperglass.query." +:+ digest data in
    get_map cache key "output" s = (Ok v, s1) ->
    truthy v = true ->
    (forall (e : exn) (s2 : S),
        expire cache key (cache_timeout env) s1 = (Raise e, s2) ->
        query cache env data (s, lg) =
          (Raise e, (s2, lg ++ ["Starting query execution"; "Cache hit"]%string))) /\
    (forall (s2 s3 s4 : S) (ts v' : Value),
        expire cache key (cache_timeout env) s1 = (Ok tt, s2) ->
        get_map cache key "timestamp" s2 = (Ok ts, s3) ->
        get_map cache key "output" s3 = (Ok v', s4) ->
        query cache env data (s, lg) =
          (Ok (mk_response v' key true 0 ts
                 (if is_dict v' then "application/json" else "text/plain")%string
                 (random data) "success" []),
           (s4, lg ++ ["Starting query execution"; "Cache hit";
                       "Execution completed"]%string))).
Proof. intros S cache env data s s1 lg v. apply query_hit_gen. Qed.

(** A hit on a store that stops answering right after the lookup: the
    request fails with the store's exception. *)
Lemma query_hit_refresh_witness :
  exists w : World (S := MemStore),
    query mem_cache env_live a_query (store_failing_after_lookup, []) =
      (Raise (ConnectionError "CacheUnavailable"), w) /\
    w.2 = ["Starting query execution"; "Cache hit"]%string.
Proof.
  destruct (query_hit_refresh MemStore mem_cache env_live a_query
              store_failing_after_lookup
              (mk_store (maps store_failing_after_lookup)
                        (deadline store_failing_after_lookup) 1000 (Some 0%nat))
              [] (VStr "BGP table")) as [Hfail _].
  - vm_compute. reflexivity.
  - vm_compute. reflexivity.
  - eexists. split.
    + apply Hfail. vm_compute. reflexivity.
    + reflexivity.
Defined.

(** C1 as stated fails: a cached entry is present and looked up
    successfully (a second store with the same content serves it), the
    refresh fails, and the request fails with the store's exception; the
    log ends at "Cache hit", so the failure is not logged either. *)
Lemma refresh_failure_fails_the_request :
  (exists r : Response,
      (query mem_cache env_live a_query (store_with_entry, [])).1 = Ok r /\
      r_output r = VStr "BGP table" /\ r_cached r = true) /\
  (mem_get_map "hyperglass.query.d1" "output" store_failing_after_lookup).1 =
    Ok (VStr "BGP table") /\
  (mem_expire "hyperglass.query.d1" (cache_timeout env_live)
     (mem_get_map "hyperglass.query.d1" "output" store_failing_after_lookup).2).1 =
    Raise (ConnectionError "CacheUnavailable") /\
  (query mem_cache env_live a_query (store_failing_after_lookup, [])).1 =
    Raise (ConnectionError "CacheUnavailable") /\
  (query mem_cache env_live a_query (store_failing_after_lookup, [])).2.2 =
    ["Starting query execution"; "Cache hit"]%string.
Proof.
  split.
  - eexists. split; [vm_compute; reflexivity |]. split; reflexivity.
  - repeat split; vm_compute; reflexivity.
Qed.

(** ** Round trip *)





End CacheFacts.
(* ===================================================================== *)
(** * Properties of the speed-test endpoints *)
(* ===================================================================== *)

Section SpeedTestFacts.
Import SpeedTest.

(** ** The generator *)

Lemma zeros_app (a b : Z) : 0 <= a -> 0 <= b -> zeros a ++ zeros b = zeros (a + b).
Proof.
  intros Ha Hb. unfold zeros. rewrite Z2Nat.inj_add by assumption.
  by rewrite repeat_app.
Qed.

Lemma len_zeros (n : Z) : 0 <= n -> len (zeros n) = n.
Proof. intros Hn. unfold len, zeros. rewrite repeat_length. lia. Qed.

Lemma zeros_nonpos (n : Z) : n <= 0 -> zeros n = [].
Proof. intros Hn. unfold zeros. by replace (Z.to_nat n) with 0%nat by lia. Qed.

(** Run to exhaustion from [bytes_sent], the generator yields the
    [total_bytes - bytes_sent] zero bytes that are left. *)
Lemma generate_file_data_concat (total_bytes bytes_sent : Z) :
  concat (generate_file_data total_bytes bytes_sent) = zeros (total_bytes - bytes_sent).
Proof.
  funelim (generate_file_data total_bytes bytes_sent).
  - clear Heqcall Heq. cbn [concat].
    set (remaining := Z.min chunk_size (total_bytes - bytes_sent)) in *.
    assert (Hr : 0 < remaining) by (unfold remaining, chunk_size; lia).
    rewrite H. rewrite len_zeros by lia. rewrite zeros_app.
    + f_equal. lia.
    + lia.
    + unfold remaining. lia.
  - cbn [concat]. symmetry. apply zeros_nonpos. lia.
Qed.

(** ** The size named by a file name *)

Lemma size_of_filename_MB (s : string) :
  size_of_filename (s +:+ "MB.bin") =
    match int_of_str s with
    | Ok n => if (n <=? 0) || (n >? 10240)
              then Raise (ValueError "File size too large") else Ok n
    | Raise e => Raise e
    end.
Proof.
  unfold size_of_filename.
  replace (s +:+ "MB.bin") with ((s +:+ "MB") +:+ ".bin")
    by (apply chars_inj; rewrite !chars_app, <- app_assoc; reflexivity).
  rewrite endswith_app.
  change 4%nat with (length (chars ".bin")). rewrite drop_last_app.
  rewrite endswith_app.
  change 2%nat with (length (chars "MB")). rewrite drop_last_app.
  reflexivity.
Qed.

Lemma size_of_filename_GB (s : string) :
  size_of_filename (s +:+ "GB.bin") =
    match int_of_str s with
    | Ok n => if (n * 1024 <=? 0) || (n * 1024 >? 10240)
              then Raise (ValueError "File size too large") else Ok (n * 1024)
    | Raise e => Raise e
    end.
Proof.
  unfold size_of_filename.
  replace (s +:+ "GB.bin") with ((s +:+ "GB") +:+ ".bin")
    by (apply chars_inj; rewrite !chars_app, <- app_assoc; reflexivity).
  rewrite endswith_app.
  change 4%nat with (length (chars ".bin")). rewrite drop_last_app.
  rewrite (endswith_other s "GB" "MB") by (reflexivity || discriminate).
  rewrite endswith_app.
  change 2%nat with (length (chars "GB")). rewrite drop_last_app.
  by destruct (int_of_str s).
Qed.

Lemma size_of_filename_KB (s : string) :
  size_of_filename (s +:+ "KB.bin") = Raise (ValueError "Invalid file format").
Proof.
  unfold size_of_filename.
  replace (s +:+ "KB.bin") with ((s +:+ "KB") +:+ ".bin")
    by (apply chars_inj; rewrite !chars_app, <- app_assoc; reflexivity).
  rewrite endswith_app.
  change 4%nat with (length (chars ".bin")). rewrite drop_last_app.
  rewrite (endswith_other s "KB" "MB") by (reflexivity || discriminate).
  by rewrite (endswith_other s "KB" "GB") by (reflexivity || discriminate).
Qed.

(** The [try] block raises nothing but [ValueError]. *)
Lemma size_of_filename_raises (filename : string) (e : exn) :
  size_of_filename filename = Raise e -> exists msg, e = ValueError msg.
Proof.
  unfold size_of_filename.
  destruct (endswith filename ".bin"); [| intros H; inversion H; by eexists].
  destruct (endswith (drop_last 4 filename) "MB").
  - destruct (int_of_str _) as [n | e'] eqn:Hn.
    + destruct (_ || _); intros H; inversion H; by eexists.
    + intros H; inversion H; subst. by apply int_of_str_raises in Hn.
  - destruct (endswith (drop_last 4 filename) "GB").
    + destruct (int_of_str _) as [n | e'] eqn:Hn.
      * destruct (_ || _); intros H; inversion H; by eexists.
      * intros H; inversion H; subst. by apply int_of_str_raises in Hn.
    + intros H; inversion H; by eexists.
Qed.

(** The [try] block returns [size_mb] exactly for the names of [named_size]. *)
Lemma size_of_filename_named (filename : string) (size_mb : Z) :
  size_of_filename filename = Ok size_mb <-> named_size filename size_mb.
Proof.
  split.
  - unfold size_of_filename.
    destruct (endswith filename ".bin") eqn:Hbin; [| discriminate].
    apply endswith_split in Hbin. change (length (chars ".bin")) with 4%nat in Hbin.
    set (size_str := drop_last 4 filename) in *.
    destruct (endswith size_str "MB") eqn:HMB.
    + apply endswith_split in HMB. change (length (chars "MB")) with 2%nat in HMB.
      destruct (int_of_str (drop_last 2 size_str)) as [n | e] eqn:Hn; [| discriminate].
      destruct ((n <=? 0) || (n >? 10240)) eqn:Hr; [discriminate |].
      intros H; inversion H; subst n. exists (drop_last 2 size_str), size_mb.
      split; [exact Hn |]. split.
      * left. split; [| reflexivity]. rewrite Hbin, HMB at 1.
        apply chars_inj. rewrite !chars_app, <- app_assoc. reflexivity.
      * apply orb_false_iff in Hr. lia.
    + destruct (endswith size_str "GB") eqn:HGB; [| discriminate].
      apply endswith_split in HGB. change (length (chars "GB")) with 2%nat in HGB.
      destruct (int_of_str (drop_last 2 size_str)) as [n | e] eqn:Hn; [| discriminate].
      destruct ((n * 1024 <=? 0) || (n * 1024 >? 10240)) eqn:Hr; [discriminate |].
      intros H; inversion H. exists (drop_last 2 size_str), n.
      split; [exact Hn |]. split.
      * right. split; [| reflexivity]. rewrite Hbin, HGB at 1.
        apply chars_inj. rewrite !chars_app, <- app_assoc. reflexivity.
      * apply orb_false_iff in Hr. lia.
  - intros (s & n & Hn & [[Hf Hs] | [Hf Hs]] & Hr); subst filename size_mb.
    + rewrite size_of_filename_MB, Hn.
      replace ((n <=? 0) || (n >? 10240)) with false; [reflexivity |].
      symmetry. apply orb_false_iff. lia.
    + rewrite size_of_filename_GB, Hn.
      replace ((n * 1024 <=? 0) || (n * 1024 >? 10240)) with false; [reflexivity |].
      symmetry. apply orb_false_iff. lia.
Qed.

(** ** The endpoint *)

Lemma handle_speedtest_file_ok (filename : string) (size_mb : Z) (lg : Log) :
  size_of_filename filename = Ok size_mb ->
  handle_speedtest_file filename lg =
    (Ok (mk_response (generate_file_data (size_mb * 1024 * 1024) 0)
           "application/octet-stream"
           (file_headers filename (size_mb * 1024 * 1024))),
     lg ++ ["Starting file download: " +:+ filename +:+ " ("
            +:+ str_int size_mb +:+ "MB)"]).
Proof.
  intros H. unfold handle_speedtest_file, bind, try_except_ValueError, lift.
  rewrite H. reflexivity.
Qed.

Lemma handle_speedtest_file_404 (filename : string) (e : exn) (lg : Log) :
  size_of_filename filename = Raise e ->
  handle_speedtest_file filename lg =
    (Raise (HTTPException 404 "File not found"), lg).
Proof.
  intros H. destruct (size_of_filename_raises filename e H) as [msg ->].
  unfold handle_speedtest_file, bind, try_except_ValueError, lift.
  rewrite H. reflexivity.
Qed.

Lemma check_file_sizes_KB (s : string) (n : Z) :
  int_of_str s = Ok n -> validate_file_sizes [s +:+ "KB"] = Ok [s +:+ "KB"].
Proof.
  intros Hn. unfold validate_file_sizes, check_file_sizes, has_valid_unit, valid_units.
  cbn [existsb]. rewrite endswith_app. cbn [orb negb].
  change 2%nat with (length (chars "KB")). rewrite drop_last_app, Hn. reflexivity.
Qed.

(** C10.  [handle_speedtest_file] serves exactly the names [<n>MB.bin] and
    [<n>GB.bin] ([<n>] a numeral as [int] reads it) whose size in megabytes,
    [n] or [n * 1024], is positive and at most 10240: for such a name it
    returns a response whose chunks, put end to end, are
    [size_mb * 1024 * 1024] zero bytes, and whose [Content-Length] header is
    that number; for every other name it raises [HTTPException] 404
    "File not found".  [<n>KB.bin] is among the other names, although
    [SpeedTestConfig.validate_file_sizes] accepts [<n>KB]. *)
Theorem speedtest_file_served_names :
  (forall (filename : string) (size_mb : Z) (lg : Log),
      named_size filename size_mb ->
      exists (r : Response) (lg' : Log),
        handle_speedtest_file filename lg = (Ok r, lg') /\
        concat (content r) = zeros (size_mb * 1024 * 1024) /\
        len (concat (content r)) = size_mb * 1024 * 1024 /\
        header "Content-Length" (headers r) =
          Some (str_int (len (concat (content r))))) /\
  (forall (filename : string) (lg : Log),
      (forall size_mb : Z, ~ named_size filename size_mb) ->
      handle_speedtest_file filename lg =
        (Raise (HTTPException 404 "File not found"), lg)) /\
  (forall (s : string) (n : Z) (lg : Log),
      int_of_str s = Ok n ->
      handle_speedtest_file (s +:+ "KB.bin") lg =
        (Raise (HTTPException 404 "File not found"), lg) /\
      validate_file_sizes [s +:+ "KB"] = Ok [s +:+ "KB"]).
Proof.
  split; [| split].
  - intros filename size_mb lg Hnamed.
    assert (Hpos : 0 <= size_mb * 1024 * 1024)
      by (destruct Hnamed as (_ & _ & _ & _ & Hr); lia).
    apply size_of_filename_named in Hnamed.
    eexists _, _. split; [by apply handle_speedtest_file_ok |].
    cbn [content headers]. rewrite generate_file_data_concat, Z.sub_0_r.
    rewrite len_zeros by exact Hpos. done.
  - intros filename lg Hnot.
    destruct (size_of_filename filename) as [size_mb | e] eqn:Hsz.
    + exfalso. by apply (Hnot size_mb), size_of_filename_named.
    + by apply (handle_speedtest_file_404 filename e).
  - intros s n lg Hn. split.
    + apply (handle_speedtest_file_404 _ _ lg (size_of_filename_KB s)).
    + by apply (check_file_sizes_KB s n).
Qed.

(** ["100MB.bin"] names 100 megabytes and is served; ["notes.txt"] names no
    size and ["100KB.bin"] is refused, while ["100KB"] passes the
    configuration's validator. *)
Lemma speedtest_file_served_names_witness :
  (exists (r : Response) (lg' : Log),
      handle_speedtest_file "100MB.bin" [] = (Ok r, lg') /\
      concat (content r) = zeros (100 * 1024 * 1024) /\
      len (concat (content r)) = 100 * 1024 * 1024 /\
      header "Content-Length" (headers r) =
        Some (str_int (len (concat (content r))))) /\
  handle_speedtest_file "notes.txt" [] =
    (Raise (HTTPException 404 "File not found"), []) /\
  handle_speedtest_file "100KB.bin" [] =
    (Raise (HTTPException 404 "File not found"), []) /\
  validate_file_sizes ["100KB"%string] = Ok ["100KB"%string].
Proof.
  destruct speedtest_file_served_names as (Hserved & Hother & HKB).
  split; [| split].
  - apply (Hserved "100MB.bin"%string 100 []).
    exists "100"%string, 100. split; [vm_compute; reflexivity |].
    split; [left; split; reflexivity | lia].
  - apply (Hother "notes.txt"%string []).
    intros size_mb Hnamed. apply size_of_filename_named in Hnamed.
    vm_compute in Hnamed. discriminate Hnamed.
  - apply (HKB "100"%string 100 []). vm_compute. reflexivity.
Defined.

End SpeedTestFacts.
(* ===================================================================== *)
(** * Properties of the ALS configuration validator *)
(* ===================================================================== *)

Section AlsConfigFacts.
Import Cache AlsConfig.

(** The loop over the file sizes never raises. *)
Lemma file_size_errors_total (sizes errors : list string) :
  exists errors', file_size_errors sizes errors = Ok errors'.
Proof.
  revert errors. induction sizes as [| size sizes IH]; intros errors.
  - by eexists.
  - cbn [file_size_errors]. destruct (negb (SpeedTest.has_valid_unit size)).
    + apply IH.
    + destruct (int_of_str (drop_last 2 size)) as [n | e] eqn:Hn.
      * apply IH.
      * destruct (int_of_str_raises _ _ Hn) as [msg ->]. apply IH.
Qed.

Lemma validate_speedtest_config_total (config : SpeedTestConfig) (lg : Log) :
  exists errors lg', _validate_speedtest_config config lg = (Ok errors, lg').
Proof.
  unfold _validate_speedtest_config.
  destruct (negb (st_enabled config)); [by eexists _, _ |].
  destruct (file_size_errors_total (file_sizes config) []) as [errors He].
  unfold bind, lift. rewrite He.
  destruct (negb (bool_decide _)); by eexists _, _.
Qed.

(** The body of the [try], when the model is constructed: it returns
    [(False, errors)] with the errors collected, or [(True, [])] when there
    are none. *)
Lemma validate_body_constructed (call : Value -> Res ALSFeatures)
    (config_data : gmap string Value) (als : ALSFeatures) (lg : Log) :
  truthy (default (VDict []) (config_data !! "als_features"%string)) = true ->
  call (default (VDict []) (config_data !! "als_features"%string)) = Ok als ->
  exists (e1 : list string) (lg1 : Log),
    _validate_speedtest_config (speedtest als) lg = (Ok e1, lg1) /\
    let errors := e1 ++ _validate_network_tools_config (network_tools als)
                     ++ _validate_bandwidth_config (bandwidth als) in
    validate_body call config_data (lg, []) =
      match errors with
      | _ :: _ => (Ok (false, errors), (lg1, errors))
      | [] => (Ok (true, []),
               (lg1 ++ ["ALS features configuration is valid"%string], []))
      end.
Proof.
  intros Ht Hc.
  destruct (validate_speedtest_config_total (speedtest als) lg) as (e1 & lg1 & H1).
  exists e1, lg1. split; [exact H1 |]. cbn zeta.
  unfold validate_body. rewrite Ht. cbn [negb].
  unfold bind at 1. unfold lift at 1. rewrite Hc.
  unfold bind at 1. unfold on_log at 1. cbn [fst snd]. rewrite H1.
  unfold bind at 1. unfold extend at 1. cbn [fst snd app].
  unfold bind at 1. unfold extend at 1. cbn [fst snd].
  unfold bind at 1. unfold extend at 1. cbn [fst snd].
  unfold bind at 1. unfold errors_now at 1. cbn [fst snd].
  rewrite <- app_assoc.
  destruct (e1 ++ _ ++ _) as [| x l]; reflexivity.
Qed.

(** C9.  Whatever the constructor of the model does, [validate_als_config]
    returns a pair [(is_valid, errors)] and never raises; [is_valid] is
    [True] exactly when [errors] is empty; and a configuration without an
    ['als_features'] section gives [(True, [])]. *)
Theorem validate_als_config_pair :
  forall (ALSFeatures_call : Value -> Res ALSFeatures)
         (config_data : gmap string Value) (lg : Log),
    exists (is_valid : bool) (errors : list string) (lg' : Log),
      validate_als_config ALSFeatures_call config_data lg =
        (Ok (is_valid, errors), lg') /\
      (is_valid = true <-> errors = []) /\
      (config_data !! "als_features"%string = None ->
       is_valid = true /\ errors = []).
Proof.
  intros call config_data lg. unfold validate_als_config, try_except.
  destruct (truthy (default (VDict []) (config_data !! "als_features"%string)))
    eqn:Ht.
  - destruct (call (default (VDict []) (config_data !! "als_features"%string)))
      as [als | e] eqn:Hc.
    + destruct (validate_body_constructed call config_data als lg Ht Hc)
        as (e1 & lg1 & _ & Hb). cbn zeta in Hb. rewrite Hb.
      destruct (e1 ++ _ ++ _) as [| x l] eqn:He.
      * eexists _, _, _. split; [reflexivity |]. split; [done |].
        intros Hnone. by rewrite Hnone in Ht.
      * eexists _, _, _. split; [reflexivity |]. split; [done |].
        intros Hnone. by rewrite Hnone in Ht.
    + unfold validate_body. rewrite Ht. cbn [negb].
      unfold bind at 2. unfold lift at 1. rewrite Hc.
      eexists _, _, _. split; [reflexivity |]. split; [done |].
      intros Hnone. by rewrite Hnone in Ht.
  - unfold validate_body. rewrite Ht. cbn [negb].
    eexists _, _, _. split; [reflexivity |]. done.
Qed.

(** A configuration without the section, with a constructor that would
    refuse any section: the result is [(True, [])]. *)
Lemma validate_als_config_pair_witness :
  exists (is_valid : bool) (errors : list string) (lg' : Log),
    validate_als_config call_refusing ∅ [] = (Ok (is_valid, errors), lg') /\
    is_valid = true /\ errors = [].
Proof.
  destruct (validate_als_config_pair call_refusing ∅ [])
    as (is_valid & errors & lg' & Hrun & _ & Hnone).
  exists is_valid, errors, lg'. split; [exact Hrun |].
  apply Hnone. vm_compute. reflexivity.
Defined.

End AlsConfigFacts.
(* ===================================================================== *)
(** * Further properties of the telemetry sampler *)
(* ===================================================================== *)

Section BandwidthMore.
Import Bandwidth.

(** ** Interfaces that are skipped *)

Lemma startswith_app (s p : string) : startswith (p +:+ s) p = true.
Proof.
  unfold startswith. apply bool_decide_eq_true. rewrite chars_app.
  by apply prefix_app_r.
Qed.

Lemma collect_one_excluded (now : float) (self : BandwidthMonitor)
    (item : string * snetio) (i : string) :
  excluded i = true ->
  last_stats (collect_one now self item) !! i = last_stats self !! i /\
  dd_get (interface_stats (collect_one now self item)) i =
    dd_get (interface_stats self) i.
Proof.
  intros Hex. destruct (decide (item.1 = i)) as [Heq | Hne].
  - destruct item as [j stats]. cbn in Heq. subst j.
    unfold collect_one. by rewrite Hex.
  - by apply collect_one_other.
Qed.

Lemma foldl_collect_excluded (now : float) (l : list (string * snetio))
    (self : BandwidthMonitor) (i : string) :
  excluded i = true ->
  last_stats (foldl (collect_one now) self l) !! i = last_stats self !! i /\
  dd_get (interface_stats (foldl (collect_one now) self l)) i =
    dd_get (interface_stats self) i.
Proof.
  intros Hex. revert self. induction l as [| item l IH]; intros self; [done |].
  cbn [foldl]. destruct (IH (collect_one now self item)) as [H1 H2].
  destruct (collect_one_excluded now self item i Hex) as [H3 H4].
  split; congruence.
Qed.

Lemma collect_stats_excluded (self : BandwidthMonitor) (tick : Tick) (lp : Loop)
    (i : string) :
  excluded i = true ->
  last_stats (_collect_stats self tick lp).1 !! i = last_stats self !! i /\
  dd_get (interface_stats (_collect_stats self tick lp).1) i =
    dd_get (interface_stats self) i.
Proof.
  intros Hex. unfold _collect_stats. destruct (net_io tick); [| done].
  by apply foldl_collect_excluded.
Qed.

Lemma monitor_loop_excluded (ticks : list Tick) (self : BandwidthMonitor)
    (lp : Loop) (i : string) :
  excluded i = true ->
  last_stats (_monitor_loop ticks self lp).1 !! i = last_stats self !! i /\
  dd_get (interface_stats (_monitor_loop ticks self lp).1) i =
    dd_get (interface_stats self) i.
Proof.
  intros Hex. revert self lp. induction ticks as [| tick ticks IH]; intros self lp; [done |].
  cbn [_monitor_loop]. destruct (monitoring self); [| done].
  destruct (_collect_stats self tick lp) as [self' lp'] eqn:Hc.
  destruct (IH self' lp') as [H1 H2].
  destruct (collect_stats_excluded self tick lp i Hex) as [H3 H4].
  rewrite Hc in H3, H4. cbn [fst] in H3, H4. split; congruence.
Qed.

(** X1.  An interface whose name begins with [lo], [docker], [br-] or [veth]
    is never sampled: whatever the ticks report, the loop leaves its
    history and its last sample as they were, and a monitor started fresh
    keeps no history for it.  The test is on the prefix only, so a name
    such as [lowpan0] is skipped as well. *)
Theorem excluded_interfaces_never_sampled :
  (forall s : string,
      excluded ("lo" +:+ s) = true /\ excluded ("docker" +:+ s) = true /\
      excluded ("br-" +:+ s) = true /\ excluded ("veth" +:+ s) = true) /\
  (forall (ticks : list Tick) (self : BandwidthMonitor) (lp : Loop) (i : string),
      excluded i = true ->
      history (_monitor_loop ticks self lp).1 i = history self i /\
      last_stats (_monitor_loop ticks self lp).1 !! i = last_stats self !! i) /\
  (forall (ticks : list Tick) (lp0 lp1 : Loop) (i : string),
      excluded i = true ->
      history (_monitor_loop ticks (start_monitoring __init__ lp0).1 lp1).1 i = [] /\
      get_current_stats (_monitor_loop ticks (start_monitoring __init__ lp0).1 lp1).1
        !! i = None).
Proof.
  split; [| split].
  - intros s. unfold excluded. cbn [existsb].
    rewrite !startswith_app. cbn [orb].
    repeat split; repeat (destruct (startswith _ _); try reflexivity).
  - intros ticks self lp i Hex.
    destruct (monitor_loop_excluded ticks self lp i Hex) as [H1 H2].
    unfold history. by rewrite H2.
  - intros ticks lp0 lp1 i Hex.
    destruct (monitor_loop_excluded ticks (start_monitoring __init__ lp0).1 lp1 i Hex)
      as [_ H2].
    assert (Hh : items (dd_get (interface_stats
                (_monitor_loop ticks (start_monitoring __init__ lp0).1 lp1).1) i) = []).
    { rewrite H2. reflexivity. }
    split; [exact Hh |].
    unfold get_current_stats. rewrite lookup_omap.
    unfold dd_get in Hh.
    destruct (entries _ !! i) as [d |]; [| done].
    cbn in Hh |- *. by rewrite Hh.
Qed.

Lemma excluded_interfaces_never_sampled_witness :
  history
    (_monitor_loop
       [mk_tick 1 (Ok {[ "lo"%string := mk_snetio 10 10 1 1;
                         "docker0"%string := mk_snetio 5 5 1 1 ]})]
       (start_monitoring __init__ (mk_loop 0 [] [])).1 (mk_loop 1 [] [])).1
    "docker0" = [].
Proof.
  destruct excluded_interfaces_never_sampled as (_ & _ & H).
  apply H. vm_compute. reflexivity.
Defined.

(** ** One sample per reporting tick, in tick order *)

Lemma timestamp_current_stats (last : option Sample) (now : float) (stats : snetio) :
  timestamp (current_stats last now stats) = now.
Proof.
  unfold current_stats. destruct last as [last |]; [| reflexivity].
  by destruct (0 <? now - timestamp last)%float.
Qed.

Lemma collect_stats_monitoring (self : BandwidthMonitor) (tick : Tick) (lp : Loop) :
  monitoring (_collect_stats self tick lp).1 = monitoring self.
Proof.
  unfold _collect_stats. destruct (net_io tick); [| reflexivity].
  apply foldl_collect_frame.
Qed.

(** A tick that reports [i] appends one sample stamped with its time. *)
Lemma collect_stats_reported (self : BandwidthMonitor) (tick : Tick) (lp : Loop)
    (i : string) :
  reports i tick = true -> excluded i = false ->
  exists cur : Sample,
    timestamp cur = now tick /\
    dd_get (interface_stats (_collect_stats self tick lp).1) i =
      deque_append (dd_get (interface_stats self) i) cur.
Proof.
  unfold reports, _collect_stats. intros Hrep Hex.
  destruct (net_io tick) as [counters | e]; [| discriminate].
  apply bool_decide_eq_true in Hrep. destruct Hrep as [stats Hi].
  destruct (foldl_collect_hit (now tick) (map_to_list counters) self i stats)
    as [_ Hd].
  { apply NoDup_fst_map_to_list. }
  { by apply elem_of_map_to_list. }
  { exact Hex. }
  eexists. split; [| exact Hd]. apply timestamp_current_stats.
Qed.

(** A tick that fails, or does not list [i], leaves the history of [i]. *)
Lemma collect_stats_unreported (self : BandwidthMonitor) (tick : Tick) (lp : Loop)
    (i : string) :
  reports i tick = false ->
  dd_get (interface_stats (_collect_stats self tick lp).1) i =
    dd_get (interface_stats self) i.
Proof.
  unfold reports, _collect_stats. intros Hrep.
  destruct (net_io tick) as [counters | e]; [| reflexivity].
  apply bool_decide_eq_false in Hrep.
  apply foldl_collect_other. intros Hin.
  apply list_elem_of_fmap in Hin. destruct Hin as ([j stats] & -> & Hin).
  apply elem_of_map_to_list in Hin. apply Hrep. by eexists.
Qed.

Lemma monitor_loop_unbounded_timestamps (ticks : list Tick) (self : BandwidthMonitor)
    (lp : Loop) (i : string) :
  monitoring self = true -> excluded i = false ->
  maxlen (dd_get (interface_stats self) i) = None ->
  map timestamp (history (_monitor_loop ticks self lp).1 i) =
    map timestamp (history self i) ++ map now (filter (fun t => reports i t = true) ticks).
Proof.
  intros Hmon Hex. revert self lp Hmon.
  induction ticks as [| tick ticks IH]; intros self lp Hmon Hunb.
  - cbn. by rewrite app_nil_r.
  - cbn [_monitor_loop]. rewrite Hmon.
    destruct (_collect_stats self tick lp) as [self' lp'] eqn:Hc.
    assert (Hmon' : monitoring self' = true).
    { pose proof (collect_stats_monitoring self tick lp) as H.
      rewrite Hc in H. cbn [fst] in H. congruence. }
    destruct (reports i tick) eqn:Hrep.
    + destruct (collect_stats_reported self tick lp i Hrep Hex) as (cur & Hts & Hd).
      rewrite Hc in Hd. cbn [fst] in Hd.
      rewrite (IH self' lp' Hmon').
      2:{ rewrite Hd, deque_append_maxlen. exact Hunb. }
      rewrite filter_cons_True by exact Hrep.
      unfold history at 1. rewrite Hd, deque_append_unbounded by exact Hunb.
      rewrite map_app. cbn [map]. rewrite Hts, <- app_assoc. reflexivity.
    + pose proof (collect_stats_unreported self tick lp i Hrep) as Hd.
      rewrite Hc in Hd. cbn [fst] in Hd.
      rewrite (IH self' lp' Hmon').
      2:{ rewrite Hd. exact Hunb. }
      rewrite filter_cons_False by (rewrite Hrep; discriminate).
      unfold history at 1. by rewrite Hd.
Qed.

Lemma map_lastn {A B} (f : A -> B) (n : nat) (l : list A) :
  map f (lastn n l) = lastn n (map f l).
Proof.
  unfold lastn. rewrite length_map. symmetry. apply skipn_map.
Qed.

(** X2.  A monitor started fresh keeps, for an interface that is not skipped,
    one sample for each tick whose counters were read and list the
    interface, in the order of the ticks and stamped with the tick's time;
    of these it holds the last 60.  Ticks that fail or do not list the
    interface add nothing. *)
Theorem history_one_sample_per_reporting_tick :
  forall (ticks : list Tick) (lp0 lp1 : Loop) (i : string),
    excluded i = false ->
    map timestamp
        (history (_monitor_loop ticks (start_monitoring __init__ lp0).1 lp1).1 i) =
      lastn 60 (map now (filter (fun t => reports i t = true) ticks)).
Proof.
  intros ticks lp0 lp1 i Hex.
  destruct (monitor_loop_keeps_last 60 ticks
              (start_monitoring __init__ lp0).1
              (start_monitoring (new_monitor None) lp0).1 lp1 lp1
              (start_keeps_last lp0)) as (_ & _ & Hk).
  destruct (Hk i) as (_ & _ & Hitems).
  unfold history at 1. rewrite Hitems, map_lastn. f_equal.
  change (items (dd_get (interface_stats
            (_monitor_loop ticks (start_monitoring (new_monitor None) lp0).1 lp1).1) i))
    with (history (_monitor_loop ticks (start_monitoring (new_monitor None) lp0).1 lp1).1 i).
  rewrite monitor_loop_unbounded_timestamps; [reflexivity | reflexivity | exact Hex |].
  reflexivity.
Qed.

Lemma history_one_sample_per_reporting_tick_witness :
  map timestamp
      (history
         (_monitor_loop
            [mk_tick 1 (Ok {[ "eth0"%string := mk_snetio 10 10 1 1 ]});
             mk_tick 2 (Raise (OSError "no counters"));
             mk_tick 3 (Ok {[ "eth0"%string := mk_snetio 20 30 2 2 ]})]
            (start_monitoring __init__ (mk_loop 0 [] [])).1 (mk_loop 1 [] [])).1
         "eth0") =
    lastn 60 (map now (filter (fun t => reports "eth0" t = true)
       [mk_tick 1 (Ok {[ "eth0"%string := mk_snetio 10 10 1 1 ]});
        mk_tick 2 (Raise (OSError "no counters"));
        mk_tick 3 (Ok {[ "eth0"%string := mk_snetio 20 30 2 2 ]})])).
Proof.
  apply history_one_sample_per_reporting_tick. reflexivity.
Defined.

(** ** A failing collection *)

(** X3.  When reading the counters raises, [_collect_stats] swallows the
    exception: the monitor is unchanged, one line is logged, and the loop
    goes on with the next tick. *)
Theorem failed_collection_is_skipped :
  forall (tick : Tick) (ticks : list Tick) (self : BandwidthMonitor) (lp : Loop)
         (e : exn),
    net_io tick = Raise e ->
    monitoring self = true ->
    _collect_stats self tick lp =
      (self, log_line ("Error collecting network stats: " +:+ exn_str e) lp) /\
    _monitor_loop (tick :: ticks) self lp =
      _monitor_loop ticks self
        (log_line ("Error collecting network stats: " +:+ exn_str e) lp) /\
    forall i : string,
      history (_monitor_loop (tick :: ticks) self lp).1 i =
        history (_monitor_loop ticks self lp).1 i.
Proof.
  intros tick ticks self lp e Hio Hmon.
  assert (Hc : _collect_stats self tick lp =
               (self, log_line ("Error collecting network stats: " +:+ exn_str e) lp)).
  { unfold _collect_stats. by rewrite Hio. }
  assert (Hl : _monitor_loop (tick :: ticks) self lp =
               _monitor_loop ticks self
                 (log_line ("Error collecting network stats: " +:+ exn_str e) lp)).
  { cbn [_monitor_loop]. by rewrite Hmon, Hc. }
  split; [exact Hc |]. split; [exact Hl |].
  intros i. rewrite Hl.
  assert (Hindep : forall ts s l1 l2,
             (_monitor_loop ts s l1).1 = (_monitor_loop ts s l2).1).
  { induction ts as [| t0 ts IH]; intros s l1 l2; [reflexivity |].
    cbn [_monitor_loop]. destruct (monitoring s); [| reflexivity].
    unfold _collect_stats. destruct (net_io t0); apply IH. }
  by rewrite (Hindep ticks self _ lp).
Qed.

Lemma failed_collection_is_skipped_witness :
  _collect_stats (start_monitoring __init__ (mk_loop 0 [] [])).1
      (mk_tick 5 (Raise (OSError "no counters"))) (mk_loop 1 [] []) =
    ((start_monitoring __init__ (mk_loop 0 [] [])).1,
     log_line ("Error collecting network stats: " +:+ exn_str (OSError "no counters"))
       (mk_loop 1 [] [])).
Proof.
  assert (Hmon : monitoring (start_monitoring __init__ (mk_loop 0 [] [])).1 = true)
    by reflexivity.
  exact (proj1 (failed_collection_is_skipped
                  (mk_tick 5 (Raise (OSError "no counters"))) []
                  (start_monitoring __init__ (mk_loop 0 [] [])).1 (mk_loop 1 [] [])
                  (OSError "no counters") eq_refl Hmon)).
Defined.

(** ** Stopping and restarting *)

(** X4.  Stopping a running monitor cancels its task and keeps every history
    and every last sample; stopping again does nothing.  Starting it again
    creates a new task over the same data, so the first sample after the
    restart is computed against the last sample taken before the stop. *)
Theorem restart_keeps_history :
  forall (self : BandwidthMonitor) (lp : Loop),
    monitoring self = true ->
    let stopped := stop_monitoring self lp in
    let restarted := start_monitoring stopped.1 stopped.2 in
    (monitoring stopped.1 = false /\
     interface_stats stopped.1 = interface_stats self /\
     last_stats stopped.1 = last_stats self /\
     (forall t : nat, monitor_task self = Some t ->
                      cancelled stopped.2 = cancelled lp ++ [t]) /\
     stop_monitoring stopped.1 stopped.2 = stopped) /\
    (monitoring restarted.1 = true /\
     interface_stats restarted.1 = interface_stats self /\
     last_stats restarted.1 = last_stats self /\
     monitor_task restarted.1 = Some (created lp) /\
     created restarted.2 = S (created lp)) /\
    (forall (tick : Tick) (lp' : Loop) (counters : gmap string snetio)
            (i : string) (stats : snetio),
        net_io tick = Ok counters ->
        counters !! i = Some stats ->
        excluded i = false ->
        last_stats (_collect_stats restarted.1 tick lp').1 !! i =
          Some (current_stats (last_stats self !! i) (now tick) stats)).
Proof.
  intros self lp Hmon stopped restarted.
  assert (Hs : stopped =
               (mk_monitor (interface_stats self) (last_stats self) false
                           (monitor_task self),
                log_line "Stopped bandwidth monitoring"
                  match monitor_task self with
                  | Some t => cancel_task t lp
                  | None => lp
                  end)).
  { subst stopped. unfold stop_monitoring. by rewrite Hmon. }
  assert (Hr : restarted =
               (mk_monitor (interface_stats self) (last_stats self) true
                           (Some (created stopped.2)),
                log_line "Started bandwidth monitoring"
                  (mk_loop (S (created stopped.2)) (cancelled stopped.2)
                           (log stopped.2)))).
  { subst restarted. rewrite Hs. reflexivity. }
  assert (Hcr : created stopped.2 = created lp).
  { rewrite Hs. cbn. by destruct (monitor_task self). }
  split; [| split].
  - rewrite Hs. cbn [fst snd monitoring interface_stats last_stats].
    repeat split.
    intros t Ht. rewrite Ht. reflexivity.
  - rewrite Hr. cbn [fst snd monitoring interface_stats last_stats monitor_task].
    rewrite Hcr. repeat split.
  - intros tick lp' counters i stats Hio Hi Hex.
    unfold _collect_stats. rewrite Hio. cbn [fst].
    destruct (foldl_collect_hit (now tick) (map_to_list counters) restarted.1 i stats)
      as [Hl _].
    { apply NoDup_fst_map_to_list. }
    { by apply elem_of_map_to_list. }
    { exact Hex. }
    rewrite Hl. rewrite Hr. reflexivity.
Qed.

Lemma restart_keeps_history_witness :
  let self :=
    mk_monitor
      (mk_defaultdict (Some 60%nat)
         {[ "eth0"%string :=
              mk_deque (Some 60%nat)
                [mk_sample 10 1000 2000 7 9 (Int 0) (Int 0) (Int 0) (Int 0)] ]})
      {[ "eth0"%string := mk_sample 10 1000 2000 7 9 (Int 0) (Int 0) (Int 0) (Int 0) ]}
      true (Some 0%nat) in
  let stopped := stop_monitoring self (mk_loop 1 [] []) in
  monitoring stopped.1 = false /\
  interface_stats stopped.1 = interface_stats self /\
  last_stats stopped.1 = last_stats self.
Proof.
  intros self stopped.
  destruct (restart_keeps_history self (mk_loop 1 [] []) eq_refl)
    as ((H1 & H2 & H3 & _) & _).
  split; [exact H1 |]. split; [exact H2 | exact H3].
Defined.

(** ** The statistics handed out *)

(** X5.  [get_current_stats] lists exactly the interfaces with a non-empty
    history.  For such an interface the entry carries the rates, totals and
    time of the newest sample, and at most 30 samples: the newest 30 of the
    history, in order, ending with the newest one. *)
Theorem current_stats_are_the_newest :
  forall (self : BandwidthMonitor) (i : string),
    (history self i = [] -> get_current_stats self !! i = None) /\
    (forall (older : list Sample) (latest : Sample),
        history self i = older ++ [latest] ->
        exists r : InterfaceStats,
          get_current_stats self !! i = Some r /\
          current r =
            mk_current (send_rate latest) (recv_rate latest)
              (send_packets_rate latest) (recv_packets_rate latest)
              (s_bytes_sent latest) (s_bytes_recv latest) (timestamp latest) /\
          recent r = lastn 30 (history self i) /\
          (length (recent r) <= 30)%nat /\
          last (recent r) = Some latest).
Proof.
  intros self i. unfold history, get_current_stats, dd_get.
  rewrite lookup_omap. split.
  - intros Hh. destruct (entries (interface_stats self) !! i) as [d |]; [| done].
    cbn in Hh |- *. by rewrite Hh.
  - intros older latest Hh.
    destruct (entries (interface_stats self) !! i) as [d |].
    + cbn in Hh |- *. rewrite Hh, last_snoc. eexists. split; [reflexivity |].
      cbn [current recent]. split; [reflexivity |]. split; [reflexivity |].
      split.
      * rewrite lastn_length. lia.
      * unfold lastn. rewrite length_app. cbn [length].
        rewrite drop_app_le by lia. apply last_snoc.
    + cbn in Hh. by destruct older.
Qed.

Lemma current_stats_are_the_newest_witness :
  let s1 := mk_sample 10 1000 2000 7 9 (Int 0) (Int 0) (Int 0) (Int 0) in
  let s2 := mk_sample 11 1500 2600 8 11 (Float 500) (Float 600) (Float 1) (Float 2) in
  let self :=
    mk_monitor
      (mk_defaultdict (Some 60%nat)
         {[ "eth0"%string := mk_deque (Some 60%nat) [s1; s2] ]})
      {[ "eth0"%string := s2 ]} true (Some 0%nat) in
  exists r : InterfaceStats,
    get_current_stats self !! "eth0"%string = Some r /\
    current r = mk_current (Float 500) (Float 600) (Float 1) (Float 2) 1500 2600 11 /\
    last (recent r) = Some s2.
Proof.
  intros s1 s2 self.
  destruct (current_stats_are_the_newest self "eth0") as [_ H].
  destruct (H [s1] s2) as (r & Hr & Hc & _ & _ & Hl).
  - vm_compute. reflexivity.
  - exists r. split; [exact Hr |]. split; [exact Hc | exact Hl].
Defined.

End BandwidthMore.
(* ===================================================================== *)
(** * Further properties of the iperf3 session manager *)
(* ===================================================================== *)

Section NetworkToolsMore.
Import NetworkTools.

(** [start_server], case by case. *)
Lemma start_server_cases (duration : Z) (self : IPerf3Server) (os : OS) :
  start_server duration (self, os) =
    match probe_ports 100 (port_range self) os with
    | (Ok port, os1) =>
        let cmd := ["iperf3"; "-s"; "-p"; str_int port; "-1"; "--json"]%string in
        match exec os1 cmd with
        | None =>
            (Ok (mk_started port "started" duration
                   ("iperf3 -c <server_ip> -p " +:+ str_int port)
                   ("iperf3 -c <server_ipv6> -p " +:+ str_int port)),
             (mk_server (<[port := mk_process (next_pid os1) cmd]> (processes self))
                        (port_range self),
              os_emit (LogInfo ("Started iperf3 server on port " +:+ str_int port))
                (os_emit (Spawn cmd (next_pid os1)) (os_fork os1))))
        | Some e =>
            (Raise (HTTPException 500 ("Failed to start iperf3 server: " +:+ exn_str e)),
             (self, os_emit (LogError ("Failed to start iperf3 server: " +:+ exn_str e)) os1))
        end
    | (Raise e, os1) =>
        (Raise (HTTPException 500 ("Failed to start iperf3 server: " +:+ exn_str e)),
         (self, os_emit (LogError ("Failed to start iperf3 server: " +:+ exn_str e)) os1))
    end.
Proof.
  unfold start_server, try_except, bind, get_available_port. cbn [fst snd].
  destruct (probe_ports 100 (port_range self) os) as [[port | e] os1].
  - unfold create_subprocess_exec. cbn [fst snd].
    destruct (exec os1 _); reflexivity.
  - reflexivity.
Qed.

(** X6.  When a port binds and [iperf3] starts, [start_server] registers the
    new process under that port, with the command line
    [iperf3 -s -p <port> -1 --json], leaves every other session as it was,
    and returns the port, the status ["started"], the duration it was given
    and the two client commands for that port. *)
Theorem start_server_registers_session :
  forall (duration : Z) (self : IPerf3Server) (os os1 : OS) (port : Z),
    probe_ports 100 (port_range self) os = (Ok port, os1) ->
    exec os1 ["iperf3"; "-s"; "-p"; str_int port; "-1"; "--json"]%string = None ->
    exists (self' : IPerf3Server) (os' : OS),
      start_server duration (self, os) =
        (Ok (mk_started port "started" duration
               ("iperf3 -c <server_ip> -p " +:+ str_int port)
               ("iperf3 -c <server_ipv6> -p " +:+ str_int port)),
         (self', os')) /\
      processes self' !! port =
        Some (mk_process (next_pid os1)
                ["iperf3"; "-s"; "-p"; str_int port; "-1"; "--json"]%string) /\
      (forall q : Z, q <> port -> processes self' !! q = processes self !! q) /\
      port_range self' = port_range self /\
      next_pid os' = S (next_pid os1) /\
      trace os' =
        trace os1 ++
        [Spawn ["iperf3"; "-s"; "-p"; str_int port; "-1"; "--json"]%string (next_pid os1);
         LogInfo ("Started iperf3 server on port " +:+ str_int port)].
Proof.
  intros duration self os os1 port Hprobe Hexec.
  eexists _, _. split.
  - rewrite start_server_cases, Hprobe. cbn zeta. rewrite Hexec. reflexivity.
  - cbn [processes port_range next_pid trace os_emit os_fork].
    split; [apply lookup_insert_eq |].
    split; [intros q Hq; by apply lookup_insert_ne |].
    split; [reflexivity |]. split; [reflexivity |].
    by rewrite <- app_assoc.
Qed.

Lemma start_server_registers_session_witness :
  exists (self' : IPerf3Server) (os' : OS),
    start_server 300 (__init__, os_stubborn) =
      (Ok (mk_started 30000 "started" 300
             ("iperf3 -c <server_ip> -p " +:+ str_int 30000)
             ("iperf3 -c <server_ipv6> -p " +:+ str_int 30000)),
       (self', os')) /\
    processes self' !! 30000 =
      Some (mk_process 100 ["iperf3"; "-s"; "-p"; str_int 30000; "-1"; "--json"]%string).
Proof.
  destruct (start_server_registers_session 300 __init__ os_stubborn
              (os_emit (Bind 30000 true) (os_draw os_stubborn)) 30000)
    as (self' & os' & Hrun & Hreg & _).
  - vm_compute. reflexivity.
  - reflexivity.
  - exists self', os'. split; [exact Hrun | exact Hreg].
Defined.

(** X7.  The [duration] given to [start_server] is echoed in the result and
    nothing else: the session manager, the probes, the process started and
    the log are the same for any two durations, and so is the outcome up to
    the echoed value.  No timer is set. *)
Theorem duration_is_only_echoed :
  forall (d1 d2 : Z) (s : St),
    (start_server d1 s).2 = (start_server d2 s).2 /\
    match (start_server d1 s).1, (start_server d2 s).1 with
    | Ok i1, Ok i2 =>
        duration i1 = d1 /\ duration i2 = d2 /\
        port i1 = port i2 /\ status i1 = status i2 /\
        command_ipv4 i1 = command_ipv4 i2 /\ command_ipv6 i1 = command_ipv6 i2
    | Raise e1, Raise e2 => e1 = e2
    | _, _ => False
    end.
Proof.
  intros d1 d2 [self os]. rewrite !start_server_cases.
  destruct (probe_ports 100 (port_range self) os) as [[p | e] os1].
  - cbn zeta. destruct (exec os1 _); cbn [fst snd]; [done |].
    cbn [duration port status command_ipv4 command_ipv6]. done.
  - cbn [fst snd]. done.
Qed.

(** X8.  A server is started on a port that held no session, and that
    port is stopped.  If the new process has not exited by then, the stop
    reports success and the session map is again what it was before the
    start.  If it has exited (it served its one client), the stop raises
    [ProcessLookupError] and the session stays registered: the map is not
    restored. *)
Theorem start_then_stop_restores_sessions :
  forall (duration : Z) (self : IPerf3Server) (os : OS) (info : Started) (s1 : St),
    start_server duration (self, os) = (Ok info, s1) ->
    processes self !! port info = None ->
    (has_exited os (next_pid os) = false ->
     (stop_server (port info) s1).1 = Ok true /\
     processes (stop_server (port info) s1).2.1 = processes self /\
     port_range (stop_server (port info) s1).2.1 = port_range self) /\
    (has_exited os (next_pid os) = true ->
     stop_server (port info) s1 = (Raise ProcessLookupError, s1) /\
     is_Some (processes s1.1 !! port info) /\
     processes s1.1 <> processes self).
Proof.
  intros duration self os info s1 Hstart Hfree.
  destruct (start_server_child _ _ _ _ Hstart) as [[cmd Hreg] Hsame].
  cbn [fst snd] in Hreg, Hsame.
  assert (Hdel : delete (port info) (processes s1.1) = processes self /\
                 port_range s1.1 = port_range self).
  { revert Hstart Hfree. rewrite start_server_cases.
    destruct (probe_ports 100 (port_range self) os) as [[p | e] os1]; [| discriminate].
    cbn zeta. destruct (exec os1 _); [discriminate |].
    intros H Hfree. inversion H as [[Hinfo Hs1]]. clear H. subst info.
    cbn [port fst processes port_range] in *.
    split; [by apply delete_insert_id | reflexivity]. }
  destruct Hdel as [Hdel Hrange]. destruct s1 as [self1 os1].
  cbn [fst snd] in *. split; intros Hx.
  - rewrite (stop_server_registered self1 os1 _ _ Hreg)
      by (cbn [pid]; by rewrite Hsame).
    cbn [fst snd processes port_range]. done.
  - rewrite (stop_server_exited self1 os1 _ _ Hreg)
      by (cbn [pid]; by rewrite Hsame).
    split; [reflexivity |]. split; [by eexists |].
    intros Heq. rewrite Heq, Hfree in Hreg. discriminate.
Qed.

Lemma start_then_stop_restores_sessions_witness :
  let r := start_server 300 (__init__, os_stubborn) in
  let q := start_server 300 (__init__, os_finished) in
  ((stop_server 30000 r.2).1 = Ok true /\
   processes (stop_server 30000 r.2).2.1 = processes __init__) /\
  (stop_server 30000 q.2 = (Raise ProcessLookupError, q.2) /\
   is_Some (processes q.2.1 !! 30000)).
Proof.
  intros r q. split.
  - destruct (start_then_stop_restores_sessions 300 __init__ os_stubborn
                (mk_started 30000 "started" 300
                   ("iperf3 -c <server_ip> -p " +:+ str_int 30000)
                   ("iperf3 -c <server_ipv6> -p " +:+ str_int 30000)) r.2)
      as (Hlive & _).
    + vm_compute. reflexivity.
    + reflexivity.
    + destruct Hlive as (H1 & H2 & _); [reflexivity |].
      split; [exact H1 | exact H2].
  - destruct (start_then_stop_restores_sessions 300 __init__ os_finished
                (mk_started 30000 "started" 300
                   ("iperf3 -c <server_ip> -p " +:+ str_int 30000)
                   ("iperf3 -c <server_ipv6> -p " +:+ str_int 30000)) q.2)
      as (_ & Hgone).
    + vm_compute. reflexivity.
    + reflexivity.
    + destruct Hgone as (H1 & H2 & _); [reflexivity |].
      split; [exact H1 | exact H2].
Defined.

(** ** The parameters of the iperf3 endpoint *)

(** X9.  [handle_iperf3_server] and its query parameters.  An action other than
    ["start"] and ["stop"], a stop without a port (absent or empty) and a
    stop with a port that is no integer are answered with status 400, and
    nothing is touched.  A stop for a port without a session is no error:
    the content says ["not_found"].  A start with a duration that is no
    integer is not answered with a 400: the [ValueError] of [int] leaves
    the handler, before any port is probed. *)
Theorem iperf3_endpoint_parameters :
  forall (params : gmap string string) (s : St),
    (forall action : string,
        params !! "action"%string = Some action ->
        action <> "start"%string -> action <> "stop"%string ->
        handle_iperf3_server params s =
          (Raise (HTTPException 400 "Invalid action. Use 'start' or 'stop'"), s)) /\
    (params !! "action"%string = Some "stop"%string ->
     (params !! "port"%string = None \/ params !! "port"%string = Some ""%string) ->
     handle_iperf3_server params s =
       (Raise (HTTPException 400 "Port parameter required for stop action"), s)) /\
    (forall (port : string) (e : exn),
        params !! "action"%string = Some "stop"%string ->
        params !! "port"%string = Some port -> port <> ""%string ->
        int_of_str port = Raise e ->
        handle_iperf3_server params s =
          (Raise (HTTPException 400 "Invalid port number"), s)) /\
    (forall (port : string) (port_int : Z),
        params !! "action"%string = Some "stop"%string ->
        params !! "port"%string = Some port -> port <> ""%string ->
        int_of_str port = Ok port_int ->
        processes s.1 !! port_int = None ->
        handle_iperf3_server params s = (Ok (ContentStopped "not_found" port_int), s)) /\
    (forall (duration : string) (e : exn),
        (params !! "action"%string = None \/
         params !! "action"%string = Some "start"%string) ->
        params !! "duration"%string = Some duration ->
        int_of_str duration = Raise e ->
        handle_iperf3_server params s = (Raise e, s) /\
        exists msg : string, e = ValueError msg).
Proof.
  intros params s. split; [| split; [| split; [| split]]].
  - intros action Ha Hstart Hstop. unfold handle_iperf3_server. rewrite Ha.
    cbv [default from_option id].
    destruct (String.eqb_spec action "start"); [done |].
    destruct (String.eqb_spec action "stop"); [done |]. reflexivity.
  - intros Ha Hport. unfold handle_iperf3_server. rewrite Ha. cbv [default from_option id].
    change (String.eqb "stop" "start") with false.
    change (String.eqb "stop" "stop") with true. cbv iota.
    destruct Hport as [-> | ->]; reflexivity.
  - intros port e Ha Hp Hne He. unfold handle_iperf3_server.
    rewrite Ha, Hp. cbv [default from_option id].
    change (String.eqb "stop" "start") with false.
    change (String.eqb "stop" "stop") with true. cbv iota.
    destruct (String.eqb_spec port ""); [done |].
    rewrite He. destruct (int_of_str_raises port e He) as [msg ->]. reflexivity.
  - intros port port_int Ha Hp Hne Hint Hnone. unfold handle_iperf3_server.
    rewrite Ha, Hp. cbv [default from_option id].
    change (String.eqb "stop" "start") with false.
    change (String.eqb "stop" "stop") with true. cbv iota.
    destruct (String.eqb_spec port ""); [done |].
    rewrite Hint. unfold bind. destruct s as [self os].
    rewrite stop_server_unregistered by exact Hnone. reflexivity.
  - intros dur e Ha Hd He. split; [| by apply (int_of_str_raises dur)].
    destruct Ha as [Ha | Ha]; unfold handle_iperf3_server; rewrite Ha, Hd;
      cbv [default from_option id]; change (String.eqb "start" "start") with true;
      cbv iota; by rewrite He.
Qed.

Lemma iperf3_endpoint_parameters_witness :
  handle_iperf3_server {[ "action"%string := "restart"%string ]} (__init__, os_stubborn) =
    (Raise (HTTPException 400 "Invalid action. Use 'start' or 'stop'"),
     (__init__, os_stubborn)) /\
  handle_iperf3_server {[ "action"%string := "stop"%string ]} (__init__, os_stubborn) =
    (Raise (HTTPException 400 "Port parameter required for stop action"),
     (__init__, os_stubborn)) /\
  handle_iperf3_server
      {[ "action"%string := "stop"%string; "port"%string := "http"%string ]}
      (__init__, os_stubborn) =
    (Raise (HTTPException 400 "Invalid port number"), (__init__, os_stubborn)) /\
  handle_iperf3_server
      {[ "action"%string := "stop"%string; "port"%string := "30000"%string ]}
      (__init__, os_stubborn) =
    (Ok (ContentStopped "not_found" 30000), (__init__, os_stubborn)) /\
  handle_iperf3_server {[ "duration"%string := "5m"%string ]} (__init__, os_stubborn) =
    (Raise (invalid_literal "5m"), (__init__, os_stubborn)).
Proof.
  split; [| split; [| split; [| split]]].
  - destruct (iperf3_endpoint_parameters
                {[ "action"%string := "restart"%string ]} (__init__, os_stubborn))
      as (H & _).
    apply (H "restart"%string); [vm_compute; reflexivity | discriminate | discriminate].
  - destruct (iperf3_endpoint_parameters
                {[ "action"%string := "stop"%string ]} (__init__, os_stubborn))
      as (_ & H & _).
    apply H; [vm_compute; reflexivity | left; vm_compute; reflexivity].
  - destruct (iperf3_endpoint_parameters
                {[ "action"%string := "stop"%string; "port"%string := "http"%string ]}
                (__init__, os_stubborn))
      as (_ & _ & H & _).
    apply (H "http"%string (invalid_literal "http"));
      [vm_compute; reflexivity | vm_compute; reflexivity | discriminate
      | vm_compute; reflexivity].
  - destruct (iperf3_endpoint_parameters
                {[ "action"%string := "stop"%string; "port"%string := "30000"%string ]}
                (__init__, os_stubborn))
      as (_ & _ & _ & H & _).
    apply (H "30000"%string 30000);
      [vm_compute; reflexivity | vm_compute; reflexivity | discriminate
      | vm_compute; reflexivity | vm_compute; reflexivity].
  - destruct (iperf3_endpoint_parameters
                {[ "duration"%string := "5m"%string ]} (__init__, os_stubborn))
      as (_ & _ & _ & _ & H).
    apply (H "5m"%string (invalid_literal "5m"));
      [left; vm_compute; reflexivity | vm_compute; reflexivity | vm_compute; reflexivity].
Defined.

End NetworkToolsMore.
(* ===================================================================== *)
(** * Properties of the ping and traceroute endpoints *)
(* ===================================================================== *)

Section ToolsFacts.
Import Tools.

(** ** The check of the target *)

Lemma In_removed (l : list ascii) (c : ascii) :
  In c (List.filter (fun x => negb (Ascii.eqb x "-"))
          (List.filter (fun x => negb (Ascii.eqb x ":"))
             (List.filter (fun x => negb (Ascii.eqb x ".")) l))) <->
  In c l /\ c <> "."%char /\ c <> ":"%char /\ c <> "-"%char.
Proof.
  rewrite !filter_In, !negb_true_iff.
  assert (Hneq : forall a b : ascii, Ascii.eqb a b = false <-> a <> b).
  { intros a b. destruct (Ascii.eqb_spec a b); split; congruence. }
  rewrite !Hneq. tauto.
Qed.

Lemma target_check_plain (target : string) :
  target_check target = true <-> plain_target target.
Proof.
  unfold target_check, plain_target, remove_char, isalnum.
  rewrite !chars_of_chars.
  set (l := chars target).
  set (l3 := List.filter _ (List.filter _ (List.filter _ l))).
  assert (Hin : forall c, In c l3 <->
                          In c l /\ c <> "."%char /\ c <> ":"%char /\ c <> "-"%char)
    by (intros c; apply In_removed).
  rewrite List.Forall_forall, List.Exists_exists. split.
  - intros H. assert (Hall : forallb is_alnum_char l3 = true /\ l3 <> []).
    { destruct l3; [discriminate | split; [exact H | discriminate]]. }
    destruct Hall as [Hall Hne]. rewrite forallb_forall in Hall. split.
    + intros c Hc.
      destruct (ascii_dec c "."); [tauto |].
      destruct (ascii_dec c ":"); [tauto |].
      destruct (ascii_dec c "-"); [tauto |].
      left. apply Hall, Hin. tauto.
    + destruct l3 as [| c l3'] eqn:Hl3; [done |].
      exists c. assert (Hc : In c (c :: l3')) by (left; reflexivity).
      split; [apply Hin in Hc; tauto | by apply Hall].
  - intros [Hall (c & Hc & Halnum)].
    assert (Hc3 : In c l3).
    { apply Hin. split; [exact Hc |].
      repeat split; intros ->; discriminate Halnum. }
    assert (Hforall : forallb is_alnum_char l3 = true).
    { apply forallb_forall. intros x Hx. apply Hin in Hx.
      destruct (Hall x) as [H | [H | [H | H]]]; tauto. }
    destruct l3; [done | exact Hforall].
Qed.

Lemma plain_target_nonempty (target : string) :
  plain_target target -> String.eqb target "" = false.
Proof.
  intros [_ Hex]. destruct target; [| reflexivity].
  cbn in Hex. by apply Exists_nil in Hex.
Qed.

Lemma plain_target_dash (s : string) :
  isalnum s = true -> plain_target ("-" +:+ s).
Proof.
  unfold isalnum, plain_target. rewrite chars_app.
  change (chars "-") with ["-"%char]. cbn [app].
  destruct (chars s) as [| c l] eqn:Hs; [discriminate |].
  intros Hall. rewrite forallb_forall in Hall. split.
  - apply List.Forall_forall. intros x [<- | Hx]; [tauto |]. left. by apply Hall.
  - apply List.Exists_exists. exists c. split; [right; left; reflexivity |].
    apply Hall. left. reflexivity.
Qed.

(** ** The ping endpoint *)

(** X10.  [handle_network_ping] runs at most one command, and only after its checks: the
    command line is [ping] or [ping6], [-c], the decimal count,
    which lies between 1 and 20, and the target as given, which
    consists of letters, digits, [.], [:] and [-] with at least one letter
    or digit.  Conversely such a request does run that command.  The check
    of the target looks at no position: a target that begins with [-] passes
    whenever the rest is alphanumeric. *)
Theorem ping_runs_one_checked_command :
  forall (params : gmap string string) (h : Host),
    let ipv6 := String.eqb (lower (default "false"%string (params !! "ipv6"%string)))
                           "true" in
    let program := if ipv6 then "ping6"%string else "ping"%string in
    (commands (handle_network_ping params h).2 = commands h \/
     exists (target : string) (n : Z),
       params !! "target"%string = Some target /\
       int_of_str (default "4"%string (params !! "count"%string)) = Ok n /\
       1 <= n <= 20 /\ plain_target target /\
       commands (handle_network_ping params h).2 =
         commands h ++ [[program; "-c"%string; str_int n; target]]) /\
    (forall (target : string) (n : Z),
        params !! "target"%string = Some target ->
        int_of_str (default "4"%string (params !! "count"%string)) = Ok n ->
        1 <= n <= 20 -> plain_target target ->
        commands (handle_network_ping params h).2 =
          commands h ++ [[program; "-c"%string; str_int n; target]]) /\
    (forall s : string, isalnum s = true -> plain_target ("-" +:+ s)).
Proof.
  intros params h ipv6 program.
  assert (Hrun : forall (target : string) (n : Z),
             params !! "target"%string = Some target ->
             int_of_str (default "4"%string (params !! "count"%string)) = Ok n ->
             1 <= n <= 20 -> plain_target target ->
             commands (handle_network_ping params h).2 =
               commands h ++ [[program; "-c"%string; str_int n; target]]).
  { intros target n Ht Hn Hrange Hplain.
    unfold handle_network_ping. unfold bind at 1. unfold lift at 1. rewrite Hn, Ht.
    rewrite (plain_target_nonempty target Hplain).
    replace ((n <? 1) || (n >? 20)) with false
      by (symmetry; apply orb_false_iff; lia).
    apply target_check_plain in Hplain. rewrite Hplain. cbn [negb].
    fold ipv6. fold program.
    unfold bind at 1. unfold log_line at 1.
    unfold bind at 1. unfold execute at 1. cbn [run commands time_ms log].
    destruct (run h _); reflexivity. }
  split; [| split; [exact Hrun | exact plain_target_dash]].
  destruct (int_of_str (default "4"%string (params !! "count"%string)))
    as [n | e] eqn:Hn.
  2:{ left. unfold handle_network_ping. unfold bind at 1. unfold lift at 1. by rewrite Hn. }
  destruct (params !! "target"%string) as [target |] eqn:Ht.
  2:{ left. unfold handle_network_ping. unfold bind at 1. unfold lift at 1. by rewrite Hn, Ht. }
  destruct (String.eqb target "") eqn:Hempty.
  { left. unfold handle_network_ping. unfold bind at 1. unfold lift at 1.
    by rewrite Hn, Ht, Hempty. }
  destruct ((n <? 1) || (n >? 20)) eqn:Hrange.
  { left. unfold handle_network_ping. unfold bind at 1. unfold lift at 1.
    by rewrite Hn, Ht, Hempty, Hrange. }
  destruct (target_check target) eqn:Hcheck.
  2:{ left. unfold handle_network_ping. unfold bind at 1. unfold lift at 1.
      by rewrite Hn, Ht, Hempty, Hrange, Hcheck. }
  right. exists target, n. apply orb_false_iff in Hrange.
  apply target_check_plain in Hcheck.
  split; [reflexivity |]. split; [reflexivity |]. split; [lia |].
  split; [exact Hcheck |]. apply Hrun; [reflexivity | reflexivity | lia | exact Hcheck].
Qed.

Lemma ping_runs_one_checked_command_witness :
  commands (handle_network_ping {[ "target"%string := "-f"%string ]} host_ok).2 =
    [["ping"; "-c"; str_int 4; "-f"]%string].
Proof.
  destruct (ping_runs_one_checked_command {[ "target"%string := "-f"%string ]} host_ok)
    as (_ & Hrun & Hdash).
  apply (Hrun "-f"%string 4).
  - vm_compute. reflexivity.
  - vm_compute. reflexivity.
  - lia.
  - apply (Hdash "f"%string). reflexivity.
Defined.

(** ** The traceroute endpoint *)

(** X11.  [handle_traceroute] runs at most one command, and only after its checks: the
    command line is [traceroute] or [traceroute6], [-m], the decimal max_hops,
    which lies between 1 and 64, and the target as given, which
    consists of letters, digits, [.], [:] and [-] with at least one letter
    or digit.  Conversely such a request does run that command.  The check
    of the target looks at no position: a target that begins with [-] passes
    whenever the rest is alphanumeric. *)
Theorem traceroute_runs_one_checked_command :
  forall (params : gmap string string) (h : Host),
    let ipv6 := String.eqb (lower (default "false"%string (params !! "ipv6"%string)))
                           "true" in
    let program := if ipv6 then "traceroute6"%string else "traceroute"%string in
    (commands (handle_traceroute params h).2 = commands h \/
     exists (target : string) (n : Z),
       params !! "target"%string = Some target /\
       int_of_str (default "30"%string (params !! "max_hops"%string)) = Ok n /\
       1 <= n <= 64 /\ plain_target target /\
       commands (handle_traceroute params h).2 =
         commands h ++ [[program; "-m"%string; str_int n; target]]) /\
    (forall (target : string) (n : Z),
        params !! "target"%string = Some target ->
        int_of_str (default "30"%string (params !! "max_hops"%string)) = Ok n ->
        1 <= n <= 64 -> plain_target target ->
        commands (handle_traceroute params h).2 =
          commands h ++ [[program; "-m"%string; str_int n; target]]) /\
    (forall s : string, isalnum s = true -> plain_target ("-" +:+ s)).
Proof.
  intros params h ipv6 program.
  assert (Hrun : forall (target : string) (n : Z),
             params !! "target"%string = Some target ->
             int_of_str (default "30"%string (params !! "max_hops"%string)) = Ok n ->
             1 <= n <= 64 -> plain_target target ->
             commands (handle_traceroute params h).2 =
               commands h ++ [[program; "-m"%string; str_int n; target]]).
  { intros target n Ht Hn Hrange Hplain.
    unfold handle_traceroute. unfold bind at 1. unfold lift at 1. rewrite Hn, Ht.
    rewrite (plain_target_nonempty target Hplain).
    replace ((n <? 1) || (n >? 64)) with false
      by (symmetry; apply orb_false_iff; lia).
    apply target_check_plain in Hplain. rewrite Hplain. cbn [negb].
    fold ipv6. fold program.
    unfold bind at 1. unfold log_line at 1.
    unfold bind at 1. unfold execute at 1. cbn [run commands time_ms log].
    destruct (run h _); reflexivity. }
  split; [| split; [exact Hrun | exact plain_target_dash]].
  destruct (int_of_str (default "30"%string (params !! "max_hops"%string)))
    as [n | e] eqn:Hn.
  2:{ left. unfold handle_traceroute. unfold bind at 1. unfold lift at 1. by rewrite Hn. }
  destruct (params !! "target"%string) as [target |] eqn:Ht.
  2:{ left. unfold handle_traceroute. unfold bind at 1. unfold lift at 1. by rewrite Hn, Ht. }
  destruct (String.eqb target "") eqn:Hempty.
  { left. unfold handle_traceroute. unfold bind at 1. unfold lift at 1.
    by rewrite Hn, Ht, Hempty. }
  destruct ((n <? 1) || (n >? 64)) eqn:Hrange.
  { left. unfold handle_traceroute. unfold bind at 1. unfold lift at 1.
    by rewrite Hn, Ht, Hempty, Hrange. }
  destruct (target_check target) eqn:Hcheck.
  2:{ left. unfold handle_traceroute. unfold bind at 1. unfold lift at 1.
      by rewrite Hn, Ht, Hempty, Hrange, Hcheck. }
  right. exists target, n. apply orb_false_iff in Hrange.
  apply target_check_plain in Hcheck.
  split; [reflexivity |]. split; [reflexivity |]. split; [lia |].
  split; [exact Hcheck |]. apply Hrun; [reflexivity | reflexivity | lia | exact Hcheck].
Qed.

Lemma traceroute_runs_one_checked_command_witness :
  commands (handle_traceroute {[ "target"%string := "-f"%string ]} host_ok).2 =
    [["traceroute"; "-m"; str_int 30; "-f"]%string].
Proof.
  destruct (traceroute_runs_one_checked_command {[ "target"%string := "-f"%string ]} host_ok)
    as (_ & Hrun & Hdash).
  apply (Hrun "-f"%string 30).
  - vm_compute. reflexivity.
  - vm_compute. reflexivity.
  - lia.
  - apply (Hdash "f"%string). reflexivity.
Defined.

(** ** Requests that are refused *)

(** X12.  Both endpoints refuse a request without running anything and without
    logging: the state is left as it was.  The number is read first, so
    a [count] or [max_hops] that is no integer leaves the handler as the
    [ValueError] of [int], whatever the target, and is not turned into a
    400.  After that a missing or empty target, a number out of range
    (1 to 20 for ping, 1 to 64 for traceroute) and a target that is not
    plain are each answered with status 400, in this order. *)
Theorem tool_requests_refused :
  (forall (params : gmap string string) (h : Host),
      (forall e : exn,
          int_of_str (default "4"%string (params !! "count"%string)) = Raise e ->
          handle_network_ping params h = (Raise e, h) /\ exists msg : string, e = ValueError msg) /\
      (forall n : Z,
          int_of_str (default "4"%string (params !! "count"%string)) = Ok n ->
          (params !! "target"%string = None \/ params !! "target"%string = Some ""%string) ->
          handle_network_ping params h =
            (Raise (HTTPException 400 "Target parameter required"), h)) /\
      (forall (n : Z) (target : string),
          int_of_str (default "4"%string (params !! "count"%string)) = Ok n ->
          params !! "target"%string = Some target -> target <> ""%string ->
          (n < 1 \/ 20 < n) ->
          handle_network_ping params h =
            (Raise (HTTPException 400 "Count must be between 1 and 20"), h)) /\
      (forall (n : Z) (target : string),
          int_of_str (default "4"%string (params !! "count"%string)) = Ok n ->
          params !! "target"%string = Some target -> target <> ""%string ->
          1 <= n <= 20 -> ~ plain_target target ->
          handle_network_ping params h =
            (Raise (HTTPException 400 "Invalid target format"), h))) /\
  (forall (params : gmap string string) (h : Host),
      (forall e : exn,
          int_of_str (default "30"%string (params !! "max_hops"%string)) = Raise e ->
          handle_traceroute params h = (Raise e, h) /\ exists msg : string, e = ValueError msg) /\
      (forall n : Z,
          int_of_str (default "30"%string (params !! "max_hops"%string)) = Ok n ->
          (params !! "target"%string = None \/ params !! "target"%string = Some ""%string) ->
          handle_traceroute params h =
            (Raise (HTTPException 400 "Target parameter required"), h)) /\
      (forall (n : Z) (target : string),
          int_of_str (default "30"%string (params !! "max_hops"%string)) = Ok n ->
          params !! "target"%string = Some target -> target <> ""%string ->
          (n < 1 \/ 64 < n) ->
          handle_traceroute params h =
            (Raise (HTTPException 400 "Max hops must be between 1 and 64"), h)) /\
      (forall (n : Z) (target : string),
          int_of_str (default "30"%string (params !! "max_hops"%string)) = Ok n ->
          params !! "target"%string = Some target -> target <> ""%string ->
          1 <= n <= 64 -> ~ plain_target target ->
          handle_traceroute params h =
            (Raise (HTTPException 400 "Invalid target format"), h))).
Proof.
  split.
  - intros params h. split; [| split; [| split]].
    + intros e He. split; [| by apply (int_of_str_raises _ e He)].
      unfold handle_network_ping. unfold bind at 1. unfold lift at 1. by rewrite He.
    + intros n Hn Ht. unfold handle_network_ping. unfold bind at 1. unfold lift at 1.
      rewrite Hn. by destruct Ht as [-> | ->].
    + intros n target Hn Ht Hne Hrange.
      unfold handle_network_ping. unfold bind at 1. unfold lift at 1. rewrite Hn, Ht.
      destruct (String.eqb_spec target ""); [done |].
      replace ((n <? 1) || (n >? 20)) with true; [reflexivity |].
      symmetry. apply orb_true_iff. lia.
    + intros n target Hn Ht Hne Hrange Hplain.
      unfold handle_network_ping. unfold bind at 1. unfold lift at 1. rewrite Hn, Ht.
      destruct (String.eqb_spec target ""); [done |].
      replace ((n <? 1) || (n >? 20)) with false
        by (symmetry; apply orb_false_iff; lia).
      destruct (target_check target) eqn:Hcheck; [| reflexivity].
      by apply target_check_plain in Hcheck.
  - intros params h. split; [| split; [| split]].
    + intros e He. split; [| by apply (int_of_str_raises _ e He)].
      unfold handle_traceroute. unfold bind at 1. unfold lift at 1. by rewrite He.
    + intros n Hn Ht. unfold handle_traceroute. unfold bind at 1. unfold lift at 1.
      rewrite Hn. by destruct Ht as [-> | ->].
    + intros n target Hn Ht Hne Hrange.
      unfold handle_traceroute. unfold bind at 1. unfold lift at 1. rewrite Hn, Ht.
      destruct (String.eqb_spec target ""); [done |].
      replace ((n <? 1) || (n >? 64)) with true; [reflexivity |].
      symmetry. apply orb_true_iff. lia.
    + intros n target Hn Ht Hne Hrange Hplain.
      unfold handle_traceroute. unfold bind at 1. unfold lift at 1. rewrite Hn, Ht.
      destruct (String.eqb_spec target ""); [done |].
      replace ((n <? 1) || (n >? 64)) with false
        by (symmetry; apply orb_false_iff; lia).
      destruct (target_check target) eqn:Hcheck; [| reflexivity].
      by apply target_check_plain in Hcheck.
Qed.

Lemma tool_requests_refused_witness :
  handle_network_ping {[ "count"%string := "many"%string ]} host_ok =
    (Raise (invalid_literal "many"), host_ok) /\
  handle_network_ping {[ "count"%string := "21"%string; "target"%string := "example.net"%string ]}
      host_ok =
    (Raise (HTTPException 400 "Count must be between 1 and 20"), host_ok) /\
  handle_traceroute {[ "max_hops"%string := "5"%string ]} host_ok =
    (Raise (HTTPException 400 "Target parameter required"), host_ok).
Proof.
  destruct tool_requests_refused as [Hping Htrace].
  split; [| split].
  - destruct (Hping {[ "count"%string := "many"%string ]} host_ok) as (H & _).
    apply (H (invalid_literal "many")). vm_compute. reflexivity.
  - destruct (Hping {[ "count"%string := "21"%string;
                       "target"%string := "example.net"%string ]} host_ok)
      as (_ & _ & H & _).
    apply (H 21 "example.net"%string);
      [vm_compute; reflexivity | vm_compute; reflexivity | discriminate | lia].
  - destruct (Htrace {[ "max_hops"%string := "5"%string ]} host_ok) as (_ & H & _).
    apply (H 5); [vm_compute; reflexivity | left; vm_compute; reflexivity].
Defined.

End ToolsFacts.
(* ===================================================================== *)
(** * Further properties of the speed-test endpoints *)
(* ===================================================================== *)

Section SpeedTestMore.
Import SpeedTest Download.

(** ** The chunks of a served file *)

Lemma generate_file_data_step (total_bytes bytes_sent : Z) :
  bytes_sent < total_bytes ->
  generate_file_data total_bytes bytes_sent =
    zeros (Z.min chunk_size (total_bytes - bytes_sent))
    :: generate_file_data total_bytes
         (bytes_sent + len (zeros (Z.min chunk_size (total_bytes - bytes_sent)))).
Proof.
  intros Hlt. funelim (generate_file_data total_bytes bytes_sent).
  - reflexivity.
  - lia.
Qed.

Lemma generate_file_data_done (total_bytes bytes_sent : Z) :
  total_bytes <= bytes_sent -> generate_file_data total_bytes bytes_sent = [].
Proof.
  intros Hge. funelim (generate_file_data total_bytes bytes_sent).
  - lia.
  - reflexivity.
Qed.

Lemma generate_file_data_whole_chunks (k : nat) (total_bytes bytes_sent : Z) :
  total_bytes - bytes_sent = Z.of_nat k * chunk_size ->
  generate_file_data total_bytes bytes_sent = repeat (zeros chunk_size) k.
Proof.
  revert bytes_sent. induction k as [| k IH]; intros bytes_sent Hk.
  - apply generate_file_data_done. lia.
  - assert (Hc : chunk_size = 65536) by reflexivity.
    rewrite generate_file_data_step by lia.
    replace (Z.min chunk_size (total_bytes - bytes_sent)) with chunk_size by lia.
    rewrite len_zeros by lia. cbn [repeat]. f_equal. apply IH. lia.
Qed.

(** X13.  The body of a served file is streamed in chunks of exactly 65536 zero
    bytes, [16 * size_mb] of them: the size in bytes is a multiple of the
    chunk size, so there is no shorter last chunk. *)
Theorem served_file_is_whole_chunks :
  forall (filename : string) (size_mb : Z) (lg : Log),
    named_size filename size_mb ->
    exists (r : Response) (lg' : Log),
      handle_speedtest_file filename lg = (Ok r, lg') /\
      content r = repeat (zeros 65536) (Z.to_nat (16 * size_mb)) /\
      length (content r) = Z.to_nat (16 * size_mb) /\
      Forall (fun chunk => len chunk = 65536) (content r).
Proof.
  intros filename size_mb lg Hnamed.
  assert (Hpos : 0 < size_mb) by (destruct Hnamed as (_ & _ & _ & _ & Hr); lia).
  apply size_of_filename_named in Hnamed.
  eexists _, _. split; [by apply handle_speedtest_file_ok |].
  cbn [content].
  rewrite (generate_file_data_whole_chunks (Z.to_nat (16 * size_mb)))
    by (unfold chunk_size; lia).
  change chunk_size with 65536.
  split; [reflexivity |]. split; [apply repeat_length |].
  apply List.Forall_forall. intros chunk Hin.
  apply repeat_spec in Hin. subst chunk.
  by apply len_zeros.
Qed.

Lemma served_file_is_whole_chunks_witness :
  exists (r : Response) (lg' : Log),
    handle_speedtest_file "1GB.bin" [] = (Ok r, lg') /\
    length (content r) = Z.to_nat (16 * 1024).
Proof.
  destruct (served_file_is_whole_chunks "1GB.bin"%string 1024 [])
    as (r & lg' & Hrun & _ & Hlen & _).
  - exists "1"%string, 1. split; [vm_compute; reflexivity |].
    split; [right; split; reflexivity | lia].
  - exists r, lg'. split; [exact Hrun | exact Hlen].
Defined.

(** ** The download generator *)

Lemma token_bytes_ok (n : Z) (rng : Rng) :
  0 <= n <= ssize_t_max ->
  exists chunk : bytes,
    token_bytes n rng =
      (Ok chunk, mk_rng (byte_at rng) (position rng + Z.to_nat n)) /\
    len chunk = n.
Proof.
  intros Hn. unfold token_bytes, ssize_t_min, ssize_t_max in *.
  replace ((n <? -9223372036854775808) || (n >? 9223372036854775807)) with false
    by (symmetry; apply orb_false_iff; lia).
  replace (n <? 0) with false by (symmetry; apply Z.ltb_ge; lia).
  eexists. split; [reflexivity |].
  unfold len. rewrite length_map, length_seq. lia.
Qed.

Lemma len_concat_cons (chunk : bytes) (chunks : list bytes) :
  len (concat (chunk :: chunks)) = len chunk + len (concat chunks).
Proof. unfold len. cbn [concat]. rewrite length_app. lia. Qed.

(** With a positive chunk size the generator ends, having given the bytes
    that were left, in chunks that are not empty and not longer than the
    chunk size. *)
Lemma generate_data_complete (turns : nat) (total_bytes chunk_bytes bytes_sent : Z)
    (rng : Rng) :
  1 <= chunk_bytes ->
  total_bytes - bytes_sent <= ssize_t_max ->
  (Z.to_nat (total_bytes - bytes_sent) < turns)%nat ->
  exists (chunks : list bytes) (rng' : Rng),
    generate_data turns total_bytes chunk_bytes bytes_sent rng =
      (chunks, Exhausted, rng') /\
    len (concat chunks) = Z.max 0 (total_bytes - bytes_sent) /\
    Forall (fun chunk => 0 < len chunk <= chunk_bytes) chunks /\
    position rng' = (position rng + Z.to_nat (total_bytes - bytes_sent))%nat.
Proof.
  intros Hchunk. revert bytes_sent rng.
  induction turns as [| turns IH]; intros bytes_sent rng Hmax Hturns; [lia |].
  cbn [generate_data]. destruct (bytes_sent <? total_bytes) eqn:Hlt.
  - apply Z.ltb_lt in Hlt.
    set (remaining := Z.min chunk_bytes (total_bytes - bytes_sent)).
    assert (Hrem : 1 <= remaining <= chunk_bytes) by (unfold remaining; lia).
    destruct (token_bytes_ok remaining rng) as (chunk & Htok & Hlen); [lia |].
    rewrite Htok.
    destruct (IH (bytes_sent + len chunk)
                 (mk_rng (byte_at rng) (position rng + Z.to_nat remaining)))
      as (chunks & rng' & Hgen & Htotal & Hall & Hpos).
    { rewrite Hlen. unfold remaining. lia. }
    { rewrite Hlen. unfold remaining. lia. }
    rewrite Hgen. exists (chunk :: chunks), rng'.
    split; [reflexivity |]. split; [| split].
    + rewrite len_concat_cons, Htotal, Hlen. unfold remaining. lia.
    + constructor; [lia | exact Hall].
    + rewrite Hpos, Hlen. cbn [position]. unfold remaining. lia.
  - apply Z.ltb_ge in Hlt. exists [], rng.
    split; [reflexivity |]. split; [| split].
    + change (len (concat [])) with 0. lia.
    + constructor.
    + replace (Z.to_nat (total_bytes - bytes_sent)) with 0%nat by lia. lia.
Qed.

(** Once the generator has ended, asking again changes nothing. *)
Lemma generate_data_more (turns more : nat) (total_bytes chunk_bytes bytes_sent : Z)
    (rng rng' : Rng) (chunks : list bytes) :
  generate_data turns total_bytes chunk_bytes bytes_sent rng =
    (chunks, Exhausted, rng') ->
  generate_data (turns + more) total_bytes chunk_bytes bytes_sent rng =
    (chunks, Exhausted, rng').
Proof.
  revert bytes_sent rng chunks.
  induction turns as [| turns IH]; intros bytes_sent rng chunks; [discriminate |].
  cbn [generate_data Nat.add].
  destruct (bytes_sent <? total_bytes); [| done].
  destruct (token_bytes _ rng) as [[chunk | e] rng1]; [| done].
  destruct (generate_data turns _ _ _ rng1) as [[chunks1 ending] rng2] eqn:Hgen.
  intros H. inversion H; subst.
  by rewrite (IH _ _ _ Hgen).
Qed.

(** With a chunk size of 0 every chunk is empty and the generator never
    ends. *)
Lemma generate_data_zero (turns : nat) (total_bytes bytes_sent : Z) (rng : Rng) :
  bytes_sent < total_bytes ->
  generate_data turns total_bytes 0 bytes_sent rng =
    (repeat [] turns, Suspended, mk_rng (byte_at rng) (position rng)).
Proof.
  intros Hlt. revert rng. induction turns as [| turns IH]; intros rng.
  - cbn. by destruct rng.
  - cbn [generate_data].
    replace (bytes_sent <? total_bytes) with true by (symmetry; apply Z.ltb_lt; lia).
    replace (Z.min 0 (total_bytes - bytes_sent)) with 0 by lia.
    change (token_bytes 0 rng)
      with (Ok ([] : bytes), mk_rng (byte_at rng) (position rng + 0)%nat).
    cbv beta iota. change (len []) with 0. rewrite Z.add_0_r, Nat.add_0_r.
    rewrite IH. reflexivity.
Qed.

(** ** The download endpoint *)

Lemma handle_speedtest_download_ok (params : gmap string string) (lg : Log) (c n : Z) :
  int_of_str (default "4"%string (params !! "ckSize"%string)) = Ok c ->
  int_of_str (default "10"%string (params !! "size"%string)) = Ok n ->
  1 <= n <= 1000 ->
  handle_speedtest_download params lg =
    (Ok (mk_streaming
           (fun turns => generate_data turns (n * 1024 * 1024) (c * 1024) 0)
           "application/octet-stream"
           [("Content-Length", str_int (n * 1024 * 1024));
            ("Cache-Control", "no-cache, no-store, must-revalidate");
            ("Pragma", "no-cache");
            ("Expires", "0")]%string),
     lg ++ ["Starting speed test download: " +:+ str_int n +:+ "MB"]).
Proof.
  intros Hc Hn Hrange. unfold handle_speedtest_download.
  unfold bind at 1. unfold lift at 1. rewrite Hc.
  unfold bind at 1. unfold try_except_ValueError, lift, checked_size. rewrite Hn.
  replace ((n <=? 0) || (n >? 1000)) with false
    by (symmetry; apply orb_false_iff; lia).
  reflexivity.
Qed.

(** X14.  With a chunk size of at least 1 (in KB) and a size between 1 and 1000
    (in MB) the download is served, and the body is complete: run to its
    end the generator gives exactly [size * 1024 * 1024] bytes from the
    random source, the number declared as [Content-Length], in chunks that
    are not empty and hold at most [ckSize * 1024] bytes. *)
Theorem download_body_is_complete :
  forall (params : gmap string string) (lg : Log) (c n : Z) (rng : Rng),
    int_of_str (default "4"%string (params !! "ckSize"%string)) = Ok c ->
    1 <= c ->
    int_of_str (default "10"%string (params !! "size"%string)) = Ok n ->
    1 <= n <= 1000 ->
    exists (r : Streaming) (lg' : Log),
      handle_speedtest_download params lg = (Ok r, lg') /\
      header "Content-Length" (s_headers r) = Some (str_int (n * 1024 * 1024)) /\
      exists (turns : nat) (chunks : list bytes) (rng' : Rng),
        (forall more : nat, body r (turns + more) rng = (chunks, Exhausted, rng')) /\
        len (concat chunks) = n * 1024 * 1024 /\
        Forall (fun chunk => 0 < len chunk <= c * 1024) chunks /\
        position rng' = (position rng + Z.to_nat (n * 1024 * 1024))%nat.
Proof.
  intros params lg c n rng Hc Hcpos Hn Hrange.
  eexists _, _. split; [by apply (handle_speedtest_download_ok params lg c n) |].
  cbn [s_headers body]. split; [reflexivity |].
  destruct (generate_data_complete (S (Z.to_nat (n * 1024 * 1024 - 0)))
              (n * 1024 * 1024) (c * 1024) 0 rng)
    as (chunks & rng' & Hgen & Hlen & Hall & Hpos);
    [lia | unfold ssize_t_max; lia | lia |].
  exists (S (Z.to_nat (n * 1024 * 1024 - 0))), chunks, rng'.
  split; [intros more; by apply generate_data_more |].
  split; [lia |]. split; [exact Hall |].
  rewrite Hpos. f_equal. lia.
Qed.

Lemma download_body_is_complete_witness :
  exists (r : Streaming) (lg' : Log),
    handle_speedtest_download ∅ [] = (Ok r, lg') /\
    header "Content-Length" (s_headers r) = Some (str_int (10 * 1024 * 1024)).
Proof.
  destruct (download_body_is_complete ∅ [] 4 10 rng_counting)
    as (r & lg' & Hrun & Hlen & _).
  - vm_compute. reflexivity.
  - lia.
  - vm_compute. reflexivity.
  - lia.
  - exists r, lg'. split; [exact Hrun | exact Hlen].
Defined.

(** X15.  A chunk size that is not positive is not refused: the response is
    returned with its [Content-Length], and the body never delivers a byte.
    With [ckSize=0] every chunk is empty and the generator does not end,
    however often it is asked.  With a negative [ckSize] the first turn
    raises what [secrets.token_bytes] raises for [ckSize * 1024]: its
    [ValueError] down to [ckSize = - 2 ^ 53], and [OverflowError] below,
    where the argument no longer fits a C [ssize_t]. *)
Theorem download_chunk_size_not_positive :
  forall (params : gmap string string) (lg : Log) (c n : Z),
    int_of_str (default "4"%string (params !! "ckSize"%string)) = Ok c ->
    c <= 0 ->
    int_of_str (default "10"%string (params !! "size"%string)) = Ok n ->
    1 <= n <= 1000 ->
    exists (r : Streaming) (lg' : Log),
      handle_speedtest_download params lg = (Ok r, lg') /\
      header "Content-Length" (s_headers r) = Some (str_int (n * 1024 * 1024)) /\
      (c = 0 ->
       forall (turns : nat) (rng : Rng),
         body r turns rng =
           (repeat [] turns, Suspended, mk_rng (byte_at rng) (position rng))) /\
      (-9007199254740992 <= c < 0 ->
       forall (turns : nat) (rng : Rng),
         body r (S turns) rng =
           ([], Broken (ValueError "negative argument not allowed"), rng)) /\
      (c < -9007199254740992 ->
       forall (turns : nat) (rng : Rng),
         body r (S turns) rng =
           ([], Broken (OverflowError "Python int too large to convert to C ssize_t"),
            rng)).
Proof.
  intros params lg c n Hc Hcneg Hn Hrange.
  eexists _, _. split; [by apply (handle_speedtest_download_ok params lg c n) |].
  cbn [s_headers body]. split; [reflexivity |]. split; [| split].
  - intros -> turns rng. apply generate_data_zero. lia.
  - intros Hneg turns rng. cbn [generate_data].
    replace (0 <? n * 1024 * 1024) with true by (symmetry; apply Z.ltb_lt; lia).
    replace (Z.min (c * 1024) (n * 1024 * 1024 - 0)) with (c * 1024) by lia.
    unfold token_bytes, ssize_t_min, ssize_t_max.
    replace ((c * 1024 <? -9223372036854775808) || (c * 1024 >? 9223372036854775807))
      with false by (symmetry; apply orb_false_iff; lia).
    by replace (c * 1024 <? 0) with true by (symmetry; apply Z.ltb_lt; lia).
  - intros Hneg turns rng. cbn [generate_data].
    replace (0 <? n * 1024 * 1024) with true by (symmetry; apply Z.ltb_lt; lia).
    replace (Z.min (c * 1024) (n * 1024 * 1024 - 0)) with (c * 1024) by lia.
    unfold token_bytes, ssize_t_min, ssize_t_max.
    by replace (c * 1024 <? -9223372036854775808) with true
      by (symmetry; apply Z.ltb_lt; lia).
Qed.

Lemma download_chunk_size_not_positive_witness :
  (exists (r : Streaming) (lg' : Log),
      handle_speedtest_download {[ "ckSize"%string := "0"%string ]} [] = (Ok r, lg') /\
      forall (turns : nat) (rng : Rng),
        body r turns rng =
          (repeat [] turns, Suspended, mk_rng (byte_at rng) (position rng))) /\
  (exists (r : Streaming) (lg' : Log),
      handle_speedtest_download {[ "ckSize"%string := "-1"%string ]} [] = (Ok r, lg') /\
      body r 1 rng_counting =
        ([], Broken (ValueError "negative argument not allowed"), rng_counting)) /\
  (exists (r : Streaming) (lg' : Log),
      handle_speedtest_download
        {[ "ckSize"%string := "-9007199254740993"%string ]} [] = (Ok r, lg') /\
      body r 1 rng_counting =
        ([], Broken (OverflowError "Python int too large to convert to C ssize_t"),
         rng_counting)).
Proof.
  split; [| split].
  - destruct (download_chunk_size_not_positive
                {[ "ckSize"%string := "0"%string ]} [] 0 10)
      as (r & lg' & Hrun & _ & Hzero & _).
    + vm_compute. reflexivity.
    + lia.
    + vm_compute. reflexivity.
    + lia.
    + exists r, lg'. split; [exact Hrun | by apply Hzero].
  - destruct (download_chunk_size_not_positive
                {[ "ckSize"%string := "-1"%string ]} [] (-1) 10)
      as (r & lg' & Hrun & _ & _ & Hneg & _).
    + vm_compute. reflexivity.
    + lia.
    + vm_compute. reflexivity.
    + lia.
    + exists r, lg'. split; [exact Hrun | apply Hneg; lia].
  - destruct (download_chunk_size_not_positive
                {[ "ckSize"%string := "-9007199254740993"%string ]} []
                (-9007199254740993) 10)
      as (r & lg' & Hrun & _ & _ & _ & Hover).
    + vm_compute. reflexivity.
    + lia.
    + vm_compute. reflexivity.
    + lia.
    + exists r, lg'. split; [exact Hrun | apply Hover; lia].
Defined.

Lemma checked_size_raises (size : string) (e : exn) :
  checked_size size = Raise e -> exists msg, e = ValueError msg.
Proof.
  unfold checked_size. destruct (int_of_str size) as [n | e'] eqn:Hn.
  - destruct (_ || _); intros H; inversion H. by eexists.
  - intros H; inversion H; subst. by apply (int_of_str_raises size).
Qed.

(** X16.  The parameters of the download.  [ckSize] is read first and outside
    the [try]: when it is no integer the [ValueError] of [int] leaves the
    handler, whatever [size] is.  Otherwise a [size] that is no integer, or
    not between 1 and 1000, is answered with status 400.  Nothing is logged
    in either case. *)
Theorem download_parameters_refused :
  forall (params : gmap string string) (lg : Log),
    (forall e : exn,
        int_of_str (default "4"%string (params !! "ckSize"%string)) = Raise e ->
        handle_speedtest_download params lg = (Raise e, lg) /\
        exists msg : string, e = ValueError msg) /\
    (forall c : Z,
        int_of_str (default "4"%string (params !! "ckSize"%string)) = Ok c ->
        (forall n : Z,
            int_of_str (default "10"%string (params !! "size"%string)) = Ok n ->
            n < 1 \/ 1000 < n) ->
        handle_speedtest_download params lg =
          (Raise (HTTPException 400 "Invalid size parameter"), lg)).
Proof.
  intros params lg. split.
  - intros e He. split; [| by apply (int_of_str_raises _ e He)].
    unfold handle_speedtest_download. unfold bind at 1. unfold lift at 1.
    by rewrite He.
  - intros c Hc Hsize. unfold handle_speedtest_download.
    unfold bind at 1. unfold lift at 1. rewrite Hc.
    unfold bind at 1. unfold try_except_ValueError, lift.
    destruct (checked_size (default "10"%string (params !! "size"%string)))
      as [n | e] eqn:Hchk.
    + exfalso. unfold checked_size in Hchk.
      destruct (int_of_str (default "10"%string (params !! "size"%string)))
        as [m | e] eqn:Hm; [| discriminate].
      destruct (Hsize m eq_refl) as [Hlo | Hhi].
      * replace ((m <=? 0) || (m >? 1000)) with true in Hchk; [discriminate |].
        symmetry. apply orb_true_iff. lia.
      * replace ((m <=? 0) || (m >? 1000)) with true in Hchk; [discriminate |].
        symmetry. apply orb_true_iff. lia.
    + destruct (checked_size_raises _ e Hchk) as [msg ->]. reflexivity.
Qed.

Lemma download_parameters_refused_witness :
  handle_speedtest_download {[ "ckSize"%string := "4k"%string ]} [] =
    (Raise (invalid_literal "4k"), []) /\
  handle_speedtest_download {[ "size"%string := "1001"%string ]} [] =
    (Raise (HTTPException 400 "Invalid size parameter"), []).
Proof.
  split.
  - destruct (download_parameters_refused {[ "ckSize"%string := "4k"%string ]} [])
      as [H _].
    apply (H (invalid_literal "4k")). vm_compute. reflexivity.
  - destruct (download_parameters_refused {[ "size"%string := "1001"%string ]} [])
      as [_ H].
    apply (H 4); [vm_compute; reflexivity |].
    intros n Hn. vm_compute in Hn. inversion Hn. lia.
Defined.

End SpeedTestMore.
(* ===================================================================== *)
(** * Further properties of the ALS configuration *)
(* ===================================================================== *)

Section AlsConfigMore.
Import Cache AlsConfig.

(** ** What [validate_als_config] returns *)

(** X17.  When the model is constructed, the errors returned are those of the
    speed-test checks, then those of the network-tools checks, then those
    of the bandwidth checks, and the configuration is valid exactly when
    all three lists are empty; only then is the line about a valid
    configuration logged. *)
Theorem validation_errors_in_order :
  forall (ALSFeatures_call : Value -> Res ALSFeatures)
         (config_data : gmap string Value) (als : ALSFeatures) (lg : Log),
    truthy (default (VDict []) (config_data !! "als_features"%string)) = true ->
    ALSFeatures_call (default (VDict []) (config_data !! "als_features"%string)) = Ok als ->
    exists (e1 : list string) (lg1 : Log),
      _validate_speedtest_config (speedtest als) lg = (Ok e1, lg1) /\
      let errors := e1 ++ _validate_network_tools_config (network_tools als)
                       ++ _validate_bandwidth_config (bandwidth als) in
      (errors = [] ->
       validate_als_config ALSFeatures_call config_data lg =
         (Ok (true, []), lg1 ++ ["ALS features configuration is valid"%string])) /\
      (errors <> [] ->
       validate_als_config ALSFeatures_call config_data lg = (Ok (false, errors), lg1)).
Proof.
  intros call config_data als lg Ht Hc.
  destruct (validate_body_constructed call config_data als lg Ht Hc)
    as (e1 & lg1 & H1 & Hb).
  exists e1, lg1. split; [exact H1 |]. cbn zeta in Hb |- *.
  unfold validate_als_config, try_except. rewrite Hb.
  destruct (e1 ++ _ ++ _) as [| x l]; split; intros H; done.
Qed.

Lemma validation_errors_in_order_witness :
  validate_als_config call_zero_size
      {[ "als_features"%string := VDict [("enabled"%string, VBool true)] ]} [] =
    (Ok (false, ["File size must be positive: 0MB"%string]), []).
Proof.
  destruct (validation_errors_in_order call_zero_size
              {[ "als_features"%string := VDict [("enabled"%string, VBool true)] ]}
              (mk_als (mk_speedtest true ["0MB"%string] "0MB" 4 true true)
                      NetworkToolsConfig_default BandwidthConfig_default true) [])
    as (e1 & lg1 & H1 & Hvalid & Hinvalid).
  - vm_compute. reflexivity.
  - reflexivity.
  - vm_compute in H1. inversion H1; subst e1 lg1.
    apply Hinvalid. discriminate.
Defined.

(** X18.  When the constructor of the model raises, the result is invalid with
    exactly one error, the text of the exception after a fixed prefix;
    nothing is logged. *)
Theorem constructor_failure_is_one_error :
  forall (ALSFeatures_call : Value -> Res ALSFeatures)
         (config_data : gmap string Value) (e : exn) (lg : Log),
    truthy (default (VDict []) (config_data !! "als_features"%string)) = true ->
    ALSFeatures_call (default (VDict []) (config_data !! "als_features"%string)) = Raise e ->
    validate_als_config ALSFeatures_call config_data lg =
      (Ok (false, ["ALS configuration validation error: " +:+ exn_str e]), lg).
Proof.
  intros call config_data e lg Ht Hc.
  unfold validate_als_config, try_except, validate_body. rewrite Ht. cbn [negb].
  unfold bind at 2. unfold lift at 1. rewrite Hc. reflexivity.
Qed.

Lemma constructor_failure_is_one_error_witness :
  validate_als_config call_refusing
      {[ "als_features"%string := VDict [("speedtest"%string, VInt 3)] ]} [] =
    (Ok (false, ["ALS configuration validation error: 1 validation error for ALSFeatures"%string]),
     []).
Proof.
  apply (constructor_failure_is_one_error call_refusing
           {[ "als_features"%string := VDict [("speedtest"%string, VInt 3)] ]}
           (ValidationError "1 validation error for ALSFeatures") []).
  - vm_compute. reflexivity.
  - reflexivity.
Defined.

(** X19.  A section that is present but false in Python's sense (an empty
    mapping, [None], [False], [0], an empty string or list) is treated as
    absent: the result is [(True, [])], one line is logged, and the model
    is not constructed, so even a constructor that would refuse it does
    not make the configuration invalid. *)
Theorem empty_section_counts_as_absent :
  forall (ALSFeatures_call : Value -> Res ALSFeatures)
         (config_data : gmap string Value) (section : Value) (lg : Log),
    config_data !! "als_features"%string = Some section ->
    truthy section = false ->
    validate_als_config ALSFeatures_call config_data lg =
      (Ok (true, []),
       lg ++ ["No ALS features configuration found, using defaults"%string]).
Proof.
  intros call config_data section lg Hs Ht.
  unfold validate_als_config, try_except, validate_body.
  rewrite Hs. cbn [default from_option id]. rewrite Ht. reflexivity.
Qed.

Lemma empty_section_counts_as_absent_witness :
  validate_als_config call_refusing {[ "als_features"%string := VDict [] ]} [] =
    (Ok (true, []), ["No ALS features configuration found, using defaults"%string]) /\
  validate_als_config call_refusing {[ "als_features"%string := VNone ]} [] =
    (Ok (true, []), ["No ALS features configuration found, using defaults"%string]).
Proof.
  split.
  - apply (empty_section_counts_as_absent call_refusing
             {[ "als_features"%string := VDict [] ]} (VDict []) []).
    + vm_compute. reflexivity.
    + reflexivity.
  - apply (empty_section_counts_as_absent call_refusing
             {[ "als_features"%string := VNone ]} VNone []).
    + vm_compute. reflexivity.
    + reflexivity.
Defined.

(** ** The checks against the constraints of the models *)

Lemma append_if_nil (cond : bool) (msg : string) (errors : list string) :
  append_if cond msg errors = [] <-> cond = false /\ errors = [].
Proof.
  unfold append_if. destruct cond.
  - split; [| intros [? _]; discriminate].
    intros H. by apply app_eq_nil in H as [_ ?].
  - tauto.
Qed.

Lemma within_spec (lo hi v : Z) : within lo hi v = true <-> lo <= v <= hi.
Proof. unfold within. rewrite andb_true_iff, !Z.leb_le. tauto. Qed.

Lemma out_of_range_false (lo hi v : Z) :
  (v <? lo) || (v >? hi) = false <-> lo <= v <= hi.
Proof. rewrite orb_false_iff, Z.ltb_ge, Z.gtb_ltb, Z.ltb_ge. tauto. Qed.

Lemma validate_port_range_ok (a b : Z) :
  match validate_port_range (a, b) with Ok _ => true | Raise _ => false end = true <->
  a < b /\ 1024 <= a /\ b <= 65535.
Proof.
  unfold validate_port_range.
  destruct (a >=? b) eqn:H1.
  - split; [discriminate |]. apply Z.geb_le in H1. lia.
  - rewrite Z.geb_leb in H1. apply Z.leb_gt in H1.
    destruct ((a <? 1024) || (b >? 65535)) eqn:H2.
    + split; [discriminate |]. apply orb_true_iff in H2.
      rewrite Z.ltb_lt, Z.gtb_ltb, Z.ltb_lt in H2. lia.
    + rewrite orb_false_iff, Z.ltb_ge, Z.gtb_ltb, Z.ltb_ge in H2. split; [lia | done].
Qed.

Lemma network_tools_checks_agree (c : NetworkToolsConfig) :
  _validate_network_tools_config c = [] <->
  nt_enabled c = false \/ NetworkToolsConfig_fields_ok c = true.
Proof.
  unfold _validate_network_tools_config, NetworkToolsConfig_fields_ok.
  destruct (nt_enabled c); cbn [negb]; [| tauto].
  destruct (iperf3_port_range c) as [a b].
  rewrite !append_if_nil, !andb_true_iff, !within_spec, validate_port_range_ok.
  rewrite !out_of_range_false.
  rewrite Z.geb_leb, Z.leb_gt.
  rewrite orb_false_iff, Z.ltb_ge, Z.gtb_ltb, Z.ltb_ge.
  split.
  - intros H. right. repeat split; try tauto; lia.
  - intros [H | H]; [discriminate |]. repeat split; try tauto; lia.
Qed.

Lemma bandwidth_checks_agree (c : BandwidthConfig) :
  _validate_bandwidth_config c = [] <->
  bw_enabled c = false \/ BandwidthConfig_fields_ok c = true.
Proof.
  unfold _validate_bandwidth_config, BandwidthConfig_fields_ok.
  destruct (bw_enabled c); cbn [negb]; [| tauto].
  rewrite !append_if_nil, !andb_true_iff, !within_spec, !out_of_range_false.
  split.
  - intros H. right. tauto.
  - intros [H | H]; [discriminate |]. tauto.
Qed.

(** The sizes accepted by the model's validator. *)
Lemma check_file_sizes_ok (v : list string) :
  SpeedTest.check_file_sizes v = Ok tt <->
  Forall (fun size => SpeedTest.has_valid_unit size = true /\
                      exists n, int_of_str (drop_last 2 size) = Ok n) v.
Proof.
  induction v as [| size v IH].
  - split; [constructor | reflexivity].
  - cbn [SpeedTest.check_file_sizes].
    destruct (SpeedTest.has_valid_unit size) eqn:Hu; cbn [negb].
    + destruct (int_of_str (drop_last 2 size)) as [n | e] eqn:Hn.
      * rewrite IH. split.
        -- intros H. constructor; [split; [exact Hu | by eexists] | exact H].
        -- intros H. by inversion H.
      * split.
        -- destruct e; discriminate.
        -- intros H. inversion H as [| ? ? [_ [n Hn']] _]. congruence.
    + split; [discriminate |].
      intros H. inversion H as [| ? ? [Hu' _] _]. congruence.
Qed.

(** The only errors the size loop adds for sizes that the model accepts
    are about sizes that are not positive. *)
Lemma file_size_errors_accepted (sizes errors : list string) :
  Forall (fun size => SpeedTest.has_valid_unit size = true /\
                      exists n, int_of_str (drop_last 2 size) = Ok n) sizes ->
  exists more : list string,
    file_size_errors sizes errors = Ok (errors ++ more) /\
    Forall (fun e => exists (size : string) (n : Z),
                       In size sizes /\ int_of_str (drop_last 2 size) = Ok n /\
                       n <= 0 /\ e = "File size must be positive: " +:+ size) more /\
    (Forall (fun size => exists n, int_of_str (drop_last 2 size) = Ok n /\ 0 < n) sizes ->
     more = []).
Proof.
  intros Hall. revert errors.
  induction Hall as [| size sizes [Hu [n Hn]] Hall IH]; intros errors.
  - exists []. rewrite app_nil_r. split; [reflexivity |]. split; [constructor | done].
  - cbn [file_size_errors]. rewrite Hu, Hn. cbn [negb].
    destruct (n <=? 0) eqn:Hle.
    + apply Z.leb_le in Hle.
      destruct (IH (errors ++ ["File size must be positive: " +:+ size]))
        as (more & Hrun & Hmore & _).
      exists (("File size must be positive: " +:+ size) :: more).
      split; [rewrite Hrun; by rewrite <- app_assoc |]. split.
      * constructor.
        -- exists size, n. split; [by left | done].
        -- eapply Forall_impl; [exact Hmore |].
           intros e (s & m & Hin & Hm & Hneg & ->). exists s, m.
           split; [by right | done].
      * intros Hpos. inversion Hpos as [| ? ? [m [Hm Hmpos]] _].
        rewrite Hn in Hm. inversion Hm. lia.
    + apply Z.leb_gt in Hle.
      destruct (IH errors) as (more & Hrun & Hmore & Hnone).
      exists more. split; [exact Hrun |]. split.
      * eapply Forall_impl; [exact Hmore |].
        intros e (s & m & Hin & Hm & Hneg & ->). exists s, m.
        split; [by right | done].
      * intros Hpos. apply Hnone. by inversion Hpos.
Qed.

(** X20.  The additional checks of the validator against the constraints that
    the model classes declare.  For the network tools and for the
    bandwidth monitor they agree exactly: an enabled section passes the
    checks if and only if it satisfies the bounds and the validator of its
    class.  For the speed test they differ in one point: the class accepts
    any integer before the unit, the checks want it positive; a section
    that satisfies its class gets no other error, and none at all when its
    sizes are positive. *)
Theorem checks_against_model_constraints :
  (forall c : NetworkToolsConfig,
      _validate_network_tools_config c = [] <->
      nt_enabled c = false \/ NetworkToolsConfig_fields_ok c = true) /\
  (forall c : BandwidthConfig,
      _validate_bandwidth_config c = [] <->
      bw_enabled c = false \/ BandwidthConfig_fields_ok c = true) /\
  (forall (c : SpeedTestConfig) (lg : Log),
      SpeedTestConfig_fields_ok c = true ->
      exists (errors : list string) (lg' : Log),
        _validate_speedtest_config c lg = (Ok errors, lg') /\
        Forall (fun e => exists (size : string) (n : Z),
                           In size (file_sizes c) /\
                           int_of_str (drop_last 2 size) = Ok n /\ n <= 0 /\
                           e = "File size must be positive: " +:+ size) errors /\
        (Forall (fun size => exists n, int_of_str (drop_last 2 size) = Ok n /\ 0 < n)
                (file_sizes c) ->
         errors = [])).
Proof.
  split; [exact network_tools_checks_agree |].
  split; [exact bandwidth_checks_agree |].
  intros c lg Hok. unfold SpeedTestConfig_fields_ok in Hok.
  apply andb_true_iff in Hok as [Hchunk Hsizes].
  apply within_spec in Hchunk.
  assert (Hall : Forall (fun size => SpeedTest.has_valid_unit size = true /\
                                     exists n, int_of_str (drop_last 2 size) = Ok n)
                        (file_sizes c)).
  { apply check_file_sizes_ok. unfold SpeedTest.validate_file_sizes in Hsizes.
    destruct (SpeedTest.check_file_sizes (file_sizes c)) as [[] | e]; [reflexivity | discriminate]. }
  unfold _validate_speedtest_config.
  destruct (st_enabled c); cbn [negb].
  - destruct (file_size_errors_accepted (file_sizes c) [] Hall)
      as (more & Hrun & Hmore & Hnone).
    unfold bind at 1. unfold lift at 1. rewrite Hrun. cbn [app].
    replace ((chunk_size c <? 1) || (chunk_size c >? 1024)) with false
      by (symmetry; apply out_of_range_false; lia).
    destruct (negb (bool_decide _)); eexists _, _; (split; [reflexivity |]); done.
  - eexists _, _. split; [reflexivity |]. split; [constructor | done].
Qed.

Lemma checks_against_model_constraints_witness :
  exists (errors : list string) (lg' : Log),
    _validate_speedtest_config SpeedTestConfig_default [] = (Ok errors, lg') /\
    errors = [].
Proof.
  destruct checks_against_model_constraints as (_ & _ & H).
  destruct (H SpeedTestConfig_default []) as (errors & lg' & Hrun & _ & Hnone).
  - vm_compute. reflexivity.
  - exists errors, lg'. split; [exact Hrun |]. apply Hnone.
    repeat constructor; eexists; (split; [vm_compute; reflexivity | lia]).
Defined.

(** ** The validator of the file sizes *)

Lemma has_valid_unit_app (s unit : string) :
  In unit SpeedTest.valid_units -> SpeedTest.has_valid_unit (s +:+ unit) = true.
Proof.
  unfold SpeedTest.has_valid_unit, SpeedTest.valid_units. cbn [existsb In].
  intros [<- | [<- | [<- | []]]]; rewrite endswith_app;
    repeat (match goal with
            | |- context [endswith ?a ?b] => destruct (endswith a b)
            end); reflexivity.
Qed.

Lemma check_file_sizes_raises (v : list string) (e : exn) :
  SpeedTest.check_file_sizes v = Raise e ->
  exists (before : list string) (size : string) (after : list string),
    v = before ++ size :: after /\
    Forall (fun size => SpeedTest.has_valid_unit size = true /\
                        exists n, int_of_str (drop_last 2 size) = Ok n) before /\
    ((SpeedTest.has_valid_unit size = false /\
      e = ValueError ("Invalid file size format: " +:+ size)) \/
     (SpeedTest.has_valid_unit size = true /\
      (exists e', int_of_str (drop_last 2 size) = Raise e') /\
      e = ValueError ("Invalid file size number: " +:+ size))).
Proof.
  induction v as [| size v IH]; [discriminate |].
  cbn [SpeedTest.check_file_sizes].
  destruct (SpeedTest.has_valid_unit size) eqn:Hunit; cbn [negb].
  - destruct (int_of_str (drop_last 2 size)) as [n | e'] eqn:Hn.
    + intros H. destruct (IH H) as (before & s & after & -> & Hall & Hs).
      exists (size :: before), s, after. split; [reflexivity |].
      split; [| exact Hs]. constructor; [| exact Hall]. split; [exact Hunit | by exists n].
    + destruct (int_of_str_raises _ _ Hn) as [msg ->].
      intros H. inversion H. exists [], size, v. split; [reflexivity |].
      split; [constructor |]. right. split; [exact Hunit |].
      split; [by eexists | reflexivity].
  - intros H. inversion H. exists [], size, v. split; [reflexivity |].
    split; [constructor |]. left. by split.
Qed.

(** X21.  [SpeedTestConfig.validate_file_sizes] returns the list it is given
    when every size ends with [KB], [MB] or [GB] and what precedes the last
    two characters reads as an integer.  Otherwise it raises [ValueError]
    about the first size that does not, every size before it being
    acceptable: "Invalid file size format: <size>" when the size lacks the
    unit, "Invalid file size number: <size>" when it has the unit and the
    rest is no integer.  The integer may be zero or negative: such a size
    passes the model and is reported only by the configuration
    validator. *)
Theorem file_sizes_accepted_by_the_model :
  forall v : list string,
    (SpeedTest.validate_file_sizes v = Ok v <->
     Forall (fun size => SpeedTest.has_valid_unit size = true /\
                         exists n, int_of_str (drop_last 2 size) = Ok n) v) /\
    (forall e : exn,
        SpeedTest.validate_file_sizes v = Raise e ->
        exists (before : list string) (size : string) (after : list string),
          v = before ++ size :: after /\
          Forall (fun size => SpeedTest.has_valid_unit size = true /\
                              exists n, int_of_str (drop_last 2 size) = Ok n) before /\
          ((SpeedTest.has_valid_unit size = false /\
            e = ValueError ("Invalid file size format: " +:+ size)) \/
           (SpeedTest.has_valid_unit size = true /\
            (exists e', int_of_str (drop_last 2 size) = Raise e') /\
            e = ValueError ("Invalid file size number: " +:+ size)))) /\
    (forall (s unit : string) (n : Z),
        In unit SpeedTest.valid_units ->
        int_of_str s = Ok n ->
        SpeedTest.validate_file_sizes [s +:+ unit] = Ok [s +:+ unit] /\
        (n <= 0 ->
         file_size_errors [s +:+ unit] [] =
           Ok ["File size must be positive: " +:+ (s +:+ unit)])).
Proof.
  intros v. split; [| split].
  - rewrite <- check_file_sizes_ok. unfold SpeedTest.validate_file_sizes.
    destruct (SpeedTest.check_file_sizes v) as [[] | e]; split; done.
  - intros e. unfold SpeedTest.validate_file_sizes.
    destruct (SpeedTest.check_file_sizes v) as [[] | e'] eqn:Hc; [discriminate |].
    intros H. inversion H; subst. by apply check_file_sizes_raises.
  - intros s unit n Hunit Hn.
    assert (Hlen : length (chars unit) = 2%nat).
    { unfold SpeedTest.valid_units in Hunit. cbn [In] in Hunit.
      by destruct Hunit as [<- | [<- | [<- | []]]]. }
    assert (Hdrop : drop_last 2 (s +:+ unit) = s).
    { rewrite <- Hlen. apply drop_last_app. }
    split.
    + unfold SpeedTest.validate_file_sizes, SpeedTest.check_file_sizes.
      rewrite (has_valid_unit_app s unit Hunit), Hdrop, Hn. reflexivity.
    + intros Hneg. cbn [file_size_errors].
      rewrite (has_valid_unit_app s unit Hunit), Hdrop, Hn. cbn [negb].
      replace (n <=? 0) with true by (symmetry; apply Z.leb_le; lia).
      reflexivity.
Qed.

Lemma file_sizes_accepted_by_the_model_witness :
  (SpeedTest.validate_file_sizes ["-5" +:+ "MB"] = Ok ["-5" +:+ "MB"] /\
   file_size_errors ["-5" +:+ "MB"] [] =
     Ok ["File size must be positive: " +:+ ("-5" +:+ "MB")]) /\
  (exists (before : list string) (size : string) (after : list string),
      ["1MB"; "5XB"; "xMB"]%string = before ++ size :: after /\
      Forall (fun size => SpeedTest.has_valid_unit size = true /\
                          exists n, int_of_str (drop_last 2 size) = Ok n) before /\
      ((SpeedTest.has_valid_unit size = false /\
        ValueError "Invalid file size format: 5XB" =
          ValueError ("Invalid file size format: " +:+ size)) \/
       (SpeedTest.has_valid_unit size = true /\
        (exists e', int_of_str (drop_last 2 size) = Raise e') /\
        ValueError "Invalid file size format: 5XB" =
          ValueError ("Invalid file size number: " +:+ size)))).
Proof.
  split.
  - destruct (file_sizes_accepted_by_the_model []) as (_ & _ & H).
    destruct (H "-5"%string "MB"%string (-5)) as [H1 H2].
    + right. left. reflexivity.
    + vm_compute. reflexivity.
    + split; [exact H1 | apply H2; lia].
  - destruct (file_sizes_accepted_by_the_model ["1MB"; "5XB"; "xMB"]%string)
      as (_ & H & _).
    apply (H (ValueError "Invalid file size format: 5XB")).
    vm_compute. reflexivity.
Defined.

(** ** The system requirements *)

(** X22.  [check_system_requirements] never raises; the requirements are met
    exactly when the list of missing tools is empty, which is exactly when
    [ping], [ping6], [traceroute], [traceroute6] and [iperf3] are all
    found; the list has one entry for each tool that is not found; and one
    line is logged either way. *)
Theorem system_requirements_met :
  forall (which : string -> bool) (lg : Log),
    exists (requirements_met : bool) (missing_tools : list string) (lg' : Log),
      check_system_requirements which lg = (Ok (requirements_met, missing_tools), lg') /\
      (requirements_met = true <-> missing_tools = []) /\
      (requirements_met = true <->
       Forall (fun tool => which tool = true)
              ["ping"; "ping6"; "traceroute"; "traceroute6"; "iperf3"]%string) /\
      length missing_tools =
        length (List.filter (fun tool => negb (which tool))
                  ["ping"; "ping6"; "traceroute"; "traceroute6"; "iperf3"]%string) /\
      length lg' = S (length lg).
Proof.
  intros which lg. unfold check_system_requirements, required_tools.
  cbn [flat_map List.filter].
  destruct (which "ping") eqn:H1; destruct (which "ping6") eqn:H2;
    destruct (which "traceroute") eqn:H3; destruct (which "traceroute6") eqn:H4;
    destruct (which "iperf3") eqn:H5; cbn [negb app];
    eexists _, _, _; (split; [reflexivity |]);
    (split; [done |]);
    (split; [| split; [reflexivity | unfold bind, log_warning, log_info;
                                     cbn [fst snd]; rewrite length_app; cbn; lia]]);
    (split; [try discriminate; intros _; repeat constructor; assumption
            | intros Hall; try reflexivity;
              repeat (match goal with
                      | H : Forall _ (_ :: _) |- _ => inversion H; clear H; subst
                      end); congruence]).
Qed.

End AlsConfigMore.
(* ===================================================================== *)
(** * Further properties of [query] *)
(* ===================================================================== *)

Section QueryMore.
Import Cache.

(** X23.  On a cache hit neither the executor nor the timestamp of the request is
    looked at: two requests with the same digest and the same random value,
    under parameters with the same cache timeout, are answered alike,
    whatever their execution would give.  This holds over any store. *)
Theorem hit_ignores_execution :
  forall (S : Type) (cache : RedisManager S) (env env' : Env) (data data' : Query)
         (s s1 : S) (lg : list string) (v : Value),
    digest data = digest data' ->
    random data = random data' ->
    cache_timeout env = cache_timeout env' ->
    get_map cache ("hyperglass.query." +:+ digest data) "output" s = (Ok v, s1) ->
    truthy v = true ->
    query cache env data (s, lg) = query cache env' data' (s, lg).
Proof.
  intros S cache env env' data data' s s1 lg v Hd Hr Ht Hget Hv.
  unfold query. rewrite <- Hd, <- Hr.
  unfold bind, log_msg, on_store. cbn [fst snd]. rewrite Hget.
  unfold hit_or_miss. rewrite Hv. rewrite <- Ht. reflexivity.
Qed.

Lemma hit_ignores_execution_witness :
  query mem_cache env_live a_query (store_with_entry, []) =
  query mem_cache
    (mk_env true 120 "Other message." (Raise (OSError "unreachable")) (Ok None) 9)
    (mk_query "d1" (VDatetime 3000) "r1") (store_with_entry, []).
Proof.
  apply (hit_ignores_execution MemStore mem_cache env_live _ a_query _
           store_with_entry store_with_entry [] (VStr "BGP table")).
  - reflexivity.
  - reflexivity.
  - reflexivity.
  - vm_compute. reflexivity.
  - reflexivity.
Defined.

(** X24.  A miss whose execution fails caches nothing.  When the executor returns
    no output, [query] raises [HyperglassError] with the general message;
    when the executor raises, its exception leaves [query].  In both cases
    the store is as the first lookup left it: no field is set and no
    expiry is requested. *)
Theorem failed_execution_caches_nothing :
  forall (S : Type) (cache : RedisManager S) (env : Env) (data : Query)
         (s s1 : S) (lg : list string) (v0 : Value),
    get_map cache ("hyperglass.query." +:+ digest data) "output" s = (Ok v0, s1) ->
    truthy v0 = false ->
    ((if fake_output env then fake_result env else execute_result env) = Ok None ->
     query cache env data (s, lg) =
       (Raise (HyperglassError (messages_general env)),
        (s1, lg ++ ["Starting query execution"; "Cache miss";
                    "Runtime: {!s} seconds"]%string))) /\
    (forall e : exn,
        (if fake_output env then fake_result env else execute_result env) = Raise e ->
        query cache env data (s, lg) =
          (Raise e, (s1, lg ++ ["Starting query execution"; "Cache miss"]%string))).
Proof.
  intros S cache env data s s1 lg v0 Hget Hv. split.
  - intros Hout. unfold query.
    unfold bind, log_msg, on_store. cbn [fst snd]. rewrite Hget.
    unfold hit_or_miss. rewrite Hv.
    unfold bind, log_msg, awaited, raise. cbn [fst snd]. rewrite Hout.
    by rewrite <- !app_assoc.
  - intros e Hout. unfold query.
    unfold bind, log_msg, on_store. cbn [fst snd]. rewrite Hget.
    unfold hit_or_miss. rewrite Hv.
    unfold bind, log_msg, awaited. cbn [fst snd]. rewrite Hout.
    by rewrite <- !app_assoc.
Qed.

Lemma failed_execution_caches_nothing_witness :
  query mem_cache (mk_env false 120 "Something went wrong." (Ok None) (Ok None) 2)
        a_query (store_empty, []) =
    (Raise (HyperglassError "Something went wrong."),
     (store_empty, ["Starting query execution"; "Cache miss";
                    "Runtime: {!s} seconds"]%string)).
Proof.
  destruct (failed_execution_caches_nothing MemStore mem_cache
              (mk_env false 120 "Something went wrong." (Ok None) (Ok None) 2)
              a_query store_empty store_empty [] VNone) as [H _].
  - vm_compute. reflexivity.
  - reflexivity.
  - apply H. reflexivity.
Defined.

(** X25.  Every response of [query], over any store: its id is the cache key,
    its level is ["success"], it has no keywords, it echoes the random
    value of the request, and its format is ["application/json"] exactly
    when the output read back from the store is a dict.  A cached response
    has runtime 0; one that is not cached has the measured runtime and the
    timestamp of the request. *)
Theorem response_shape :
  forall (S : Type) (cache : RedisManager S) (env : Env) (data : Query)
         (w w' : World) (r : Response),
    query cache env data w = (Ok r, w') ->
    r_id r = "hyperglass.query." +:+ digest data /\
    r_level r = "success"%string /\ r_keywords r = [] /\
    r_random r = random data /\
    r_format r = (if is_dict (r_output r) then "application/json" else "text/plain")%string /\
    (r_cached r = true -> r_runtime r = 0) /\
    (r_cached r = false ->
     r_runtime r = runtime env /\ r_timestamp r = q_timestamp data).
Proof.
  intros S cache env data w w' r.
  unfold query, hit_or_miss, bind, log_msg, on_store, awaited, raise, ret.
  cbn [fst snd].
  repeat (match goal with
          | |- context [match ?x with _ => _ end] =>
              lazymatch x with
              | context [match _ with _ => _ end] => fail
              | _ => destruct x eqn:?
              end
          | |- context [if ?b then _ else _] =>
              lazymatch b with
              | is_dict _ => fail
              | _ => destruct b eqn:?
              end
          end; cbn [fst snd]);
    intros H; inversion H; subst; cbn;
    repeat (match goal with Hd : is_dict _ = _ |- _ => rewrite Hd; clear Hd end);
    repeat split; intros; try reflexivity; try discriminate;
    cbn [r_output] in *; congruence.
Qed.

Lemma response_shape_witness :
  exists (r : Response) (w' : World),
    query mem_cache env_live a_query (store_with_entry, []) = (Ok r, w') /\
    r_id r = "hyperglass.query." +:+ digest a_query /\
    r_level r = "success"%string.
Proof.
  destruct (query mem_cache env_live a_query (store_with_entry, []))
    as [[r | e] w'] eqn:Hq.
  - exists r, w'. split; [reflexivity |].
    destruct (response_shape MemStore mem_cache env_live a_query
                (store_with_entry, []) w' r Hq) as (Hid & Hlevel & _).
    split; [exact Hid | exact Hlevel].
  - vm_compute in Hq. discriminate Hq.
Defined.

End QueryMore.
(* ===================================================================== *)
(** * Properties of start-up and shutdown *)
(* ===================================================================== *)

Section StartupFacts.
Import Cache AlsConfig Startup.

(** ** Steps that touch the log only *)

Lemma same_but_log_refl (a : App) : same_but_log a a.
Proof. by repeat split. Qed.

Lemma same_but_log_trans (a b c : App) :
  same_but_log a b -> same_but_log b c -> same_but_log a c.
Proof.
  intros (H1 & H2 & H3 & H4) (K1 & K2 & K3 & K4). repeat split; congruence.
Qed.

Lemma log_line_same (msg : string) (a : App) :
  exists a', log_line msg a = (Ok tt, a') /\ same_but_log a a'.
Proof. eexists. split; [reflexivity |]. by repeat split. Qed.

Lemma log_each_same (items : list string) (a : App) :
  exists a', log_each items a = (Ok tt, a') /\ same_but_log a a'.
Proof.
  revert a. induction items as [| item items IH]; intros a.
  - exists a. split; [reflexivity | apply same_but_log_refl].
  - cbn [log_each]. unfold bind.
    destruct (log_line_same ("  - " +:+ item) a) as (a1 & H1 & S1). rewrite H1.
    destruct (IH a1) as (a2 & H2 & S2). exists a2.
    split; [exact H2 | by apply (same_but_log_trans a a1 a2)].
Qed.

Lemma with_log_same {A} (c : M Log A) (a : App) :
  exists (r : Res A) (a' : App),
    with_log c a = (r, a') /\ same_but_log a a' /\
    r = (c (Bandwidth.log (loop a))).1.
Proof.
  unfold with_log. destruct (c (Bandwidth.log (loop a))) as [r lg].
  eexists _, _. split; [reflexivity |]. split; [| reflexivity]. by repeat split.
Qed.

(** The validator and the check of the tools return a pair. *)
Lemma validate_als_config_returns (call : Value -> Res ALSFeatures)
    (config_data : gmap string Value) (lg : Log) :
  exists (is_valid : bool) (errors : list string),
    (validate_als_config call config_data lg).1 = Ok (is_valid, errors).
Proof.
  unfold validate_als_config, try_except.
  destruct (truthy (default (VDict []) (config_data !! "als_features"%string)))
    eqn:Ht.
  - destruct (call (default (VDict []) (config_data !! "als_features"%string)))
      as [als | e] eqn:Hc.
    + destruct (validate_body_constructed call config_data als lg Ht Hc)
        as (e1 & lg1 & _ & Hb). cbn zeta in Hb. rewrite Hb.
      destruct (e1 ++ _ ++ _); by eexists _, _.
    + unfold validate_body. rewrite Ht. cbn [negb].
      unfold bind at 2. unfold lift at 1. rewrite Hc. by eexists _, _.
  - unfold validate_body. rewrite Ht. by eexists _, _.
Qed.

Lemma check_system_requirements_returns (which : string -> bool) (lg : Log) :
  exists (met : bool) (missing : list string),
    (check_system_requirements which lg).1 = Ok (met, missing).
Proof.
  unfold check_system_requirements. destruct (flat_map _ _); by eexists _, _.
Qed.

(** ** Start-up *)

Lemma monitor_start_effect (a : App) :
  exists a', monitor_start a = (Ok tt, a') /\
    iperf3 a' = iperf3 a /\
    Bandwidth.monitoring (monitor a') = true /\
    Bandwidth.interface_stats (monitor a') = Bandwidth.interface_stats (monitor a) /\
    Bandwidth.last_stats (monitor a') = Bandwidth.last_stats (monitor a).
Proof.
  unfold monitor_start, Bandwidth.start_monitoring.
  destruct (Bandwidth.monitoring (monitor a)) eqn:Hm.
  - eexists. split; [reflexivity |]. cbn. by rewrite Hm.
  - eexists. split; [reflexivity |]. cbn. done.
Qed.

(** X26.  [initialize_als_features] never raises and never touches the iperf3
    sessions or the histories.  It returns [False] in two cases only: the
    state cannot be read, or the features are enabled and the validator
    rejects the configuration (or the configuration cannot be dumped for
    it).  Missing system tools are logged and do not
    change the result.  The bandwidth monitor is started exactly when the
    result is [True] and the enabled configuration has the monitor enabled
    with [auto_start]; otherwise it is left as it was. *)
Theorem initialization_outcome :
  forall (ALSFeatures_call : Value -> Res ALSFeatures) (which : string -> bool)
         (use_state : Res Params) (a : App),
    exists (ok : bool) (a' : App),
      initialize_als_features ALSFeatures_call which use_state a = (Ok ok, a') /\
      iperf3 a' = iperf3 a /\
      Bandwidth.interface_stats (monitor a') = Bandwidth.interface_stats (monitor a) /\
      Bandwidth.last_stats (monitor a') = Bandwidth.last_stats (monitor a) /\
      (ok = false <->
       (exists e : exn, use_state = Raise e) \/
       (exists (state : Params) (als_config : ALSFeatures),
           use_state = Ok state /\ als_features state = Some als_config /\
           enabled als_config = true /\
           ((exists e : exn, model_dump state = Raise e) \/
            (exists (config_dict : gmap string Value) (errors : list string),
                model_dump state = Ok config_dict /\
                (validate_als_config ALSFeatures_call config_dict
                   (Bandwidth.log (loop a) ++ ["Initializing ALS features..."%string])).1 =
                  Ok (false, errors))))) /\
      Bandwidth.monitoring (monitor a') =
        Bandwidth.monitoring (monitor a) || (ok && wants_monitoring use_state).
Proof.
  intros call which use_state a.
  unfold initialize_als_features, try_except. unfold bind at 1. unfold lift at 1.
  destruct use_state as [state | e].
  2:{ (* the state cannot be read *)
      eexists _, _. split; [reflexivity |]. cbn.
      repeat split; try reflexivity.
      - intros _. left. by eexists.
      - by rewrite orb_false_r. }
  destruct (als_features state) as [cfg |] eqn:Hcfg.
  2:{ eexists _, _. split; [reflexivity |]. cbn. rewrite Hcfg.
      repeat split; try reflexivity; try discriminate.
      - intros [[e He] | (st & c & Hst & Hc & _)]; [discriminate |].
        inversion Hst; subst. congruence.
      - by rewrite orb_false_r. }
  destruct (enabled cfg) eqn:Hen; cbn [negb].
  2:{ eexists _, _. split; [reflexivity |]. cbn. rewrite Hcfg, Hen.
      repeat split; try reflexivity; try discriminate.
      - intros [[e He] | (st & c & Hst & Hc & Hen' & _)]; [discriminate |].
        inversion Hst; subst. congruence.
      - by rewrite orb_false_r. }
  (* enabled: the configuration is validated *)
  unfold bind at 1. unfold log_line at 1.
  set (a0 := mk_app (monitor a)
               (Bandwidth.log_line "Initializing ALS features..." (loop a)) (iperf3 a)).
  assert (S0 : same_but_log a a0) by (by repeat split).
  assert (Hlog0 : Bandwidth.log (loop a0) =
                  Bandwidth.log (loop a) ++ ["Initializing ALS features..."%string])
    by reflexivity.
  unfold bind at 1. unfold lift at 1.
  destruct (model_dump state) as [dump | e] eqn:Hdump.
  2:{ (* the configuration cannot be dumped *)
      destruct S0 as (Hm0 & Hi0 & _).
      eexists _, _. split; [reflexivity |]. cbn [monitor iperf3 log_line fst snd].
      repeat split; try reflexivity.
      - intros _. right. exists state, cfg. repeat split; try done. left. by eexists.
      - by rewrite orb_false_r. }
  unfold bind at 1.
  destruct (with_log_same (validate_als_config call dump) a0)
    as (r1 & a1 & Hw1 & S1 & Hr1).
  rewrite Hw1.
  destruct (validate_als_config_returns call dump (Bandwidth.log (loop a0)))
    as (is_valid & errors & Hval).
  rewrite Hval in Hr1. subst r1. rewrite Hlog0 in Hval.
  pose proof (same_but_log_trans a a0 a1 S0 S1) as S01.
  destruct is_valid; cbn [negb].
  2:{ (* rejected *)
      unfold bind at 1.
      destruct (log_line_same "ALS configuration validation failed:" a1)
        as (a2 & H2 & S2). rewrite H2.
      unfold bind at 1. destruct (log_each_same errors a2) as (a3 & H3 & S3).
      rewrite H3. unfold ret.
      pose proof (same_but_log_trans a a2 a3
                    (same_but_log_trans a a1 a2 S01 S2) S3) as (Hm & Hi & _).
      eexists _, _. split; [reflexivity |]. rewrite Hm.
      repeat split; try reflexivity; try exact Hi.
      - intros _. right. exists state, cfg. repeat split; try done.
        right. exists dump, errors. by split.
      - by rewrite orb_false_r. }
  (* accepted *)
  unfold bind at 1.
  destruct (with_log_same (check_system_requirements which) a1)
    as (r2 & a2 & Hw2 & S2 & Hr2).
  rewrite Hw2.
  destruct (check_system_requirements_returns which (Bandwidth.log (loop a1)))
    as (met & missing & Hreq).
  rewrite Hreq in Hr2. subst r2.
  pose proof (same_but_log_trans a a1 a2 S01 S2) as S02.
  unfold bind at 1.
  assert (Hwarn : exists a3,
             (if negb met
              then let* _ := log_line "Some ALS features may not work due to missing system tools:" in
                   log_each missing
              else ret tt) a2 = (Ok tt, a3) /\ same_but_log a a3).
  { destruct met; cbn [negb].
    - exists a2. split; [reflexivity | exact S02].
    - unfold bind.
      destruct (log_line_same "Some ALS features may not work due to missing system tools:" a2)
        as (b1 & Hb1 & Sb1). rewrite Hb1.
      destruct (log_each_same missing b1) as (b2 & Hb2 & Sb2). exists b2.
      split; [exact Hb2 |].
      exact (same_but_log_trans a b1 b2 (same_but_log_trans a a2 b1 S02 Sb1) Sb2). }
  destruct Hwarn as (a3 & Hw3 & S3). rewrite Hw3.
  unfold bind at 1.
  assert (Hfalse_iff : true = false <->
            (exists e : exn, Ok state = Raise e) \/
            (exists (state0 : Params) (als_config : ALSFeatures),
                Ok state = Ok state0 /\ als_features state0 = Some als_config /\
                enabled als_config = true /\
                ((exists e : exn, model_dump state0 = Raise e) \/
                 (exists (config_dict : gmap string Value) (errors0 : list string),
                     model_dump state0 = Ok config_dict /\
                     (validate_als_config call config_dict
                        (Bandwidth.log (loop a) ++ ["Initializing ALS features..."%string])).1 =
                       Ok (false, errors0))))).
  { split; [discriminate |].
    intros [[e He] | (st & c & Hst & _ & _ & [[e He] | (d & errs & Hd & Hv)])];
      [discriminate | |].
    - inversion Hst; subst st. congruence.
    - inversion Hst; subst st. rewrite Hdump in Hd. inversion Hd; subst d.
      rewrite Hval in Hv. discriminate. }
  destruct (bw_enabled (bandwidth cfg) && auto_start (bandwidth cfg)) eqn:Hauto.
  - (* the monitor is started *)
    unfold bind at 1. unfold start_bandwidth_monitoring, try_except.
    unfold bind at 1.
    destruct (monitor_start_effect a3) as (a4 & H4 & Hi4 & Hmon4 & Hst4 & Hls4).
    rewrite H4. unfold bind at 1. unfold log_line at 1. unfold ret at 1.
    unfold ret at 1. unfold bind at 1. unfold log_line at 1. unfold ret.
    destruct S3 as (Hm3 & Hi3 & _).
    eexists _, _. split; [reflexivity |]. cbn [monitor iperf3].
    split; [congruence |]. split; [congruence |]. split; [congruence |].
    split; [exact Hfalse_iff |].
    rewrite Hmon4. cbn [wants_monitoring]. rewrite Hcfg, Hen.
    change (true && bw_enabled (bandwidth cfg)) with (bw_enabled (bandwidth cfg)).
    rewrite Hauto. by rewrite orb_true_r.
  - unfold ret at 1. unfold bind at 1. unfold log_line at 1. unfold ret.
    destruct S3 as (Hm3 & Hi3 & _).
    eexists _, _. split; [reflexivity |]. cbn [monitor iperf3].
    rewrite Hm3. split; [exact Hi3 |]. split; [reflexivity |]. split; [reflexivity |].
    split; [exact Hfalse_iff |].
    cbn [wants_monitoring]. rewrite Hcfg, Hen.
    change (true && bw_enabled (bandwidth cfg)) with (bw_enabled (bandwidth cfg)).
    rewrite Hauto. by rewrite orb_false_r.
Qed.

(** ** Shutdown *)

Lemma wait_or_kill_trace (child : nat) (os : NetworkTools.OS) :
  exists evs, NetworkTools.trace (NetworkTools.wait_or_kill child os) =
              NetworkTools.trace os ++ evs /\
              forall c, NetworkTools.Terminate c ∉ evs.
Proof.
  unfold NetworkTools.wait_or_kill.
  destruct (NetworkTools.exit_delay os child) as [d |].
  - destruct (d <? NetworkTools.graceful_timeout_ms)%N; cbn.
    + eexists. split; [reflexivity |]. intros c Hc.
      apply list_elem_of_singleton in Hc. discriminate.
    + rewrite <- app_assoc. eexists. split; [reflexivity |]. intros c Hc.
      cbn in Hc. apply elem_of_cons in Hc as [Hc | Hc]; [discriminate |].
      apply list_elem_of_singleton in Hc. discriminate.
  - cbn. rewrite <- app_assoc. eexists. split; [reflexivity |]. intros c Hc.
    cbn in Hc. apply elem_of_cons in Hc as [Hc | Hc]; [discriminate |].
    apply list_elem_of_singleton in Hc. discriminate.
Qed.

Lemma wait_or_kill_has_exited (child : nat) (os : NetworkTools.OS) :
  NetworkTools.has_exited (NetworkTools.wait_or_kill child os) =
  NetworkTools.has_exited os.
Proof.
  unfold NetworkTools.wait_or_kill.
  destruct (NetworkTools.exit_delay os child) as [d |]; [| reflexivity].
  destruct (d <? NetworkTools.graceful_timeout_ms)%N; reflexivity.
Qed.

(** One stop.  Either the port holds the record of a process that has
    exited: the stop raises and nothing changes.  Or the stop returns: the
    port is free afterwards, and a process it held had not exited and has
    been sent the signal.  The other sessions stay in both cases. *)
Lemma iperf3_stop_effect (port : Z) (a : App) :
  exists (r : Res bool) (a' : App),
    iperf3_stop port a = (r, a') /\
    monitor a' = monitor a /\ loop a' = loop a /\
    NetworkTools.has_exited (iperf3 a').2 = NetworkTools.has_exited (iperf3 a).2 /\
    (forall q, q <> port ->
       NetworkTools.processes (iperf3 a').1 !! q =
         NetworkTools.processes (iperf3 a).1 !! q) /\
    (exists evs, NetworkTools.trace (iperf3 a').2 =
                 NetworkTools.trace (iperf3 a).2 ++ evs /\
                 forall c, NetworkTools.Terminate c ∈ evs ->
                   exists process,
                     NetworkTools.processes (iperf3 a).1 !! port = Some process /\
                     NetworkTools.pid process = c) /\
    ((r = Raise NetworkTools.ProcessLookupError /\ a' = a /\
      exists process,
        NetworkTools.processes (iperf3 a).1 !! port = Some process /\
        NetworkTools.has_exited (iperf3 a).2 (NetworkTools.pid process) = true) \/
     ((exists b, r = Ok b) /\
      NetworkTools.processes (iperf3 a').1 !! port = None /\
      forall process,
        NetworkTools.processes (iperf3 a).1 !! port = Some process ->
        NetworkTools.has_exited (iperf3 a).2 (NetworkTools.pid process) = false /\
        NetworkTools.Terminate (NetworkTools.pid process)
          ∈ NetworkTools.trace (iperf3 a').2)).
Proof.
  unfold iperf3_stop. destruct a as [mon lp [self os]]. cbn [iperf3 monitor loop].
  destruct (NetworkTools.processes self !! port) as [process |] eqn:Hp.
  - destruct (NetworkTools.has_exited os (NetworkTools.pid process)) eqn:Hx.
    + rewrite (stop_server_exited self os port process Hp Hx).
      eexists _, _. split; [reflexivity |]. cbn [monitor loop iperf3 fst snd].
      split; [reflexivity |]. split; [reflexivity |]. split; [reflexivity |].
      split; [done |].
      split; [exists []; split; [by rewrite app_nil_r | by intros c Hc%elem_of_nil] |].
      left. split; [reflexivity |]. split; [reflexivity |]. by exists process.
    + rewrite (stop_server_registered self os port process Hp Hx).
      eexists _, _. split; [reflexivity |]. cbn [monitor loop iperf3 fst snd].
      split; [reflexivity |]. split; [reflexivity |].
      cbn [NetworkTools.processes NetworkTools.os_emit NetworkTools.has_exited].
      split; [by rewrite wait_or_kill_has_exited |].
      split; [intros q Hq; by apply lookup_delete_ne |].
      destruct (wait_or_kill_trace (NetworkTools.pid process)
                  (NetworkTools.os_emit (NetworkTools.Terminate (NetworkTools.pid process)) os))
        as (evs & Hevs & Hnone).
      cbn [NetworkTools.os_emit NetworkTools.trace] in Hevs |- *.
      split.
      { rewrite Hevs, <- !app_assoc. eexists. split; [reflexivity |].
        intros c Hc. exists process. split; [exact Hp |].
        cbn [app] in Hc. apply elem_of_cons in Hc as [Hc | Hc]; [by injection Hc |].
        apply elem_of_app in Hc as [Hc | Hc]; [by apply Hnone in Hc |].
        apply list_elem_of_singleton in Hc. discriminate. }
      right. split; [by eexists |]. split; [apply lookup_delete_eq |].
      intros process' Hp'. rewrite Hp in Hp'. injection Hp' as <-.
      split; [exact Hx |].
      rewrite Hevs. rewrite !elem_of_app. left. left. right.
      apply list_elem_of_singleton. reflexivity.
  - rewrite (stop_server_unregistered self os port Hp).
    eexists _, _. split; [reflexivity |]. cbn [monitor loop iperf3 fst snd].
    split; [reflexivity |]. split; [reflexivity |]. split; [reflexivity |].
    split; [done |].
    split; [exists []; split; [by rewrite app_nil_r | by intros c Hc%elem_of_nil] |].
    right. split; [by eexists |]. split; [exact Hp |].
    intros process' Hp'. congruence.
Qed.

(** The loop over the ports.  Records are only removed, never those of
    processes that have exited; the loop ends normally exactly when it
    meets no such record, and then every port of the list is free and
    every process it held has been sent the signal. *)
Lemma stop_servers_effect (ports : list Z) (a : App) :
  exists (r : Res unit) (a' : App),
    stop_servers ports a = (r, a') /\
    monitor a' = monitor a /\ loop a' = loop a /\
    NetworkTools.has_exited (iperf3 a').2 = NetworkTools.has_exited (iperf3 a).2 /\
    (forall q, NetworkTools.processes (iperf3 a').1 !! q = None \/
               NetworkTools.processes (iperf3 a').1 !! q =
                 NetworkTools.processes (iperf3 a).1 !! q) /\
    (forall q process,
        NetworkTools.processes (iperf3 a).1 !! q = Some process ->
        NetworkTools.has_exited (iperf3 a).2 (NetworkTools.pid process) = true ->
        NetworkTools.processes (iperf3 a').1 !! q = Some process) /\
    (exists evs, NetworkTools.trace (iperf3 a').2 =
                 NetworkTools.trace (iperf3 a).2 ++ evs) /\
    (r = Ok tt ->
     forall q, q ∈ ports ->
       NetworkTools.processes (iperf3 a').1 !! q = None /\
       forall process,
         NetworkTools.processes (iperf3 a).1 !! q = Some process ->
         NetworkTools.Terminate (NetworkTools.pid process)
           ∈ NetworkTools.trace (iperf3 a').2) /\
    ((forall q process,
         q ∈ ports ->
         NetworkTools.processes (iperf3 a).1 !! q = Some process ->
         NetworkTools.has_exited (iperf3 a).2 (NetworkTools.pid process) = false) ->
     r = Ok tt) /\
    ((exists q process,
         q ∈ ports /\
         NetworkTools.processes (iperf3 a).1 !! q = Some process /\
         NetworkTools.has_exited (iperf3 a).2 (NetworkTools.pid process) = true) ->
     r = Raise NetworkTools.ProcessLookupError).
Proof.
  revert a. induction ports as [| port ports IH]; intros a.
  - exists (Ok tt), a. split; [reflexivity |]. split; [reflexivity |].
    split; [reflexivity |]. split; [reflexivity |]. split; [by right |].
    split; [done |]. split; [exists []; by rewrite app_nil_r |].
    split; [intros _ q Hq; by apply elem_of_nil in Hq |]. split; [done |].
    intros (q & process & Hq & _). by apply elem_of_nil in Hq.
  - cbn [stop_servers]. unfold bind.
    destruct (iperf3_stop_effect port a)
      as (r1 & a1 & H1 & Hm1 & Hl1 & Hx1 & Hother1 & (evs1 & Htr1 & _) & Hcase).
    rewrite H1.
    destruct Hcase as [(-> & -> & process & Hp & Hx) | ([b ->] & Hfree1 & Hlive1)].
    + (* the record of a process that has exited: the loop ends here *)
      exists (Raise NetworkTools.ProcessLookupError), a.
      split; [reflexivity |]. split; [reflexivity |]. split; [reflexivity |].
      split; [reflexivity |]. split; [by right |]. split; [done |].
      split; [exists []; by rewrite app_nil_r |].
      split; [discriminate |]. split; [| done].
      intros Hall. rewrite (Hall port process) in Hx; [discriminate | | exact Hp].
      apply elem_of_cons. by left.
    + destruct (IH a1)
        as (r2 & a2 & H2 & Hm2 & Hl2 & Hx2 & Hdel2 & Hkeep2 & [evs2 Htr2] & Hok2 & Hall2 & Hsome2).
      assert (Hsame : forall q process,
                 NetworkTools.processes (iperf3 a1).1 !! q = Some process ->
                 NetworkTools.processes (iperf3 a).1 !! q = Some process).
      { intros q process Hq. destruct (decide (q = port)) as [-> | Hne].
        - rewrite Hfree1 in Hq. discriminate.
        - by rewrite <- (Hother1 q Hne). }
      exists r2, a2. split; [exact H2 |]. split; [congruence |]. split; [congruence |].
      split; [congruence |].
      split; [| split; [| split; [| split; [| split]]]].
      * intros q. destruct (Hdel2 q) as [Hq | Hq]; [by left |]. rewrite Hq.
        destruct (decide (q = port)) as [-> | Hne]; [by left |].
        right. by apply Hother1.
      * intros q process Hq Hgone. apply Hkeep2; [| by rewrite Hx1].
        destruct (decide (q = port)) as [-> | Hne].
        -- destruct (Hlive1 process Hq) as [Hlive _]. congruence.
        -- by rewrite (Hother1 q Hne).
      * exists (evs1 ++ evs2). by rewrite Htr2, Htr1, app_assoc.
      * intros Hr q Hq. destruct (decide (q = port)) as [-> | Hne].
        -- split.
           ++ destruct (Hdel2 port) as [Hd | Hd]; [exact Hd | by rewrite Hd].
           ++ intros process Hp. rewrite Htr2. apply elem_of_app. left.
              by apply (Hlive1 process).
        -- apply elem_of_cons in Hq as [-> | Hq]; [done |].
           destruct (Hok2 Hr q Hq) as [Hnone Hterm]. split; [exact Hnone |].
           intros process Hp. apply Hterm. by rewrite (Hother1 q Hne).
      * intros Hall. apply Hall2. intros q process Hq Hp. rewrite Hx1.
        apply (Hall q process); [apply elem_of_cons; by right | by apply Hsame].
      * intros (q & process & Hq & Hp & Hgone). apply Hsome2.
        exists q, process.
        assert (Hne : q <> port).
        { intros ->. destruct (Hlive1 process Hp) as [Hlive _]. congruence. }
        apply elem_of_cons in Hq as [-> | Hq]; [done |].
        split; [exact Hq |]. split; [by rewrite (Hother1 q Hne) | by rewrite Hx1].
Qed.

(** The loop cut short.  When the ports [before] hold no record of a
    process that has exited and [port] does, the loop raises at [port]:
    the ports [before] are free, every other record is as it was, and the
    only processes signalled are those of the ports [before]. *)
Lemma stop_servers_cut (before after : list Z) (port : Z)
    (process : NetworkTools.Process) (a : App) :
  (forall q pr,
      q ∈ before ->
      NetworkTools.processes (iperf3 a).1 !! q = Some pr ->
      NetworkTools.has_exited (iperf3 a).2 (NetworkTools.pid pr) = false) ->
  port ∉ before ->
  NetworkTools.processes (iperf3 a).1 !! port = Some process ->
  NetworkTools.has_exited (iperf3 a).2 (NetworkTools.pid process) = true ->
  exists a' : App,
    stop_servers (before ++ port :: after) a =
      (Raise NetworkTools.ProcessLookupError, a') /\
    monitor a' = monitor a /\ loop a' = loop a /\
    (forall q, q ∈ before -> NetworkTools.processes (iperf3 a').1 !! q = None) /\
    (forall q, q ∉ before ->
       NetworkTools.processes (iperf3 a').1 !! q =
         NetworkTools.processes (iperf3 a).1 !! q) /\
    exists evs,
      NetworkTools.trace (iperf3 a').2 = NetworkTools.trace (iperf3 a).2 ++ evs /\
      forall c, NetworkTools.Terminate c ∈ evs ->
        exists q pr,
          q ∈ before /\
          NetworkTools.processes (iperf3 a).1 !! q = Some pr /\
          NetworkTools.pid pr = c.
Proof.
  revert a. induction before as [| q0 before IH]; intros a Hlive Hnotin Hp Hgone.
  - cbn [app stop_servers]. unfold bind.
    destruct (iperf3_stop_effect port a)
      as (r1 & a1 & H1 & _ & _ & _ & _ & _ & Hcase).
    rewrite H1.
    destruct Hcase as [(-> & -> & _) | (_ & _ & Hlive1)].
    + exists a. split; [reflexivity |]. split; [reflexivity |]. split; [reflexivity |].
      split; [by intros q Hq%elem_of_nil |]. split; [done |].
      exists []. split; [by rewrite app_nil_r | by intros c Hc%elem_of_nil].
    + destruct (Hlive1 process Hp) as [Hx _]. congruence.
  - cbn [app stop_servers]. unfold bind.
    destruct (iperf3_stop_effect q0 a)
      as (r1 & a1 & H1 & Hm1 & Hl1 & Hx1 & Hother1 & (evs1 & Htr1 & Hsig1) & Hcase).
    rewrite H1.
    destruct Hcase as [(_ & _ & pr & Hq0 & Hx) | ([b ->] & Hfree1 & _)].
    { rewrite (Hlive q0 pr) in Hx; [discriminate | | exact Hq0].
      apply elem_of_cons. by left. }
    apply not_elem_of_cons in Hnotin as [Hne Hnotin].
    assert (Hsame : forall q pr,
               NetworkTools.processes (iperf3 a1).1 !! q = Some pr ->
               NetworkTools.processes (iperf3 a).1 !! q = Some pr).
    { intros q pr Hq. destruct (decide (q = q0)) as [-> | Hq0].
      - rewrite Hfree1 in Hq. discriminate.
      - by rewrite <- (Hother1 q Hq0). }
    destruct (IH a1) as (a2 & H2 & Hm2 & Hl2 & Hfree2 & Hother2 & evs2 & Htr2 & Hsig2).
    { intros q pr Hq Hpr. rewrite Hx1. apply (Hlive q pr); [| by apply Hsame].
      apply elem_of_cons. by right. }
    { exact Hnotin. }
    { by rewrite (Hother1 port Hne). }
    { by rewrite Hx1. }
    exists a2. split; [exact H2 |]. split; [congruence |]. split; [congruence |].
    split; [| split].
    + intros q Hq. destruct (decide (q ∈ before)) as [Hin | Hout]; [by apply Hfree2 |].
      apply elem_of_cons in Hq as [-> | Hq]; [| done].
      by rewrite (Hother2 q0 Hout).
    + intros q Hq. apply not_elem_of_cons in Hq as [Hq0 Hout].
      rewrite (Hother2 q Hout). by apply Hother1.
    + exists (evs1 ++ evs2). split; [by rewrite Htr2, Htr1, app_assoc |].
      intros c Hc. apply elem_of_app in Hc as [Hc | Hc].
      * destruct (Hsig1 c Hc) as (pr & Hpr & Hpid). exists q0, pr.
        split; [apply elem_of_cons; by left | by split].
      * destruct (Hsig2 c Hc) as (q & pr & Hq & Hpr & Hpid). exists q, pr.
        split; [apply elem_of_cons; by right |]. split; [by apply Hsame | exact Hpid].
Qed.

Lemma monitor_stop_effect (a : App) :
  exists a', monitor_stop a = (Ok tt, a') /\
    iperf3 a' = iperf3 a /\
    Bandwidth.monitoring (monitor a') = false /\
    Bandwidth.interface_stats (monitor a') = Bandwidth.interface_stats (monitor a) /\
    Bandwidth.last_stats (monitor a') = Bandwidth.last_stats (monitor a).
Proof.
  unfold monitor_stop, Bandwidth.stop_monitoring.
  destruct (Bandwidth.monitoring (monitor a)) eqn:Hm; cbn [negb].
  - eexists. split; [reflexivity |]. cbn. done.
  - eexists. split; [reflexivity |]. cbn. by rewrite Hm.
Qed.

(** X27.  [shutdown_als_features] with the features enabled never raises.
    When the bandwidth section is enabled the monitor is not monitoring
    afterwards and keeps its histories.  When the network tools and iperf3
    are enabled, the sessions are stopped one by one in the order of the
    dict, whatever that order is, until one stop raises: records are only
    removed, and the record of a process that has exited is never removed.
    If no registered process has exited, no session is left, every process
    that had a session was sent the termination signal and
    "All iperf3 servers stopped" is logged.  If some registered process has
    exited, its [ProcessLookupError] is caught by [except Exception]: the
    loop is cut short, sessions are left registered, and
    "Error stopping iperf3 servers: " is logged.  More precisely, at the
    first port of the dict whose process has exited the loop ends: the
    sessions before it are removed, that session and every later one stay
    registered, and only the processes of the sessions before it are
    signalled.  When iperf3 is not enabled the sessions are left alone. *)
Theorem shutdown_outcome :
  forall (keys : gmap Z NetworkTools.Process -> list Z)
         (state : Params) (als_config : ALSFeatures) (a : App),
    (forall m, keys m ≡ₚ (map_to_list m).*1) ->
    als_features state = Some als_config ->
    enabled als_config = true ->
    exists a' : App,
      shutdown_als_features keys (Ok state) a = (Ok tt, a') /\
      Bandwidth.interface_stats (monitor a') = Bandwidth.interface_stats (monitor a) /\
      (bw_enabled (bandwidth als_config) = true ->
       Bandwidth.monitoring (monitor a') = false) /\
      (bw_enabled (bandwidth als_config) = false -> monitor a' = monitor a) /\
      (nt_enabled (network_tools als_config)
       && iperf3_enabled (network_tools als_config) = true ->
       (forall port : Z,
           NetworkTools.processes (iperf3 a').1 !! port = None \/
           NetworkTools.processes (iperf3 a').1 !! port =
             NetworkTools.processes (iperf3 a).1 !! port) /\
       (forall (port : Z) (process : NetworkTools.Process),
           NetworkTools.processes (iperf3 a).1 !! port = Some process ->
           NetworkTools.has_exited (iperf3 a).2 (NetworkTools.pid process) = true ->
           NetworkTools.processes (iperf3 a').1 !! port = Some process) /\
       ((forall (port : Z) (process : NetworkTools.Process),
            NetworkTools.processes (iperf3 a).1 !! port = Some process ->
            NetworkTools.has_exited (iperf3 a).2 (NetworkTools.pid process) = false) ->
        NetworkTools.processes (iperf3 a').1 = ∅ /\
        (forall (port : Z) (process : NetworkTools.Process),
            NetworkTools.processes (iperf3 a).1 !! port = Some process ->
            NetworkTools.Terminate (NetworkTools.pid process)
              ∈ NetworkTools.trace (iperf3 a').2) /\
        "All iperf3 servers stopped"%string ∈ Bandwidth.log (loop a')) /\
       ((exists (port : Z) (process : NetworkTools.Process),
            NetworkTools.processes (iperf3 a).1 !! port = Some process /\
            NetworkTools.has_exited (iperf3 a).2 (NetworkTools.pid process) = true) ->
        NetworkTools.processes (iperf3 a').1 <> ∅ /\
        "Error stopping iperf3 servers: "%string ∈ Bandwidth.log (loop a')) /\
       (forall (before after : list Z) (port : Z) (process : NetworkTools.Process),
           keys (NetworkTools.processes (iperf3 a).1) = before ++ port :: after ->
           (forall (q : Z) (pr : NetworkTools.Process),
               q ∈ before ->
               NetworkTools.processes (iperf3 a).1 !! q = Some pr ->
               NetworkTools.has_exited (iperf3 a).2 (NetworkTools.pid pr) = false) ->
           NetworkTools.processes (iperf3 a).1 !! port = Some process ->
           NetworkTools.has_exited (iperf3 a).2 (NetworkTools.pid process) = true ->
           (forall q : Z,
               q ∈ before -> NetworkTools.processes (iperf3 a').1 !! q = None) /\
           (forall q : Z,
               q ∉ before ->
               NetworkTools.processes (iperf3 a').1 !! q =
                 NetworkTools.processes (iperf3 a).1 !! q) /\
           exists evs : list NetworkTools.Event,
             NetworkTools.trace (iperf3 a').2 =
               NetworkTools.trace (iperf3 a).2 ++ evs /\
             forall c : nat,
               NetworkTools.Terminate c ∈ evs ->
               exists (q : Z) (pr : NetworkTools.Process),
                 q ∈ before /\
                 NetworkTools.processes (iperf3 a).1 !! q = Some pr /\
                 NetworkTools.pid pr = c)) /\
      (nt_enabled (network_tools als_config)
       && iperf3_enabled (network_tools als_config) = false ->
       iperf3 a' = iperf3 a).
Proof.
  intros keys state cfg a Hkeys Hcfg Hen.
  unfold shutdown_als_features. unfold try_except at 1.
  unfold bind at 1. unfold lift at 1.
  rewrite Hcfg, Hen. cbn [negb].
  unfold bind at 1. unfold log_line at 1.
  set (a0 := mk_app (monitor a)
               (Bandwidth.log_line "Shutting down ALS features..." (loop a)) (iperf3 a)).
  (* the monitor *)
  assert (Hbw : exists a1,
             (if bw_enabled (bandwidth cfg)
              then try_except
                     (let* _ := monitor_stop in log_line "Bandwidth monitoring stopped")
                     (fun e => log_line ("Error stopping bandwidth monitoring: " +:+ exn_str e))
              else ret tt) a0 = (Ok tt, a1) /\
             iperf3 a1 = iperf3 a /\
             Bandwidth.interface_stats (monitor a1) = Bandwidth.interface_stats (monitor a) /\
             (bw_enabled (bandwidth cfg) = true ->
              Bandwidth.monitoring (monitor a1) = false) /\
             (bw_enabled (bandwidth cfg) = false -> monitor a1 = monitor a)).
  { destruct (bw_enabled (bandwidth cfg)).
    - unfold try_except, bind.
      destruct (monitor_stop_effect a0) as (b & Hb & Hib & Hmb & Hsb & _).
      rewrite Hb. unfold log_line. eexists. split; [reflexivity |].
      cbn [monitor iperf3]. repeat split; try done.
    - exists a0. split; [reflexivity |]. repeat split; try done. }
  destruct Hbw as (a1 & Hrun1 & Hi1 & Hst1 & Hmon1 & Hsame1).
  unfold bind at 1. cbv beta iota. rewrite Hrun1.
  (* the sessions *)
  assert (Hnt : exists a2,
             (if nt_enabled (network_tools cfg) && iperf3_enabled (network_tools cfg)
              then try_except
                     (let* ports := (fun a => (Ok (session_ports keys a), a)) in
                      let* _ := stop_servers ports in
                      log_line "All iperf3 servers stopped")
                     (fun e => log_line ("Error stopping iperf3 servers: " +:+ exn_str e))
              else ret tt) a1 = (Ok tt, a2) /\
             monitor a2 = monitor a1 /\
             (nt_enabled (network_tools cfg) && iperf3_enabled (network_tools cfg) = true ->
              (forall port : Z,
                  NetworkTools.processes (iperf3 a2).1 !! port = None \/
                  NetworkTools.processes (iperf3 a2).1 !! port =
                    NetworkTools.processes (iperf3 a1).1 !! port) /\
              (forall (port : Z) (process : NetworkTools.Process),
                  NetworkTools.processes (iperf3 a1).1 !! port = Some process ->
                  NetworkTools.has_exited (iperf3 a1).2 (NetworkTools.pid process) = true ->
                  NetworkTools.processes (iperf3 a2).1 !! port = Some process) /\
              ((forall (port : Z) (process : NetworkTools.Process),
                   NetworkTools.processes (iperf3 a1).1 !! port = Some process ->
                   NetworkTools.has_exited (iperf3 a1).2 (NetworkTools.pid process) = false) ->
               NetworkTools.processes (iperf3 a2).1 = ∅ /\
               (forall (port : Z) (process : NetworkTools.Process),
                   NetworkTools.processes (iperf3 a1).1 !! port = Some process ->
                   NetworkTools.Terminate (NetworkTools.pid process)
                     ∈ NetworkTools.trace (iperf3 a2).2) /\
               "All iperf3 servers stopped"%string ∈ Bandwidth.log (loop a2)) /\
              ((exists (port : Z) (process : NetworkTools.Process),
                   NetworkTools.processes (iperf3 a1).1 !! port = Some process /\
                   NetworkTools.has_exited (iperf3 a1).2 (NetworkTools.pid process) = true) ->
               NetworkTools.processes (iperf3 a2).1 <> ∅ /\
               "Error stopping iperf3 servers: "%string ∈ Bandwidth.log (loop a2)) /\
              (forall (before after : list Z) (port : Z) (process : NetworkTools.Process),
                  keys (NetworkTools.processes (iperf3 a1).1) = before ++ port :: after ->
                  (forall (q : Z) (pr : NetworkTools.Process),
                      q ∈ before ->
                      NetworkTools.processes (iperf3 a1).1 !! q = Some pr ->
                      NetworkTools.has_exited (iperf3 a1).2 (NetworkTools.pid pr) = false) ->
                  NetworkTools.processes (iperf3 a1).1 !! port = Some process ->
                  NetworkTools.has_exited (iperf3 a1).2 (NetworkTools.pid process) = true ->
                  (forall q : Z,
                      q ∈ before -> NetworkTools.processes (iperf3 a2).1 !! q = None) /\
                  (forall q : Z,
                      q ∉ before ->
                      NetworkTools.processes (iperf3 a2).1 !! q =
                        NetworkTools.processes (iperf3 a1).1 !! q) /\
                  exists evs : list NetworkTools.Event,
                    NetworkTools.trace (iperf3 a2).2 =
                      NetworkTools.trace (iperf3 a1).2 ++ evs /\
                    forall c : nat,
                      NetworkTools.Terminate c ∈ evs ->
                      exists (q : Z) (pr : NetworkTools.Process),
                        q ∈ before /\
                        NetworkTools.processes (iperf3 a1).1 !! q = Some pr /\
                        NetworkTools.pid pr = c)) /\
             (nt_enabled (network_tools cfg) && iperf3_enabled (network_tools cfg) = false ->
              iperf3 a2 = iperf3 a1)).
  { destruct (nt_enabled (network_tools cfg) && iperf3_enabled (network_tools cfg)).
    2: { exists a1. split; [reflexivity |]. split; [reflexivity |].
         split; [discriminate | done]. }
    unfold try_except. unfold bind at 1. unfold bind at 1.
    destruct (stop_servers_effect (session_ports keys a1) a1)
      as (r & b & Hb & Hmb & Hlb & Hxb & Hdel & Hkeep & _ & Hok & Hall & Hsome).
    rewrite Hb.
    assert (Hports : forall q process,
               NetworkTools.processes (iperf3 a1).1 !! q = Some process ->
               q ∈ session_ports keys a1).
    { intros q process Hq. unfold session_ports. rewrite (Hkeys _).
      apply list_elem_of_fmap. exists (q, process). split; [reflexivity |].
      by apply elem_of_map_to_list. }
    assert (Hres : exists a2,
               match r with
               | Ok _ => log_line "All iperf3 servers stopped" b
               | Raise e => log_line ("Error stopping iperf3 servers: " +:+ exn_str e) b
               end = (Ok tt, a2) /\
               monitor a2 = monitor b /\ iperf3 a2 = iperf3 b /\
               (r = Ok tt ->
                "All iperf3 servers stopped"%string ∈ Bandwidth.log (loop a2)) /\
               (r = Raise NetworkTools.ProcessLookupError ->
                "Error stopping iperf3 servers: "%string ∈ Bandwidth.log (loop a2))).
    { destruct r as [u | e]; unfold log_line; eexists; (split; [reflexivity |]);
        cbn [monitor iperf3 loop Bandwidth.log_line Bandwidth.log];
        (split; [reflexivity |]); (split; [reflexivity |]); split; intros Hr;
        try discriminate.
      - apply elem_of_app. right. by apply list_elem_of_singleton.
      - injection Hr as ->. apply elem_of_app. right. by apply list_elem_of_singleton. }
    destruct Hres as (a2 & Hrun & Hm2 & Hi2 & Hlogok & Hlogerr).
    exists a2. split; [destruct r; exact Hrun |]. split; [congruence |].
    split; [| discriminate]. intros _. rewrite Hi2.
    split; [exact Hdel |]. split; [exact Hkeep |].
    split; [| split].
    3: { intros before after port process Hsplit Hlive Hp Hgone.
         assert (Hnotin : port ∉ before).
         { pose proof (NoDup_fst_map_to_list (NetworkTools.processes (iperf3 a1).1))
             as Hnodup.
           rewrite <- (Hkeys _), Hsplit in Hnodup.
           apply NoDup_app in Hnodup as (_ & Hdisj & _).
           intros Hin. apply (Hdisj port Hin). apply elem_of_cons. by left. }
         destruct (stop_servers_cut before after port process a1 Hlive Hnotin Hp Hgone)
           as (b' & Hb' & _ & _ & Hfree & Hother & Hevs).
         unfold session_ports in Hb. rewrite Hsplit, Hb' in Hb.
         injection Hb as _ <-. done. }
    - intros Hlive.
      assert (Hr : r = Ok tt).
      { apply Hall. intros q process _ Hq. by apply (Hlive q process). }
      split; [| split; [| by apply Hlogok]].
      + apply map_eq. intros q. rewrite lookup_empty.
        destruct (NetworkTools.processes (iperf3 a1).1 !! q) as [process |] eqn:Hq.
        * apply (Hok Hr q). by apply (Hports q process).
        * destruct (Hdel q) as [Hd | Hd]; [exact Hd | by rewrite Hd].
      + intros port process Hp.
        apply (Hok Hr port); [by apply (Hports port process) | exact Hp].
    - intros (port & process & Hp & Hgone).
      assert (Hr : r = Raise NetworkTools.ProcessLookupError).
      { apply Hsome. exists port, process.
        split; [by apply (Hports port process) | by split]. }
      split; [| by apply Hlogerr].
      intros Hempty. pose proof (Hkeep port process Hp Hgone) as Hstay.
      rewrite Hempty, lookup_empty in Hstay. discriminate. }
  destruct Hnt as (a2 & Hrun2 & Hm2 & Hstopped & Hleft).
  cbv beta iota. unfold bind at 1. cbv beta iota. rewrite Hrun2. unfold log_line.
  eexists. split; [reflexivity |]. cbn [monitor iperf3 loop].
  rewrite Hm2. split; [exact Hst1 |]. split; [exact Hmon1 |]. split; [exact Hsame1 |].
  split.
  - intros Hon. destruct (Hstopped Hon) as (Hdel & Hkeep & Hlive & Hgone & Hcut).
    rewrite Hi1 in Hdel, Hkeep, Hlive, Hgone, Hcut.
    split; [exact Hdel |]. split; [exact Hkeep |]. split; [| split].
    + intros Hall. destruct (Hlive Hall) as (H1 & H2 & H3).
      split; [exact H1 |]. split; [exact H2 |].
      cbn [Bandwidth.log_line Bandwidth.log]. apply elem_of_app. by left.
    + intros Hex. destruct (Hgone Hex) as (H1 & H2). split; [exact H1 |].
      cbn [Bandwidth.log_line Bandwidth.log]. apply elem_of_app. by left.
    + exact Hcut.
  - intros Hoff. rewrite (Hleft Hoff). exact Hi1.
Qed.

(** Two shutdowns with one session each: on a machine whose processes
    ignore SIGTERM the session is stopped; on a machine whose process has
    served its client and exited the session is left registered. *)
Lemma shutdown_outcome_witness :
  let params := mk_params (Some ALSFeatures_default) (Ok ∅) in
  let mon := (Bandwidth.start_monitoring Bandwidth.__init__ (Bandwidth.mk_loop 0 [] [])).1 in
  let a := mk_app mon (Bandwidth.mk_loop 1 [] [])
             (NetworkTools.start_server 300
                (NetworkTools.__init__, NetworkTools.os_stubborn)).2 in
  let b := mk_app mon (Bandwidth.mk_loop 1 [] [])
             (NetworkTools.start_server 300
                (NetworkTools.__init__, NetworkTools.os_finished)).2 in
  (exists a' : App,
      shutdown_als_features keys_of_map (Ok params) a = (Ok tt, a') /\
      Bandwidth.monitoring (monitor a') = false /\
      NetworkTools.processes (iperf3 a').1 = ∅) /\
  (exists b' : App,
      shutdown_als_features keys_of_map (Ok params) b = (Ok tt, b') /\
      Bandwidth.monitoring (monitor b') = false /\
      NetworkTools.processes (iperf3 b').1 <> ∅).
Proof.
  intros params mon a b. split.
  - destruct (shutdown_outcome keys_of_map params ALSFeatures_default a
                (fun m => reflexivity _) eq_refl eq_refl)
      as (a' & Hrun & _ & Hmon & _ & Hstop & _).
    exists a'. split; [exact Hrun |]. split; [apply Hmon; reflexivity |].
    destruct (Hstop eq_refl) as (_ & _ & Hlive & _).
    apply Hlive. intros port process _. reflexivity.
  - destruct (shutdown_outcome keys_of_map params ALSFeatures_default b
                (fun m => reflexivity _) eq_refl eq_refl)
      as (b' & Hrun & _ & Hmon & _ & Hstop & _).
    exists b'. split; [exact Hrun |]. split; [apply Hmon; reflexivity |].
    destruct (Hstop eq_refl) as (_ & _ & _ & Hgone & _).
    apply Hgone.
    exists 30000, (NetworkTools.mk_process 100
                     ["iperf3"; "-s"; "-p"; "30000"; "-1"; "--json"]%string).
    split; [vm_compute; reflexivity | reflexivity].
Defined.

End StartupFacts.
